(** * OpenBanking MCP server: data aggregation and agent routing

    A shallow embedding of [src/utils/bank_api_client.py],
    [src/agents/agent_manager.py] and the HTTP handlers of [src/main.py],
    followed by the properties of the aggregator, the availability probe
    and the two routing axes.

    Conventions of the embedding:
    - a Python [dict] with string keys is an insertion-ordered association
      list ([PyDict.t]); assignment to an existing key keeps its position;
    - a computation that may raise is an [outcome]; [try ... except
      Exception] is [try_except];
    - the bank service, the model runtime and the rendering of a value
      inside an f-string are the environment: they are the [Variable]s of
      the sections below;
    - log lines are not modelled, except where evaluating the logged
      expression can itself raise. *)

From Stdlib Require Import String Ascii List Arith ZArith.
From Stdlib Require Import DecimalString.
From Stdlib Require Import Floats.SpecFloat.
Import ListNotations.
Open Scope string_scope.

Set Warnings "-register-all".

(** ** Exceptions and computations that may raise *)

(** An exception is kept as its class name and the text [str(e)]. *)
Record exn : Type := Exn { exn_class : string; exn_str : string }.

Inductive outcome (A : Type) : Type :=
| Return (a : A)
| Raise (e : exn).
Arguments Return {A} a.
Arguments Raise {A} e.

Definition bind {A B : Type} (c : outcome A) (k : A -> outcome B) : outcome B :=
  match c with
  | Return a => k a
  | Raise e => Raise e
  end.

(** [try: body except Exception as e: handler e] *)
Definition try_except {A : Type} (body : outcome A) (handler : exn -> outcome A)
  : outcome A :=
  match body with
  | Return a => Return a
  | Raise e => handler e
  end.

Declare Scope py_scope.
Delimit Scope py_scope with py.
Notation "x <- c ;; k" := (bind c (fun x => k))
  (at level 61, c at next level, right associativity) : py_scope.
Open Scope py_scope.

(** ** Python dictionaries *)

Module PyDict.

Definition t (V : Type) : Type := list (string * V).

Definition empty {V : Type} : t V := [].

(** [d.get(k)] *)
Fixpoint get {V : Type} (d : t V) (k : string) : option V :=
  match d with
  | [] => None
  | (k', v) :: r => if String.eqb k' k then Some v else get r k
  end.

(** [d.get(k, default)] *)
Definition get_default {V : Type} (d : t V) (k : string) (default : V) : V :=
  match get d k with
  | Some v => v
  | None => default
  end.

(** [k in d] *)
Definition contains {V : Type} (d : t V) (k : string) : bool :=
  match get d k with
  | Some _ => true
  | None => false
  end.

(** [d[k] = v]: a present key keeps its place, a new key goes last. *)
Fixpoint set {V : Type} (d : t V) (k : string) (v : V) : t V :=
  match d with
  | [] => [(k, v)]
  | (k', v') :: r =>
      if String.eqb k' k then (k', v) :: r else (k', v') :: set r k v
  end.

(** [list(d.keys())] *)
Definition keys {V : Type} (d : t V) : list string := map fst d.

(** [d.items()] *)
Definition items {V : Type} (d : t V) : list (string * V) := d.

(** A dict display [{k1: v1, ..., kn: vn}], evaluated left to right. *)
Definition literal {V : Type} (kvs : list (string * V)) : t V :=
  fold_left (fun d kv => set d (fst kv) (snd kv)) kvs empty.

(** [bool(d)] *)
Definition truthy {V : Type} (d : t V) : bool :=
  match d with
  | [] => false
  | _ :: _ => true
  end.

(** [d[k]], which raises [KeyError] on a missing key. *)
Definition getitem {V : Type} (d : t V) (k : string) : outcome V :=
  match get d k with
  | Some v => Return v
  | None => Raise (Exn "KeyError" ("'" ++ k ++ "'"))
  end.

(** [d.clear()] *)
Definition clear {V : Type} (d : t V) : t V := [].

End PyDict.

(** ** Strings *)

Definition nl : string := String (ascii_of_nat 10) EmptyString.

(** [s.startswith(p)] *)
Definition startswith (s p : string) : bool := String.prefix p s.

(** [needle in hay] *)
Fixpoint str_contains (needle hay : string) : bool :=
  if String.prefix needle hay then true
  else match hay with
       | EmptyString => false
       | String _ r => str_contains needle r
       end.

(** [s.split(sep)[0]]: the text before the first separator. *)
Fixpoint split_head (sep : ascii) (s : string) : string :=
  match s with
  | EmptyString => EmptyString
  | String c r => if Ascii.eqb c sep then EmptyString else String c (split_head sep r)
  end.

Definition upper_ascii (c : ascii) : ascii :=
  let n := nat_of_ascii c in
  if ((97 <=? n)%nat && (n <=? 122)%nat)%bool then ascii_of_nat (n - 32) else c.

(** [s.upper()] on ASCII text: the letters [a] to [z] are mapped and
    every other character is kept.  Python's [str.upper] also maps
    letters outside ASCII, some of them to ASCII letters; on a text with
    such characters this definition is not [str.upper]. *)
Fixpoint upper (s : string) : string :=
  match s with
  | EmptyString => EmptyString
  | String c r => String (upper_ascii c) (upper r)
  end.

(** [s.isascii()] *)
Fixpoint is_ascii (s : string) : bool :=
  match s with
  | EmptyString => true
  | String c r => ((nat_of_ascii c <? 128)%nat && is_ascii r)%bool
  end.

(** [str(n)] for an [int]. *)
Definition str_of_int (n : Z) : string := NilZero.string_of_int (Z.to_int n).

(** [o if o is not None else default] *)
Definition option_default {A : Type} (o : option A) (default : A) : A :=
  match o with
  | Some a => a
  | None => default
  end.

(** [bool(s)] *)
Definition str_truthy (s : string) : bool :=
  match s with
  | EmptyString => false
  | String _ _ => true
  end.

(** [bool(o)] for an [Optional[str]]. *)
Definition opt_truthy (o : option string) : bool :=
  match o with
  | Some s => str_truthy s
  | None => false
  end.

(** [a or b] on [Optional[str]] operands. *)
Definition opt_or (a b : option string) : option string :=
  if opt_truthy a then a else b.

(** An [Optional[str]] inside an f-string. *)
Definition fmt_opt (o : option string) : string :=
  match o with
  | Some s => s
  | None => "None"
  end.

(** [template.format(CustomerOID=oid)] for ASCII templates built from
    literal text, the escapes [{{] and [}}] and replacement fields that
    hold a name only.  The field [{CustomerOID}] gives the subject; a
    field with another name has no keyword argument to draw from
    ([KeyError]), an empty or numeric field has no positional argument
    ([IndexError]; [ValueError] when the number is above the largest
    index of a 64-bit build), and an unbalanced brace is a [ValueError].
    Fields with a conversion ([!r]), a format specification ([:>8]), an
    attribute or an index are not modelled. *)
Inductive fmt_mode : Type :=
| FmtText
| FmtOpen
| FmtField (rev_name : string)
| FmtClose.

Fixpoint rev_string (s acc : string) : string :=
  match s with
  | EmptyString => acc
  | String c r => rev_string r (String c acc)
  end.

Definition is_digit (c : ascii) : bool :=
  ((48 <=? nat_of_ascii c)%nat && (nat_of_ascii c <=? 57)%nat)%bool.

Fixpoint all_digits (s : string) : bool :=
  match s with
  | EmptyString => true
  | String c r => (is_digit c && all_digits r)%bool
  end.

(** The number a text of decimal digits stands for. *)
Fixpoint digits_value (s : string) (acc : Z) : Z :=
  match s with
  | EmptyString => acc
  | String c r => digits_value r (acc * 10 + Z.of_nat (nat_of_ascii c - 48))%Z
  end.

Definition format_field (name oid : string) : outcome string :=
  if String.eqb name "CustomerOID" then Return oid
  else if String.eqb name "" then
    Raise (Exn "IndexError" "Replacement index 0 out of range for positional args tuple")
  else if all_digits name then
    if (9223372036854775807 <? digits_value name 0)%Z then
      Raise (Exn "ValueError" "Too many decimal digits in format string")
    else
      Raise (Exn "IndexError"
               ("Replacement index " ++ str_of_int (digits_value name 0)
                ++ " out of range for positional args tuple"))
  else Raise (Exn "KeyError" ("'" ++ name ++ "'")).

Fixpoint format_from (mode : fmt_mode) (template oid : string) : outcome string :=
  match template with
  | EmptyString =>
      match mode with
      | FmtText => Return EmptyString
      | FmtOpen => Raise (Exn "ValueError" "Single '{' encountered in format string")
      | FmtField _ => Raise (Exn "ValueError" "expected '}' before end of string")
      | FmtClose => Raise (Exn "ValueError" "Single '}' encountered in format string")
      end
  | String c r =>
      match mode with
      | FmtText =>
          if Ascii.eqb c "{" then format_from FmtOpen r oid
          else if Ascii.eqb c "}" then format_from FmtClose r oid
          else rest <- format_from FmtText r oid ;; Return (String c rest)
      | FmtOpen =>
          if Ascii.eqb c "{" then
            rest <- format_from FmtText r oid ;; Return (String "{" rest)
          else if Ascii.eqb c "}" then
            v <- format_field "" oid ;;
            rest <- format_from FmtText r oid ;; Return (v ++ rest)
          else format_from (FmtField (String c EmptyString)) r oid
      | FmtField rev_name =>
          if Ascii.eqb c "}" then
            v <- format_field (rev_string rev_name EmptyString) oid ;;
            rest <- format_from FmtText r oid ;; Return (v ++ rest)
          else format_from (FmtField (String c rev_name)) r oid
      | FmtClose =>
          if Ascii.eqb c "}" then
            rest <- format_from FmtText r oid ;; Return (String "}" rest)
          else Raise (Exn "ValueError" "Single '}' encountered in format string")
      end
  end.

Definition str_format (template oid : string) : outcome string :=
  format_from FmtText template oid.

(** ** Decoded JSON values *)

Inductive json : Type :=
| JNull
| JBool (b : bool)
| JInt (n : Z)
| JFloat (x : spec_float)
| JStr (s : string)
| JArr (elems : list json)
| JObj (fields : PyDict.t json).

Definition type_name (v : json) : string :=
  match v with
  | JNull => "NoneType"
  | JBool _ => "bool"
  | JInt _ => "int"
  | JFloat _ => "float"
  | JStr _ => "str"
  | JArr _ => "list"
  | JObj _ => "dict"
  end.

(** [data.get(k, default)]: only a [dict] has the method. *)
Definition json_get (data : json) (k : string) (default : json) : outcome json :=
  match data with
  | JObj d => Return (PyDict.get_default d k default)
  | _ => Raise (Exn "AttributeError"
                  ("'" ++ type_name data ++ "' object has no attribute 'get'"))
  end.

(** [len(v)] *)
Definition py_len (v : json) : outcome Z :=
  match v with
  | JStr s => Return (Z.of_nat (String.length s))
  | JArr l => Return (Z.of_nat (List.length l))
  | JObj d => Return (Z.of_nat (List.length d))
  | _ => Raise (Exn "TypeError"
                  ("object of type '" ++ type_name v ++ "' has no len()"))
  end.

(** [bool(v)] *)
Definition py_truthy (v : json) : bool :=
  match v with
  | JNull => false
  | JBool b => b
  | JInt n => negb (Z.eqb n 0)
  | JFloat x => match x with S754_zero _ => false | _ => true end
  | JStr s => str_truthy s
  | JArr l => match l with [] => false | _ :: _ => true end
  | JObj d => PyDict.truthy d
  end.

(** The per-source error marker [{"error": message}]. *)
Definition error_dict (message : string) : json :=
  JObj (PyDict.literal [("error", JStr message)]).

(** ** Configuration ([src/config/config.py]) *)

Module BankApiConfig.

Record t : Type := Build {
  base_url : string;
  timeout : Z;
  api_key : string;
  endpoints : PyDict.t string
}.

(** The dataclass defaults. *)
Definition default : t := {|
  base_url := "http://localhost:3000";
  timeout := 10;
  api_key := "";
  endpoints := PyDict.literal
    [ ("customer", "/api/customers/{CustomerOID}");
      ("portfolio", "/api/portfolio/{CustomerOID}");
      ("transactions", "/api/transactions/{CustomerOID}");
      ("accounts", "/api/accounts/{CustomerOID}");
      ("market_data", "/api/market-data");
      ("risk_metrics", "/api/risk/{CustomerOID}") ]
|}.

End BankApiConfig.

Module AgentConfig.

Record t : Type := Build {
  name : string;
  model : string;
  role : string;
  system_prompt : string;
  temperature : spec_float;
  max_tokens : Z;
  enabled : bool
}.

(** The binary64 value of the literal [0.7]. *)
Definition default_temperature : spec_float :=
  S754_finite false 6305039478318694 (-53).

(** The constructor with the dataclass defaults for the last three
    fields. *)
Definition make (name model role system_prompt : string) : t :=
  Build name model role system_prompt default_temperature 2048 true.

End AgentConfig.

(** ** The bank API client ([src/utils/bank_api_client.py]) *)

(** One HTTP exchange as [httpx] receives it. *)
Record http_request : Type := HttpRequest {
  req_method : string;
  req_url : string;
  req_headers : PyDict.t string;
  req_json : option json;
  req_timeout : Z
}.

Module BankApiClient.

Record t : Type := Build {
  config : BankApiConfig.t;
  base_url : string;
  timeout : Z;
  api_key : string;
  endpoints : PyDict.t string
}.

Definition __init__ (config : BankApiConfig.t) : t := {|
  config := config;
  base_url := BankApiConfig.base_url config;
  timeout := BankApiConfig.timeout config;
  api_key := BankApiConfig.api_key config;
  endpoints := BankApiConfig.endpoints config
|}.

Section Requests.

(** The bank service behind [httpx]: sending the request, checking
    the status ([raise_for_status]) and decoding the body
    ([response.json()]).  Any of the three may raise. *)
Variable send : http_request -> outcome json.

Definition _make_request (self : t) (endpoint method : string)
    (data : option json) : outcome json :=
  try_except
    (let headers := PyDict.literal
         [ ("Content-Type", "application/json");
           ("Accept", "application/json") ] in
     let headers :=
       if str_truthy (api_key self)
       then PyDict.set headers "Authorization" ("Bearer " ++ api_key self)
       else headers in
     let url := base_url self ++ endpoint in
     if String.eqb (upper method) "GET" then
       send (HttpRequest "GET" url headers None (timeout self))
     else if String.eqb (upper method) "POST" then
       send (HttpRequest "POST" url headers data (timeout self))
     else Raise (Exn "ValueError" ("Unsupported HTTP method: " ++ method)))
    (fun e => Raise e).

Definition get_customer_data (self : t) (customer_oid : string) : outcome json :=
  try_except
    (template <- PyDict.getitem (endpoints self) "customer" ;;
     endpoint <- str_format template customer_oid ;;
     data <- _make_request self endpoint "GET" None ;;
     Return data)
    (fun e => Return (error_dict ("Failed to retrieve customer data: " ++ exn_str e))).

Definition get_portfolio_data (self : t) (customer_oid : string) : outcome json :=
  try_except
    (template <- PyDict.getitem (endpoints self) "portfolio" ;;
     endpoint <- str_format template customer_oid ;;
     data <- _make_request self endpoint "GET" None ;;
     Return data)
    (fun e => Return (error_dict ("Failed to retrieve portfolio data: " ++ exn_str e))).

(** The log line of [get_transactions] evaluates
    [len(data.get('transactions', []))] before the payload is
    returned, so it is part of the body. *)
Definition get_transactions (self : t) (customer_oid : string) (limit : Z)
  : outcome json :=
  try_except
    (template <- PyDict.getitem (endpoints self) "transactions" ;;
     endpoint <- str_format template customer_oid ;;
     let endpoint :=
       if negb (Z.eqb limit 0) then endpoint ++ "?limit=" ++ str_of_int limit
       else endpoint in
     data <- _make_request self endpoint "GET" None ;;
     entries <- json_get data "transactions" (JArr []) ;;
     _ <- py_len entries ;;
     Return data)
    (fun e => Return (error_dict ("Failed to retrieve transactions: " ++ exn_str e))).

Definition get_accounts (self : t) (customer_oid : string) : outcome json :=
  try_except
    (template <- PyDict.getitem (endpoints self) "accounts" ;;
     endpoint <- str_format template customer_oid ;;
     data <- _make_request self endpoint "GET" None ;;
     Return data)
    (fun e => Return (error_dict ("Failed to retrieve accounts: " ++ exn_str e))).

(** [bool(symbols)] for an [Optional[List[str]]]. *)
Definition symbols_truthy (symbols : option (list string)) : bool :=
  match symbols with
  | Some (_ :: _) => true
  | _ => false
  end.

Definition get_market_data (self : t) (symbols : option (list string)) : outcome json :=
  try_except
    (endpoint <- PyDict.getitem (endpoints self) "market_data" ;;
     let endpoint :=
       if symbols_truthy symbols
       then endpoint ++ "?symbols=" ++ String.concat "," (option_default symbols [])
       else endpoint in
     data <- _make_request self endpoint "GET" None ;;
     Return data)
    (fun e => Return (error_dict ("Failed to retrieve market data: " ++ exn_str e))).

Definition get_risk_metrics (self : t) (customer_oid : string) : outcome json :=
  try_except
    (template <- PyDict.getitem (endpoints self) "risk_metrics" ;;
     endpoint <- str_format template customer_oid ;;
     data <- _make_request self endpoint "GET" None ;;
     Return data)
    (fun e => Return (error_dict ("Failed to retrieve risk metrics: " ++ exn_str e))).

(** [asyncio.gather(..., return_exceptions=True)]: every task runs to
    its end, and an exception that escapes a task is handed back as
    that task's result. *)
Definition gather_return_exceptions {A : Type} (tasks : list (outcome A))
  : outcome (list (outcome A)) :=
  Return tasks.

(** [x if not isinstance(x, Exception) else {"error": str(x)}] *)
Definition value_or_error (x : outcome json) : json :=
  match x with
  | Return v => v
  | Raise e => JObj (PyDict.literal [("error", JStr (exn_str e))])
  end.

Definition get_comprehensive_customer_data (self : t) (customer_oid : string)
  : outcome json :=
  try_except
    (let customer_task := get_customer_data self customer_oid in
     let portfolio_task := get_portfolio_data self customer_oid in
     let accounts_task := get_accounts self customer_oid in
     let transactions_task := get_transactions self customer_oid 50 in
     let risk_task := get_risk_metrics self customer_oid in
     results <- gather_return_exceptions
       [customer_task; portfolio_task; accounts_task; transactions_task; risk_task] ;;
     match results with
     | [customer_data; portfolio_data; accounts_data; transactions_data; risk_data] =>
         Return (JObj (PyDict.literal
           [ ("customer_oid", JStr customer_oid);
             ("customer", value_or_error customer_data);
             ("portfolio", value_or_error portfolio_data);
             ("accounts", value_or_error accounts_data);
             ("transactions", value_or_error transactions_data);
             ("risk_metrics", value_or_error risk_data) ]))
     | _ => Raise (Exn "ValueError" "not enough values to unpack")
     end)
    (fun e => Return (error_dict
       ("Failed to retrieve comprehensive customer data: " ++ exn_str e))).

End Requests.

End BankApiClient.

(** ** The model runtime as the agents see it *)

(** An element of the runtime's model listing, in the three shapes the
    probe accepts; the name fields are strings, as the runtime's schema
    has them. *)
Inductive model_entry : Type :=
| ModelObject (model : option string)
| ModelDict (d : PyDict.t string)
| ModelStr (s : string)
| ModelOther.

(** The answer of [client.list()], in the shapes the probe tells apart. *)
Inductive list_response : Type :=
| ListObject (models : list model_entry)
| ListDict (d : PyDict.t (list model_entry))
| ListPlain (l : list model_entry)
| ListOther.

(** The arguments of [client.generate(model=, prompt=, options=)]. *)
Record generate_request : Type := GenerateRequest {
  gen_model : string;
  gen_prompt : string;
  gen_temperature : spec_float;
  gen_num_predict : Z
}.

(** The keyword arguments a caller may add to a generation call. *)
Record gen_kwargs : Type := GenKwargs {
  kw_temperature : option spec_float;
  kw_max_tokens : option Z
}.

Definition no_kwargs : gen_kwargs := GenKwargs None None.

(** The keyword arguments [query_agent] forwards to [generate_response]. *)
Record query_kwargs : Type := QueryKwargs {
  kw_customer_oid : option string;
  kw_generation : gen_kwargs
}.

(** ** Agents ([src/agents/agent_manager.py], class [Agent]) *)

Module Agent.

Record t : Type := Build {
  config : AgentConfig.t;
  bank_api_client : BankApiClient.t;
  name : string;
  model : string;
  model_name : string;
  role : string;
  is_available : bool
}.

Definition __init__ (config : AgentConfig.t) (bank_api_client : BankApiClient.t) : t := {|
  config := config;
  bank_api_client := bank_api_client;
  name := AgentConfig.name config;
  model := AgentConfig.model config;
  model_name := AgentConfig.model config;
  role := AgentConfig.role config;
  is_available := false
|}.

(** [self.model = m] *)
Definition set_model (self : t) (m : string) : t :=
  Build (config self) (bank_api_client self) (name self) m
        (model_name self) (role self) (is_available self).

(** [self.is_available = b] *)
Definition set_is_available (self : t) (b : bool) : t :=
  Build (config self) (bank_api_client self) (name self) (model self)
        (model_name self) (role self) b.

(** *** Availability probe *)

(** The first three branches of the probe: where the list of models
    sits in the answer. *)
Definition models_of (models_response : list_response) : option (list model_entry) :=
  match models_response with
  | ListObject models => Some models
  | ListDict d => PyDict.get d "models"
  | ListPlain l => Some l
  | ListOther => None
  end.

(** The loop that collects the names; an object's [model] attribute is
    appended as it is, a dict's name only when it is not empty. *)
Fixpoint collect_names (models_list : list model_entry) : list (option string) :=
  match models_list with
  | [] => []
  | ModelObject m :: rest => m :: collect_names rest
  | ModelDict d :: rest =>
      let name := opt_or (PyDict.get d "name") (Some (PyDict.get_default d "model" "")) in
      if opt_truthy name then name :: collect_names rest else collect_names rest
  | ModelStr s :: rest => Some s :: collect_names rest
  | ModelOther :: rest => collect_names rest
  end.

(** [[m for m in available_models if m]] *)
Fixpoint truthy_names (names : list (option string)) : list string :=
  match names with
  | [] => []
  | Some s :: rest => if str_truthy s then s :: truthy_names rest else truthy_names rest
  | None :: rest => truthy_names rest
  end.

Definition available_models (models_list : list model_entry) : list string :=
  truthy_names (collect_names models_list).

(** [self.model in available_models] *)
Definition name_in (m : string) (available : list string) : bool :=
  existsb (String.eqb m) available.

(** The second loop: the first available name that starts with the
    base name. *)
Fixpoint first_startswith (model_base : string) (available : list string)
  : option string :=
  match available with
  | [] => None
  | available_model :: rest =>
      if startswith available_model model_base then Some available_model
      else first_startswith model_base rest
  end.

(** [listing] is what [self.client.list] does when the probe calls it.
    The result is the returned flag and the agent after the call. *)
Definition is_model_available (self : t) (listing : outcome list_response) : bool * t :=
  match listing with
  | Raise _ => (false, self)
  | Return models_response =>
      match models_of models_response with
      | None => (false, self)
      | Some models_list =>
          let available := available_models models_list in
          if name_in (model self) available then (true, self)
          else
            let model_base := split_head ":" (model self) in
            match first_startswith model_base available with
            | Some available_model => (true, set_model self available_model)
            | None => (false, self)
            end
      end
  end.

Section Generation.

Variable send : http_request -> outcome json.

(** [client.generate]: the runtime's completion call. *)
Variable generate : generate_request -> outcome (PyDict.t string).

(** The text of a value between braces in an f-string. *)
Variable py_format : json -> string.

(** The f-string [customer_context]. *)
Definition customer_context (customer_oid : string) (customer_data : json)
  : outcome string :=
  customer <- json_get customer_data "customer" (JObj []) ;;
  portfolio <- json_get customer_data "portfolio" (JObj []) ;;
  accounts <- json_get customer_data "accounts" (JObj []) ;;
  transactions <- json_get customer_data "transactions" (JObj []) ;;
  risk_metrics <- json_get customer_data "risk_metrics" (JObj []) ;;
  Return (nl ++ "Customer Data for " ++ customer_oid ++ ":" ++ nl
          ++ "- Customer Profile: " ++ py_format customer ++ nl
          ++ "- Portfolio: " ++ py_format portfolio ++ nl
          ++ "- Accounts: " ++ py_format accounts ++ nl
          ++ "- Recent Transactions: " ++ py_format transactions ++ nl
          ++ "- Risk Metrics: " ++ py_format risk_metrics ++ nl).

(** The first half of [generate_response]: the prompt handed to the
    runtime is the system prompt, then the context and the customer data,
    then the query. *)
Definition build_prompt (self : t) (prompt : string) (context customer_oid : option string)
  : outcome string :=
  let full_prompt := AgentConfig.system_prompt (config self) ++ nl ++ nl in
  full_prompt <-
    (if opt_truthy customer_oid then
       customer_data <- BankApiClient.get_comprehensive_customer_data
                          send (bank_api_client self) (fmt_opt customer_oid) ;;
       customer_text <- customer_context (fmt_opt customer_oid) customer_data ;;
       let full_prompt :=
         if opt_truthy context
         then full_prompt ++ "Context: " ++ fmt_opt context ++ nl ++ nl
         else full_prompt in
       Return (full_prompt ++ "Customer Context: " ++ customer_text ++ nl ++ nl)
     else if opt_truthy context then
       Return (full_prompt ++ "Context: " ++ fmt_opt context ++ nl ++ nl)
     else Return full_prompt) ;;
  Return (full_prompt ++ "User Query: " ++ prompt).

(** The arguments [generate_response] gives to [client.generate] for a
    built prompt. *)
Definition request_for (self : t) (full_prompt : string) (kwargs : gen_kwargs)
  : generate_request := {|
  gen_model := model self;
  gen_prompt := full_prompt;
  gen_temperature :=
    option_default (kw_temperature kwargs) (AgentConfig.temperature (config self));
  gen_num_predict :=
    option_default (kw_max_tokens kwargs) (AgentConfig.max_tokens (config self))
|}.

Definition generate_response (self : t) (prompt : string)
    (context customer_oid : option string) (kwargs : gen_kwargs) : outcome string :=
  try_except
    (full_prompt <- build_prompt self prompt context customer_oid ;;
     response <- generate (request_for self full_prompt kwargs) ;;
     PyDict.getitem response "response")
    (fun e => Return ("Error: Unable to generate response - " ++ exn_str e)).

(** [arguments.get("customer_oid") or arguments.get("CustomerOID")] *)
Definition customer_oid_argument (arguments : PyDict.t json) : option json :=
  match PyDict.get arguments "customer_oid" with
  | Some v => if py_truthy v then Some v else PyDict.get arguments "CustomerOID"
  | None => PyDict.get arguments "CustomerOID"
  end.

(** The identifier as [generate_response] uses it: a string is taken
    as it is, another truthy value is only ever formatted. *)
Definition as_customer_oid (v : option json) : option string :=
  match v with
  | Some (JStr s) => Some s
  | Some v => if py_truthy v then Some (py_format v) else None
  | None => None
  end.

Definition execute_tool (self : t) (tool_name : string) (arguments : PyDict.t json)
  : outcome string :=
  try_except
    (let customer_oid := customer_oid_argument arguments in
     let prompt :=
       nl ++ "Execute the following tool: " ++ tool_name ++ nl
       ++ "Arguments: " ++ py_format (JObj arguments) ++ nl ++ nl
       ++ "Please provide a detailed response based on your role as "
       ++ role self ++ "." ++ nl
       ++ "Analyze the request and provide insights according to your expertise." ++ nl
       ++ "If customer data is available, provide personalized recommendations." ++ nl in
     response <- generate_response self prompt None (as_customer_oid customer_oid)
                   no_kwargs ;;
     Return response)
    (fun e => Return ("Error: Unable to execute tool - " ++ exn_str e)).

End Generation.

End Agent.

(** ** The agent manager ([src/agents/agent_manager.py], class [AgentManager]) *)

Module Config.

(** The fields of [Config] the manager reads; [ollama_base_url] is
    [config.ollama.base_url]. *)
Record t : Type := Build {
  server_name : string;
  development_mode : bool;
  ollama_base_url : string;
  bank_api : BankApiConfig.t;
  agents : list AgentConfig.t
}.

End Config.

Module AgentManager.

Record t : Type := Build {
  config : Config.t;
  agents : PyDict.t Agent.t;
  ollama_client : option string;
  bank_api_client : BankApiClient.t
}.

Definition __init__ (config : Config.t) : t := {|
  config := config;
  agents := PyDict.empty;
  ollama_client := None;
  bank_api_client := BankApiClient.__init__ (Config.bank_api config)
|}.

Definition set_agents (self : t) (agents : PyDict.t Agent.t) : t :=
  Build (config self) agents (ollama_client self) (bank_api_client self).

Definition set_ollama_client (self : t) (client : option string) : t :=
  Build (config self) (agents self) client (bank_api_client self).

(** The routing table of [query_best_agent]. *)
Definition task_agent_mapping : PyDict.t string :=
  PyDict.literal
    [ ("market_analysis", "market_analyst");
      ("portfolio", "portfolio_manager");
      ("risk", "risk_analyst");
      ("explanation", "explainability_agent");
      ("swot", "explainability_agent");
      ("strategy", "portfolio_manager");
      ("general", "explainability_agent") ].

(** The routing table of [get_agent_for_tool]. *)
Definition tool_agent_mapping : PyDict.t string :=
  PyDict.literal
    [ ("get_market_data", "market_analyst");
      ("analyze_stock", "market_analyst");
      ("get_economic_indicators", "market_analyst");
      ("market_sentiment", "market_analyst");
      ("portfolio_analysis", "portfolio_manager");
      ("asset_allocation", "portfolio_manager");
      ("rebalance_portfolio", "portfolio_manager");
      ("performance_metrics", "portfolio_manager");
      ("calculate_var", "risk_analyst");
      ("stress_test", "risk_analyst");
      ("correlation_analysis", "risk_analyst");
      ("risk_metrics", "risk_analyst");
      ("backtest_strategy", "portfolio_manager");
      ("optimize_portfolio", "portfolio_manager");
      ("generate_signals", "market_analyst");
      ("explain_analysis", "explainability_agent");
      ("swot_analysis", "explainability_agent");
      ("summarize_results", "explainability_agent") ].

Definition get_agent (self : t) (agent_name : string) : option Agent.t :=
  PyDict.get (agents self) agent_name.

Definition list_agents (self : t) : list string :=
  PyDict.keys (agents self).

(** [tool_name] is [None] when the request names no tool. *)
Definition get_agent_for_tool (self : t) (tool_name : option string) : option Agent.t :=
  let agent_name :=
    match tool_name with
    | Some tool => PyDict.get tool_agent_mapping tool
    | None => None
    end in
  if opt_truthy agent_name then get_agent self (fmt_opt agent_name) else None.

(** The property [is_available] of the manager. *)
Definition is_available (self : t) : bool :=
  (0 <? List.length (agents self))%nat.

Definition shutdown (self : t) : t :=
  set_agents self (PyDict.clear (agents self)).

Section Startup.

(** [client.list()] as the runtime answers it: the [n]-th call made
    on the client gives [list_models n]. *)
Variable list_models : nat -> outcome list_response.

(** The loop of [_initialize_agents] over the configured agents;
    [calls] counts the listings made so far. *)
Fixpoint initialize_loop (bank : BankApiClient.t) (configs : list AgentConfig.t)
    (agents : PyDict.t Agent.t) (calls : nat) : PyDict.t Agent.t * nat :=
  match configs with
  | [] => (agents, calls)
  | agent_config :: rest =>
      if negb (AgentConfig.enabled agent_config) then
        initialize_loop bank rest agents calls
      else
        let agent := Agent.__init__ agent_config bank in
        let (available, agent) := Agent.is_model_available agent (list_models calls) in
        if available then
          let agent := Agent.set_is_available agent true in
          initialize_loop bank rest
            (PyDict.set agents (AgentConfig.name agent_config) agent) (S calls)
        else initialize_loop bank rest agents (S calls)
  end.

Definition _initialize_agents (self : t) (calls : nat) : t * nat :=
  let (agents, calls) :=
    initialize_loop (bank_api_client self) (Config.agents (config self))
                    (agents self) calls in
  (set_agents self agents, calls).

Definition _test_ollama_connection (self : t) (calls : nat) : outcome unit * nat :=
  (try_except (_ <- list_models calls ;; Return tt) (fun e => Raise e), S calls).

(** The result is what the call returns or raises, the manager after
    it and the number of listings made. *)
Definition initialize (self : t) (calls : nat) : outcome unit * t * nat :=
  let self := set_ollama_client self (Some (Config.ollama_base_url (config self))) in
  let (tested, calls) := _test_ollama_connection self calls in
  match tested with
  | Raise e => (Raise e, self, calls)
  | Return _ =>
      let (self, calls) := _initialize_agents self calls in
      (Return tt, self, calls)
  end.

End Startup.

Section Queries.

Variable send : http_request -> outcome json.
Variable generate : generate_request -> outcome (PyDict.t string).
Variable py_format : json -> string.

Definition query_agent (self : t) (agent_name prompt : string)
    (context : option string) (kwargs : query_kwargs) : outcome string :=
  match get_agent self agent_name with
  | None => Return ("Error: Agent '" ++ agent_name ++ "' not found")
  | Some agent =>
      Agent.generate_response send generate py_format agent prompt context
        (kw_customer_oid kwargs) (kw_generation kwargs)
  end.

Definition query_best_agent (self : t) (prompt task_type : string)
    (context : option string) (kwargs : query_kwargs) : outcome (string * string) :=
  let preferred_agent :=
    PyDict.get_default task_agent_mapping task_type "explainability_agent" in
  if PyDict.contains (agents self) preferred_agent then
    response <- query_agent self preferred_agent prompt context kwargs ;;
    Return (preferred_agent, response)
  else if PyDict.truthy (agents self) then
    fallback_agent <- match PyDict.keys (agents self) with
                      | first :: _ => Return first
                      | [] => Raise (Exn "IndexError" "list index out of range")
                      end ;;
    response <- query_agent self fallback_agent prompt context kwargs ;;
    Return (fallback_agent, response)
  else Return ("none", "Error: No agents available").

End Queries.

End AgentManager.

(** ** The HTTP handlers ([src/main.py]) *)

(** The body of [POST /mcp/call]. *)
Record call_request : Type := CallRequest {
  call_tool_name : option string;
  call_arguments : option (PyDict.t json);
  call_customer_oid : option string;
  call_CustomerOID : option string
}.

(** The body of [POST /mcp/query]. *)
Record query_request : Type := QueryRequest {
  query_agent_type : option string;
  query_text : option string;
  query_customer_oid : option string;
  query_CustomerOID : option string;
  query_context : option string
}.

(** The body of [POST /mcp/analyze]. *)
Record analyze_request : Type := AnalyzeRequest {
  analyze_customer_oid : option string;
  analyze_CustomerOID : option string;
  analyze_analysis_type : option string
}.

Inductive request : Type :=
| PostCall (request_data : call_request)
| PostQuery (request_data : query_request)
| GetStatus
| GetCustomer (customer_oid : string)
| PostAnalyze (request_data : analyze_request).

Module MCPOpenbankingServer.

Record t : Type := Build {
  agent_manager : AgentManager.t;
  registered_tools : PyDict.t string
}.

Section Handlers.

Variable send : http_request -> outcome json.
Variable generate : generate_request -> outcome (PyDict.t string).
Variable py_format : json -> string.

Definition call_tool (self : t) (request_data : call_request) : json :=
  let tool_name := call_tool_name request_data in
  let arguments := option_default (call_arguments request_data) PyDict.empty in
  let customer_oid :=
    opt_or (call_customer_oid request_data) (call_CustomerOID request_data) in
  let arguments :=
    if opt_truthy customer_oid then
      PyDict.set (PyDict.set arguments "customer_oid" (JStr (fmt_opt customer_oid)))
                 "CustomerOID" (JStr (fmt_opt customer_oid))
    else arguments in
  match AgentManager.get_agent_for_tool (agent_manager self) tool_name with
  | None =>
      JObj (PyDict.literal
        [("error", JStr ("No agent available for tool: " ++ fmt_opt tool_name))])
  | Some agent =>
      match Agent.execute_tool send generate py_format agent
              (fmt_opt tool_name) arguments with
      | Return result => JObj (PyDict.literal [("result", JStr result)])
      | Raise e => JObj (PyDict.literal [("error", JStr (exn_str e))])
      end
  end.

(** The loop of [get_status] over [agents.items()]. *)
Fixpoint agents_status (items : list (string * Agent.t)) (status : PyDict.t json)
  : PyDict.t json :=
  match items with
  | [] => status
  | (agent_name, agent) :: rest =>
      agents_status rest
        (PyDict.set status agent_name
           (JObj (PyDict.literal
              [ ("available", JBool (Agent.is_available agent));
                ("model", JStr (Agent.model_name agent)) ])))
  end.

Definition get_status (self : t) : json :=
  JObj (PyDict.literal
    [ ("status", JStr "running");
      ("agents", JObj (agents_status
                         (PyDict.items (AgentManager.agents (agent_manager self)))
                         PyDict.empty));
      ("tools", JArr (map JStr (PyDict.keys (registered_tools self)))) ]).

Definition get_customer_data (self : t) (customer_oid : string) : json :=
  match BankApiClient.get_comprehensive_customer_data send
          (AgentManager.bank_api_client (agent_manager self)) customer_oid with
  | Return customer_data => customer_data
  | Raise e => JObj (PyDict.literal [("error", JStr (exn_str e))])
  end.

Definition query_agent (self : t) (request_data : query_request) : json :=
  let agent_type := option_default (query_agent_type request_data) "market_analyst" in
  let query := query_text request_data in
  let customer_oid :=
    opt_or (query_customer_oid request_data) (query_CustomerOID request_data) in
  let context := query_context request_data in
  if negb (opt_truthy query) then
    JObj (PyDict.literal [("error", JStr "Query is required")])
  else
    match AgentManager.get_agent (agent_manager self) agent_type with
    | None =>
        JObj (PyDict.literal [("error", JStr ("Agent not found: " ++ agent_type))])
    | Some agent =>
        match Agent.generate_response send generate py_format agent
                (fmt_opt query) context customer_oid no_kwargs with
        | Return response => JObj (PyDict.literal [("response", JStr response)])
        | Raise e => JObj (PyDict.literal [("error", JStr (exn_str e))])
        end
    end.

(** The table of [analyze_customer], separate from the task table. *)
Definition agent_mapping : PyDict.t string :=
  PyDict.literal
    [ ("portfolio", "portfolio_manager");
      ("risk", "risk_analyst");
      ("market", "market_analyst");
      ("comprehensive", "explainability_agent") ].

Definition analyze_customer (self : t) (request_data : analyze_request) : json :=
  let customer_oid :=
    opt_or (analyze_customer_oid request_data) (analyze_CustomerOID request_data) in
  let analysis_type :=
    option_default (analyze_analysis_type request_data) "comprehensive" in
  if negb (opt_truthy customer_oid) then
    JObj (PyDict.literal [("error", JStr "CustomerOID is required")])
  else
    let agent_name :=
      PyDict.get_default agent_mapping analysis_type "explainability_agent" in
    match AgentManager.get_agent (agent_manager self) agent_name with
    | None =>
        JObj (PyDict.literal [("error", JStr ("Agent not available: " ++ agent_name))])
    | Some agent =>
        let prompt := "Provide a " ++ analysis_type
                      ++ " analysis for this customer's financial situation." in
        match Agent.generate_response send generate py_format agent
                prompt None customer_oid no_kwargs with
        | Return response =>
            JObj (PyDict.literal
              [ ("customer_oid", JStr (fmt_opt customer_oid));
                ("analysis_type", JStr analysis_type);
                ("agent_used", JStr agent_name);
                ("analysis", JStr response) ])
        | Raise e => JObj (PyDict.literal [("error", JStr (exn_str e))])
        end
    end.

(** One request to the HTTP surface and the handler that serves it.
    A handler reads the server and gives its reply; none of them
    assigns to the manager, its registry or an agent. *)
Definition handle (self : t) (r : request) : json :=
  match r with
  | PostCall request_data => call_tool self request_data
  | PostQuery request_data => query_agent self request_data
  | GetStatus => get_status self
  | GetCustomer customer_oid => get_customer_data self customer_oid
  | PostAnalyze request_data => analyze_customer self request_data
  end.

End Handlers.

(** *** The life of a server *)

Definition __init__ (config : Config.t) : t := {|
  agent_manager := AgentManager.__init__ config;
  registered_tools := PyDict.empty
|}.

(** [ToolRegistry.register_tools] tracks two tools. *)
Definition register_tools (tools : PyDict.t string) : PyDict.t string :=
  PyDict.set
    (PyDict.set tools "analyze_portfolio" "Analyze portfolio performance and composition")
    "portfolio_optimization" "Optimize portfolio allocation".

Inductive event : Type :=
| Initialize
| Serve (r : request)
| Shutdown.

Section Lifecycle.

Variable list_models : nat -> outcome list_response.

(** [MCPOpenbankingServer.initialize]: the tools are registered only
    when the manager's initialisation did not raise. *)
Definition initialize (self : t) (calls : nat) : outcome unit * t * nat :=
  match AgentManager.initialize list_models (agent_manager self) calls with
  | (Return _, manager, calls) =>
      (Return tt, Build manager (register_tools (registered_tools self)), calls)
  | (Raise e, manager, calls) =>
      (Raise e, Build manager (registered_tools self), calls)
  end.

(** The server and the number of model listings made so far, after
    one event. *)
Definition step (state : t * nat) (ev : event) : t * nat :=
  let (self, calls) := state in
  match ev with
  | Initialize =>
      let '(_, self, calls) := initialize self calls in (self, calls)
  | Serve _ => (self, calls)
  | Shutdown =>
      (Build (AgentManager.shutdown (agent_manager self)) (registered_tools self), calls)
  end.

Definition run (state : t * nat) (events : list event) : t * nat :=
  fold_left step events state.

End Lifecycle.

End MCPOpenbankingServer.

(** ** The tool modules ([src/tools/]) *)

(** The double quote, for the texts that hold one. *)
Definition dq : string := String (ascii_of_nat 34) EmptyString.

(** *** [PortfolioTools] ([src/tools/portfolio_tools.py]) *)

Module PortfolioTools.

Record t : Type := Build { agent_manager : AgentManager.t }.

Definition __init__ (agent_manager : AgentManager.t) : t := Build agent_manager.

(** The text [context] of [analyze_portfolio]. *)
Definition analyze_portfolio_context (py_format : json -> string) (portfolio_data : PyDict.t json) (analysis_type : string)
  : string :=
  "Portfolio Data: " ++ py_format (JObj portfolio_data) ++ nl
  ++ "Analysis Type: " ++ analysis_type.

(** The text [prompt] of [analyze_portfolio]. *)
Definition analyze_portfolio_prompt (portfolio_data : PyDict.t json) (analysis_type : string)
  : string :=
  nl ++ "            Please analyze the provided portfolio data. Focus on:" ++ nl
  ++ "            " ++ nl ++ "            1. Asset allocation and diversification" ++ nl
  ++ "            2. Performance metrics (returns, volatility, Sharpe ratio)" ++ nl
  ++ "            3. Risk assessment" ++ nl
  ++ "            4. Sector and geographic exposure" ++ nl
  ++ "            5. Recommendations for improvement" ++ nl
  ++ "            " ++ nl
  ++ "            Provide a comprehensive analysis with specific insights and actionable recommendations."
  ++ nl ++ "            ".

(** The text [context] of [optimize_portfolio]. *)
Definition optimize_portfolio_context (py_format : json -> string) (portfolio_data : PyDict.t json) (method : string) (constraints : option (PyDict.t json))
  : string :=
  nl ++ "            Portfolio Data: " ++ py_format (JObj portfolio_data) ++ nl
  ++ "            Optimization Method: " ++ method ++ nl
  ++ "            Constraints: "
  ++ py_format (JObj (option_default constraints PyDict.empty)) ++ nl
  ++ "            ".

(** The text [prompt] of [optimize_portfolio]. *)
Definition optimize_portfolio_prompt (portfolio_data : PyDict.t json) (method : string) (constraints : option (PyDict.t json))
  : string :=
  nl ++ "            Please provide portfolio optimization recommendations using the "
  ++ method ++ " method." ++ nl ++ "            " ++ nl
  ++ "            Consider:" ++ nl ++ "            1. Current portfolio composition" ++ nl
  ++ "            2. Expected returns and risk characteristics" ++ nl
  ++ "            3. Correlation between assets" ++ nl
  ++ "            4. Any specified constraints" ++ nl
  ++ "            5. Optimal weight allocation" ++ nl
  ++ "            " ++ nl
  ++ "            Provide specific weight recommendations and explain the rationale behind the optimization."
  ++ nl ++ "            ".

(** The text [context] of [performance_attribution]. *)
Definition performance_attribution_context (py_format : json -> string) (portfolio_data : PyDict.t json) (benchmark_data : PyDict.t json)
  : string :=
  nl ++ "            Portfolio Data: " ++ py_format (JObj portfolio_data) ++ nl
  ++ "            Benchmark Data: " ++ py_format (JObj benchmark_data) ++ nl
  ++ "            ".

(** The text [prompt] of [performance_attribution]. *)
Definition performance_attribution_prompt (portfolio_data : PyDict.t json) (benchmark_data : PyDict.t json)
  : string :=
  nl
  ++ "            Please perform a performance attribution analysis comparing the portfolio to the benchmark."
  ++ nl ++ "            " ++ nl ++ "            Analyze:" ++ nl
  ++ "            1. Asset allocation effect" ++ nl
  ++ "            2. Security selection effect" ++ nl
  ++ "            3. Interaction effect" ++ nl
  ++ "            4. Total active return decomposition" ++ nl
  ++ "            5. Sources of outperformance/underperformance" ++ nl
  ++ "            " ++ nl ++ "            Provide detailed breakdown and insights." ++ nl
  ++ "            ".

Section Calls.

Variable send : http_request -> outcome json.
Variable generate : generate_request -> outcome (PyDict.t string).
Variable py_format : json -> string.

(** In the source [analysis_type] defaults to ['comprehensive']. *)
Definition analyze_portfolio (self : t) (portfolio_data : PyDict.t json) (analysis_type : string)
  : outcome string :=
  try_except
    (let context := analyze_portfolio_context py_format portfolio_data analysis_type in
     let prompt := analyze_portfolio_prompt portfolio_data analysis_type in
     routed <- AgentManager.query_best_agent send generate py_format (agent_manager self)
                 prompt "portfolio" (Some context) (QueryKwargs None no_kwargs) ;;
     let (agent_name, response) := routed in
     Return ("Portfolio Analysis (by " ++ agent_name ++ "):" ++ nl ++ nl ++ response))
    (fun e => Return ("Error analyzing portfolio: " ++ exn_str e)).

(** In the source [method] defaults to ['mean_variance'], [constraints] defaults to [None]. *)
Definition optimize_portfolio (self : t) (portfolio_data : PyDict.t json) (method : string) (constraints : option (PyDict.t json))
  : outcome string :=
  try_except
    (let context := optimize_portfolio_context py_format portfolio_data method constraints in
     let prompt := optimize_portfolio_prompt portfolio_data method constraints in
     routed <- AgentManager.query_best_agent send generate py_format (agent_manager self)
                 prompt "portfolio" (Some context) (QueryKwargs None no_kwargs) ;;
     let (agent_name, response) := routed in
     Return ("Portfolio Optimization (by " ++ agent_name ++ "):" ++ nl ++ nl ++ response))
    (fun e => Return ("Error optimizing portfolio: " ++ exn_str e)).

Definition performance_attribution (self : t) (portfolio_data : PyDict.t json) (benchmark_data : PyDict.t json)
  : outcome string :=
  try_except
    (let context := performance_attribution_context py_format portfolio_data benchmark_data in
     let prompt := performance_attribution_prompt portfolio_data benchmark_data in
     routed <- AgentManager.query_best_agent send generate py_format (agent_manager self)
                 prompt "portfolio" (Some context) (QueryKwargs None no_kwargs) ;;
     let (agent_name, response) := routed in
     Return ("Performance Attribution (by " ++ agent_name ++ "):" ++ nl ++ nl ++ response))
    (fun e => Return ("Error in performance attribution: " ++ exn_str e)).

End Calls.

End PortfolioTools.

(** *** [MarketTools] ([src/tools/market_tools.py]) *)

Module MarketTools.

Record t : Type := Build { agent_manager : AgentManager.t }.

Definition __init__ (agent_manager : AgentManager.t) : t := Build agent_manager.

(** The text [context] of [analyze_market]. *)
Definition analyze_market_context (py_format : json -> string) (symbols : list string) (analysis_type : string)
  : string :=
  "Symbols: " ++ py_format (JArr (map JStr symbols)) ++ nl
  ++ "Analysis Type: " ++ analysis_type.

(** The text [prompt] of [analyze_market]. *)
Definition analyze_market_prompt (symbols : list string) (analysis_type : string)
  : string :=
  nl
  ++ "            Please analyze the current market conditions for the specified symbols."
  ++ nl ++ "            " ++ nl ++ "            Focus on:" ++ nl
  ++ "            1. Current market trends and sentiment" ++ nl
  ++ "            2. Technical indicators" ++ nl
  ++ "            3. Fundamental factors affecting the market" ++ nl
  ++ "            4. Volatility levels and patterns" ++ nl
  ++ "            5. Market opportunities and risks" ++ nl
  ++ "            6. Short-term and long-term outlook" ++ nl
  ++ "            " ++ nl
  ++ "            Provide actionable insights for investment decisions." ++ nl
  ++ "            ".

(** The text [context] of [analyze_volatility]. *)
Definition analyze_volatility_context (py_format : json -> string) (symbols : list string) (timeframe : string)
  : string :=
  "Symbols: " ++ py_format (JArr (map JStr symbols)) ++ nl
  ++ "Timeframe: " ++ timeframe.

(** The text [prompt] of [analyze_volatility]. *)
Definition analyze_volatility_prompt (symbols : list string) (timeframe : string)
  : string :=
  nl
  ++ "            Please analyze the volatility characteristics for the specified symbols over the "
  ++ timeframe ++ " timeframe." ++ nl ++ "            " ++ nl
  ++ "            Analyze:" ++ nl ++ "            1. Historical volatility patterns" ++ nl
  ++ "            2. Implied volatility (if applicable)" ++ nl
  ++ "            3. Volatility clustering and mean reversion" ++ nl
  ++ "            4. Volatility spillover effects" ++ nl
  ++ "            5. Risk implications for portfolio management" ++ nl
  ++ "            6. Volatility forecasting" ++ nl
  ++ "            " ++ nl
  ++ "            Identify periods of high volatility and their causes." ++ nl
  ++ "            ".

(** The text [context] of [sector_analysis]. *)
Definition sector_analysis_context (sector : string)
  : string :=
  "Sector: " ++ sector.

(** The text [prompt] of [sector_analysis]. *)
Definition sector_analysis_prompt (sector : string)
  : string :=
  nl ++ "            Please provide a comprehensive analysis of the " ++ sector
  ++ " sector." ++ nl ++ "            " ++ nl
  ++ "            Include:" ++ nl ++ "            1. Current sector performance vs market"
  ++ nl ++ "            2. Key drivers and headwinds" ++ nl
  ++ "            3. Leading companies and their prospects" ++ nl
  ++ "            4. Regulatory environment impact" ++ nl
  ++ "            5. Technology and innovation trends" ++ nl
  ++ "            6. Investment opportunities and risks" ++ nl
  ++ "            7. Sector rotation considerations" ++ nl
  ++ "            " ++ nl
  ++ "            Provide both fundamental and technical perspectives." ++ nl
  ++ "            ".

(** The text [context] of [correlation_analysis]. *)
Definition correlation_analysis_context (py_format : json -> string) (symbols : list string)
  : string :=
  "Symbols for correlation analysis: " ++ py_format (JArr (map JStr symbols)).

(** The text [prompt] of [correlation_analysis]. *)
Definition correlation_analysis_prompt (symbols : list string)
  : string :=
  nl
  ++ "            Please analyze the correlation structure between the provided assets."
  ++ nl ++ "            " ++ nl ++ "            Examine:" ++ nl
  ++ "            1. Pairwise correlations between assets" ++ nl
  ++ "            2. Time-varying correlation patterns" ++ nl
  ++ "            3. Correlation during different market regimes" ++ nl
  ++ "            4. Diversification benefits analysis" ++ nl
  ++ "            5. Risk concentration identification" ++ nl
  ++ "            6. Correlation breakdown during stress periods" ++ nl
  ++ "            " ++ nl
  ++ "            Provide insights for portfolio construction and risk management." ++ nl
  ++ "            ".

Section Calls.

Variable send : http_request -> outcome json.
Variable generate : generate_request -> outcome (PyDict.t string).
Variable py_format : json -> string.

(** In the source [analysis_type] defaults to ['general']. *)
Definition analyze_market (self : t) (symbols : list string) (analysis_type : string)
  : outcome string :=
  try_except
    (let context := analyze_market_context py_format symbols analysis_type in
     let prompt := analyze_market_prompt symbols analysis_type in
     routed <- AgentManager.query_best_agent send generate py_format (agent_manager self)
                 prompt "market_analysis" (Some context) (QueryKwargs None no_kwargs) ;;
     let (agent_name, response) := routed in
     Return ("Market Analysis (by " ++ agent_name ++ "):" ++ nl ++ nl ++ response))
    (fun e => Return ("Error analyzing market: " ++ exn_str e)).

(** In the source [timeframe] defaults to ['1d']. *)
Definition analyze_volatility (self : t) (symbols : list string) (timeframe : string)
  : outcome string :=
  try_except
    (let context := analyze_volatility_context py_format symbols timeframe in
     let prompt := analyze_volatility_prompt symbols timeframe in
     routed <- AgentManager.query_best_agent send generate py_format (agent_manager self)
                 prompt "market_analysis" (Some context) (QueryKwargs None no_kwargs) ;;
     let (agent_name, response) := routed in
     Return ("Volatility Analysis (by " ++ agent_name ++ "):" ++ nl ++ nl ++ response))
    (fun e => Return ("Error analyzing volatility: " ++ exn_str e)).

Definition sector_analysis (self : t) (sector : string)
  : outcome string :=
  try_except
    (let context := sector_analysis_context sector in
     let prompt := sector_analysis_prompt sector in
     routed <- AgentManager.query_best_agent send generate py_format (agent_manager self)
                 prompt "market_analysis" (Some context) (QueryKwargs None no_kwargs) ;;
     let (agent_name, response) := routed in
     Return ("Sector Analysis (by " ++ agent_name ++ "):" ++ nl ++ nl ++ response))
    (fun e => Return ("Error analyzing sector: " ++ exn_str e)).

Definition correlation_analysis (self : t) (symbols : list string)
  : outcome string :=
  try_except
    (let context := correlation_analysis_context py_format symbols in
     let prompt := correlation_analysis_prompt symbols in
     routed <- AgentManager.query_best_agent send generate py_format (agent_manager self)
                 prompt "market_analysis" (Some context) (QueryKwargs None no_kwargs) ;;
     let (agent_name, response) := routed in
     Return ("Correlation Analysis (by " ++ agent_name ++ "):" ++ nl ++ nl ++ response))
    (fun e => Return ("Error analyzing correlations: " ++ exn_str e)).

End Calls.

End MarketTools.

(** *** [RiskTools] ([src/tools/risk_tools.py]) *)

Module RiskTools.

Record t : Type := Build { agent_manager : AgentManager.t }.

Definition __init__ (agent_manager : AgentManager.t) : t := Build agent_manager.

(** The text [context] of [assess_risk]. *)
Definition assess_risk_context (py_format : json -> string) (portfolio_data : PyDict.t json) (user_profile : PyDict.t json) (risk_type : string)
  : string :=
  nl ++ "            Portfolio Data: " ++ py_format (JObj portfolio_data) ++ nl
  ++ "            User Profile: " ++ py_format (JObj user_profile) ++ nl
  ++ "            Risk Assessment Type: " ++ risk_type ++ nl
  ++ "            ".

(** The text [prompt] of [assess_risk]. *)
Definition assess_risk_prompt (portfolio_data : PyDict.t json) (user_profile : PyDict.t json) (risk_type : string)
  : string :=
  nl
  ++ "            Please perform a comprehensive risk assessment for the user's portfolio."
  ++ nl ++ "            " ++ nl ++ "            Analyze:" ++ nl
  ++ "            1. Portfolio risk metrics (VaR, CVaR, volatility, beta)" ++ nl
  ++ "            2. Concentration risk and diversification analysis" ++ nl
  ++ "            3. Liquidity risk assessment" ++ nl
  ++ "            4. Market risk exposure" ++ nl
  ++ "            5. Credit risk (if applicable)" ++ nl
  ++ "            6. User-specific risk tolerance alignment" ++ nl
  ++ "            7. Risk-adjusted performance measures" ++ nl
  ++ "            8. Stress testing under various scenarios" ++ nl
  ++ "            " ++ nl
  ++ "            Provide personalized risk recommendations based on the user's profile."
  ++ nl ++ "            ".

(** The text [context] of [simulate_scenarios]. *)
Definition simulate_scenarios_context (py_format : json -> string) (portfolio_data : PyDict.t json) (scenarios : list (PyDict.t json))
  : string :=
  nl ++ "            Portfolio Data: " ++ py_format (JObj portfolio_data) ++ nl
  ++ "            Simulation Scenarios: " ++ py_format (JArr (map JObj scenarios)) ++ nl
  ++ "            ".

(** The text [prompt] of [simulate_scenarios]. *)
Definition simulate_scenarios_prompt (portfolio_data : PyDict.t json) (scenarios : list (PyDict.t json))
  : string :=
  nl ++ "            Please run scenario analysis and stress testing for the portfolio."
  ++ nl ++ "            " ++ nl ++ "            For each scenario, analyze:" ++ nl
  ++ "            1. Expected portfolio impact" ++ nl
  ++ "            2. Worst-case and best-case outcomes" ++ nl
  ++ "            3. Probability of occurrence" ++ nl
  ++ "            4. Portfolio resilience" ++ nl
  ++ "            5. Required hedging strategies" ++ nl
  ++ "            6. Recovery time estimates" ++ nl
  ++ "            7. Liquidity implications" ++ nl
  ++ "            " ++ nl
  ++ "            Provide actionable recommendations for risk mitigation." ++ nl
  ++ "            ".

(** The text [context] of [liquidity_risk_analysis]. *)
Definition liquidity_risk_analysis_context (py_format : json -> string) (portfolio_data : PyDict.t json)
  : string :=
  "Portfolio Data: " ++ py_format (JObj portfolio_data).

(** The text [prompt] of [liquidity_risk_analysis]. *)
Definition liquidity_risk_analysis_prompt (portfolio_data : PyDict.t json)
  : string :=
  nl ++ "            Please analyze the liquidity risk characteristics of the portfolio."
  ++ nl ++ "            " ++ nl ++ "            Examine:" ++ nl
  ++ "            1. Asset liquidity profiles" ++ nl
  ++ "            2. Market depth and trading volumes" ++ nl
  ++ "            3. Bid-ask spreads and market impact" ++ nl
  ++ "            4. Liquidity during stress periods" ++ nl
  ++ "            5. Redemption and margin call risks" ++ nl
  ++ "            6. Liquidity diversification" ++ nl
  ++ "            7. Emergency liquidation strategies" ++ nl
  ++ "            " ++ nl
  ++ "            Provide recommendations for liquidity management." ++ nl
  ++ "            ".

(** The text [context] of [tail_risk_analysis]. *)
Definition tail_risk_analysis_context (py_format : json -> string) (portfolio_data : PyDict.t json)
  : string :=
  "Portfolio Data: " ++ py_format (JObj portfolio_data).

(** The text [prompt] of [tail_risk_analysis]. *)
Definition tail_risk_analysis_prompt (portfolio_data : PyDict.t json)
  : string :=
  nl ++ "            Please analyze the tail risk characteristics of the portfolio." ++ nl
  ++ "            " ++ nl ++ "            Focus on:" ++ nl
  ++ "            1. Value at Risk (VaR) at different confidence levels" ++ nl
  ++ "            2. Conditional Value at Risk (CVaR/Expected Shortfall)" ++ nl
  ++ "            3. Maximum drawdown analysis" ++ nl
  ++ "            4. Fat tail and skewness characteristics" ++ nl
  ++ "            5. Extreme event probability estimation" ++ nl
  ++ "            6. Tail hedging strategies" ++ nl
  ++ "            7. Black swan event preparedness" ++ nl
  ++ "            " ++ nl
  ++ "            Identify portfolio vulnerabilities to extreme market events." ++ nl
  ++ "            ".

Section Calls.

Variable send : http_request -> outcome json.
Variable generate : generate_request -> outcome (PyDict.t string).
Variable py_format : json -> string.

(** In the source [risk_type] defaults to ['comprehensive']. *)
Definition assess_risk (self : t) (portfolio_data : PyDict.t json) (user_profile : PyDict.t json) (risk_type : string)
  : outcome string :=
  try_except
    (let context := assess_risk_context py_format portfolio_data user_profile risk_type in
     let prompt := assess_risk_prompt portfolio_data user_profile risk_type in
     routed <- AgentManager.query_best_agent send generate py_format (agent_manager self)
                 prompt "risk" (Some context) (QueryKwargs None no_kwargs) ;;
     let (agent_name, response) := routed in
     Return ("Risk Assessment (by " ++ agent_name ++ "):" ++ nl ++ nl ++ response))
    (fun e => Return ("Error assessing risk: " ++ exn_str e)).

Definition simulate_scenarios (self : t) (portfolio_data : PyDict.t json) (scenarios : list (PyDict.t json))
  : outcome string :=
  try_except
    (let context := simulate_scenarios_context py_format portfolio_data scenarios in
     let prompt := simulate_scenarios_prompt portfolio_data scenarios in
     routed <- AgentManager.query_best_agent send generate py_format (agent_manager self)
                 prompt "risk" (Some context) (QueryKwargs None no_kwargs) ;;
     let (agent_name, response) := routed in
     Return ("Scenario Analysis (by " ++ agent_name ++ "):" ++ nl ++ nl ++ response))
    (fun e => Return ("Error running scenario simulation: " ++ exn_str e)).

Definition liquidity_risk_analysis (self : t) (portfolio_data : PyDict.t json)
  : outcome string :=
  try_except
    (let context := liquidity_risk_analysis_context py_format portfolio_data in
     let prompt := liquidity_risk_analysis_prompt portfolio_data in
     routed <- AgentManager.query_best_agent send generate py_format (agent_manager self)
                 prompt "risk" (Some context) (QueryKwargs None no_kwargs) ;;
     let (agent_name, response) := routed in
     Return ("Liquidity Risk Analysis (by " ++ agent_name ++ "):" ++ nl ++ nl ++ response))
    (fun e => Return ("Error analyzing liquidity risk: " ++ exn_str e)).

Definition tail_risk_analysis (self : t) (portfolio_data : PyDict.t json)
  : outcome string :=
  try_except
    (let context := tail_risk_analysis_context py_format portfolio_data in
     let prompt := tail_risk_analysis_prompt portfolio_data in
     routed <- AgentManager.query_best_agent send generate py_format (agent_manager self)
                 prompt "risk" (Some context) (QueryKwargs None no_kwargs) ;;
     let (agent_name, response) := routed in
     Return ("Tail Risk Analysis (by " ++ agent_name ++ "):" ++ nl ++ nl ++ response))
    (fun e => Return ("Error analyzing tail risk: " ++ exn_str e)).

End Calls.

End RiskTools.

(** *** [StrategyTools] ([src/tools/strategy_tools.py]) *)

Module StrategyTools.

Record t : Type := Build { agent_manager : AgentManager.t }.

Definition __init__ (agent_manager : AgentManager.t) : t := Build agent_manager.

(** The text [context] of [recommend_strategy]. *)
Definition recommend_strategy_context (py_format : json -> string) (user_profile : PyDict.t json) (market_conditions : PyDict.t json) (strategy_type : string)
  : string :=
  nl ++ "            User Profile: " ++ py_format (JObj user_profile) ++ nl
  ++ "            Market Conditions: " ++ py_format (JObj market_conditions) ++ nl
  ++ "            Requested Strategy Type: " ++ strategy_type ++ nl
  ++ "            ".

(** The text [prompt] of [recommend_strategy]. *)
Definition recommend_strategy_prompt (user_profile : PyDict.t json) (market_conditions : PyDict.t json) (strategy_type : string)
  : string :=
  nl
  ++ "            Please recommend a comprehensive investment strategy tailored to the user's profile and current market conditions."
  ++ nl ++ "            " ++ nl ++ "            Consider:" ++ nl
  ++ "            1. User's risk tolerance and investment horizon" ++ nl
  ++ "            2. Financial goals and constraints" ++ nl
  ++ "            3. Current market environment" ++ nl
  ++ "            4. Asset allocation recommendations" ++ nl
  ++ "            5. Security selection criteria" ++ nl
  ++ "            6. Timing and implementation considerations" ++ nl
  ++ "            7. Rebalancing frequency and triggers" ++ nl
  ++ "            8. Exit strategies and risk management" ++ nl
  ++ "            " ++ nl
  ++ "            Provide a detailed, actionable investment strategy with specific recommendations."
  ++ nl ++ "            ".

(** The text [context] of [tactical_allocation]. *)
Definition tactical_allocation_context (py_format : json -> string) (market_outlook : PyDict.t json) (current_allocation : PyDict.t json)
  : string :=
  nl ++ "            Market Outlook: " ++ py_format (JObj market_outlook) ++ nl
  ++ "            Current Allocation: " ++ py_format (JObj current_allocation) ++ nl
  ++ "            ".

(** The text [prompt] of [tactical_allocation]. *)
Definition tactical_allocation_prompt (market_outlook : PyDict.t json) (current_allocation : PyDict.t json)
  : string :=
  nl
  ++ "            Please provide tactical asset allocation recommendations based on the market outlook."
  ++ nl ++ "            " ++ nl ++ "            Analyze:" ++ nl
  ++ "            1. Short-term market opportunities and risks" ++ nl
  ++ "            2. Sector and regional rotation opportunities" ++ nl
  ++ "            3. Over/underweight recommendations vs strategic allocation" ++ nl
  ++ "            4. Duration and magnitude of tactical adjustments" ++ nl
  ++ "            5. Market timing considerations" ++ nl
  ++ "            6. Risk management overlays" ++ nl
  ++ "            7. Implementation costs and logistics" ++ nl
  ++ "            " ++ nl
  ++ "            Provide specific allocation targets and rationale for each adjustment."
  ++ nl ++ "            ".

(** The text [context] of [rebalancing_strategy]. *)
Definition rebalancing_strategy_context (py_format : json -> string) (portfolio_data : PyDict.t json) (target_allocation : PyDict.t json)
  : string :=
  nl ++ "            Current Portfolio: " ++ py_format (JObj portfolio_data) ++ nl
  ++ "            Target Allocation: " ++ py_format (JObj target_allocation) ++ nl
  ++ "            ".

(** The text [prompt] of [rebalancing_strategy]. *)
Definition rebalancing_strategy_prompt (portfolio_data : PyDict.t json) (target_allocation : PyDict.t json)
  : string :=
  nl
  ++ "            Please develop a portfolio rebalancing strategy to move from current to target allocation."
  ++ nl ++ "            " ++ nl ++ "            Consider:" ++ nl
  ++ "            1. Deviation from target weights" ++ nl
  ++ "            2. Transaction costs and market impact" ++ nl
  ++ "            3. Tax implications (if applicable)" ++ nl
  ++ "            4. Market timing and execution strategy" ++ nl
  ++ "            5. Gradual vs immediate rebalancing" ++ nl
  ++ "            6. Cash flows and new contributions" ++ nl
  ++ "            7. Threshold-based vs calendar-based rebalancing" ++ nl
  ++ "            " ++ nl
  ++ "            Provide a step-by-step rebalancing plan with specific actions." ++ nl
  ++ "            ".

(** The text [context] of [hedge_strategy]. *)
Definition hedge_strategy_context (py_format : json -> string) (portfolio_data : PyDict.t json) (hedge_objectives : PyDict.t json)
  : string :=
  nl ++ "            Portfolio Data: " ++ py_format (JObj portfolio_data) ++ nl
  ++ "            Hedge Objectives: " ++ py_format (JObj hedge_objectives) ++ nl
  ++ "            ".

(** The text [prompt] of [hedge_strategy]. *)
Definition hedge_strategy_prompt (portfolio_data : PyDict.t json) (hedge_objectives : PyDict.t json)
  : string :=
  nl
  ++ "            Please recommend hedging strategies for the portfolio based on the specified objectives."
  ++ nl ++ "            " ++ nl ++ "            Analyze:" ++ nl
  ++ "            1. Risk exposures requiring hedging" ++ nl
  ++ "            2. Available hedging instruments" ++ nl
  ++ "            3. Hedge ratios and effectiveness" ++ nl
  ++ "            4. Cost-benefit analysis of different approaches" ++ nl
  ++ "            5. Dynamic vs static hedging strategies" ++ nl
  ++ "            6. Cross-hedging considerations" ++ nl
  ++ "            7. Hedge monitoring and adjustment triggers" ++ nl
  ++ "            " ++ nl
  ++ "            Provide specific hedging recommendations with implementation details."
  ++ nl ++ "            ".

Section Calls.

Variable send : http_request -> outcome json.
Variable generate : generate_request -> outcome (PyDict.t string).
Variable py_format : json -> string.

(** In the source [strategy_type] defaults to ['balanced']. *)
Definition recommend_strategy (self : t) (user_profile : PyDict.t json) (market_conditions : PyDict.t json) (strategy_type : string)
  : outcome string :=
  try_except
    (let context := recommend_strategy_context py_format user_profile market_conditions strategy_type in
     let prompt := recommend_strategy_prompt user_profile market_conditions strategy_type in
     routed <- AgentManager.query_best_agent send generate py_format (agent_manager self)
                 prompt "strategy" (Some context) (QueryKwargs None no_kwargs) ;;
     let (agent_name, response) := routed in
     Return ("Strategy Recommendation (by " ++ agent_name ++ "):" ++ nl ++ nl ++ response))
    (fun e => Return ("Error recommending strategy: " ++ exn_str e)).

Definition tactical_allocation (self : t) (market_outlook : PyDict.t json) (current_allocation : PyDict.t json)
  : outcome string :=
  try_except
    (let context := tactical_allocation_context py_format market_outlook current_allocation in
     let prompt := tactical_allocation_prompt market_outlook current_allocation in
     routed <- AgentManager.query_best_agent send generate py_format (agent_manager self)
                 prompt "strategy" (Some context) (QueryKwargs None no_kwargs) ;;
     let (agent_name, response) := routed in
     Return ("Tactical Allocation (by " ++ agent_name ++ "):" ++ nl ++ nl ++ response))
    (fun e => Return ("Error providing tactical allocation: " ++ exn_str e)).

Definition rebalancing_strategy (self : t) (portfolio_data : PyDict.t json) (target_allocation : PyDict.t json)
  : outcome string :=
  try_except
    (let context := rebalancing_strategy_context py_format portfolio_data target_allocation in
     let prompt := rebalancing_strategy_prompt portfolio_data target_allocation in
     routed <- AgentManager.query_best_agent send generate py_format (agent_manager self)
                 prompt "strategy" (Some context) (QueryKwargs None no_kwargs) ;;
     let (agent_name, response) := routed in
     Return ("Rebalancing Strategy (by " ++ agent_name ++ "):" ++ nl ++ nl ++ response))
    (fun e => Return ("Error developing rebalancing strategy: " ++ exn_str e)).

Definition hedge_strategy (self : t) (portfolio_data : PyDict.t json) (hedge_objectives : PyDict.t json)
  : outcome string :=
  try_except
    (let context := hedge_strategy_context py_format portfolio_data hedge_objectives in
     let prompt := hedge_strategy_prompt portfolio_data hedge_objectives in
     routed <- AgentManager.query_best_agent send generate py_format (agent_manager self)
                 prompt "strategy" (Some context) (QueryKwargs None no_kwargs) ;;
     let (agent_name, response) := routed in
     Return ("Hedge Strategy (by " ++ agent_name ++ "):" ++ nl ++ nl ++ response))
    (fun e => Return ("Error developing hedge strategy: " ++ exn_str e)).

End Calls.

End StrategyTools.

(** *** [AnalysisTools] ([src/tools/analysis_tools.py]) *)

Module AnalysisTools.

Record t : Type := Build { agent_manager : AgentManager.t }.

Definition __init__ (agent_manager : AgentManager.t) : t := Build agent_manager.

(** The text [context_str] of [swot_analysis]. *)
Definition swot_analysis_context (py_format : json -> string) (subject : string) (context : PyDict.t json)
  : string :=
  "Subject: " ++ subject ++ nl ++ "Context: " ++ py_format (JObj context).

(** The text [prompt] of [swot_analysis]. *)
Definition swot_analysis_prompt (subject : string) (context : PyDict.t json)
  : string :=
  nl ++ "            Please perform a comprehensive SWOT analysis for: " ++ subject ++ nl
  ++ "            " ++ nl ++ "            Analyze and provide detailed insights for:"
  ++ nl ++ "            " ++ nl ++ "            STRENGTHS:" ++ nl
  ++ "            - Internal positive factors" ++ nl
  ++ "            - Competitive advantages" ++ nl
  ++ "            - Unique capabilities" ++ nl
  ++ "            - Strong performance areas" ++ nl
  ++ "            " ++ nl ++ "            WEAKNESSES:" ++ nl
  ++ "            - Internal limitations" ++ nl
  ++ "            - Areas for improvement" ++ nl
  ++ "            - Competitive disadvantages" ++ nl
  ++ "            - Resource constraints" ++ nl
  ++ "            " ++ nl ++ "            OPPORTUNITIES:" ++ nl
  ++ "            - External positive factors" ++ nl
  ++ "            - Market trends" ++ nl ++ "            - Growth potential" ++ nl
  ++ "            - Emerging possibilities" ++ nl
  ++ "            " ++ nl ++ "            THREATS:" ++ nl
  ++ "            - External challenges" ++ nl
  ++ "            - Market risks" ++ nl ++ "            - Competitive pressures" ++ nl
  ++ "            - Economic/regulatory risks" ++ nl
  ++ "            " ++ nl
  ++ "            Provide specific, actionable insights for each category and strategic recommendations."
  ++ nl ++ "            ".

(** The text [context] of [explain_concept]. *)
Definition explain_concept_context (concept : string) (complexity_level : string)
  : string :=
  "Concept: " ++ concept ++ nl ++ "Complexity Level: " ++ complexity_level.

(** The text [prompt] of [explain_concept]. *)
Definition explain_concept_prompt (concept : string) (complexity_level : string)
  : string :=
  nl ++ "            Please explain the financial concept " ++ dq ++ concept ++ dq
  ++ " at a " ++ complexity_level ++ " level." ++ nl
  ++ "            " ++ nl ++ "            Structure your explanation to include:" ++ nl
  ++ "            1. Simple definition in everyday language" ++ nl
  ++ "            2. Key components or characteristics" ++ nl
  ++ "            3. Why it matters in finance/investing" ++ nl
  ++ "            4. Real-world examples" ++ nl
  ++ "            5. Common misconceptions" ++ nl
  ++ "            6. Practical applications" ++ nl
  ++ "            7. Related concepts to explore further" ++ nl
  ++ "            " ++ nl
  ++ "            Make the explanation clear, engaging, and educational while maintaining accuracy."
  ++ nl ++ "            ".

(** The text [context] of [reverse_simulation]. *)
Definition reverse_simulation_context (py_format : json -> string) (target_outcome : PyDict.t json) (current_state : PyDict.t json)
  : string :=
  nl ++ "            Target Outcome: " ++ py_format (JObj target_outcome) ++ nl
  ++ "            Current State: " ++ py_format (JObj current_state) ++ nl
  ++ "            ".

(** The text [prompt] of [reverse_simulation]. *)
Definition reverse_simulation_prompt (target_outcome : PyDict.t json) (current_state : PyDict.t json)
  : string :=
  nl
  ++ "            Please perform a reverse simulation analysis to determine how to achieve the target outcome from the current state."
  ++ nl ++ "            " ++ nl ++ "            Analyze:" ++ nl
  ++ "            1. Gap analysis between current state and target" ++ nl
  ++ "            2. Required steps and milestones" ++ nl
  ++ "            3. Timeline and sequencing" ++ nl
  ++ "            4. Resource requirements" ++ nl
  ++ "            5. Potential obstacles and solutions" ++ nl
  ++ "            6. Alternative pathways" ++ nl
  ++ "            7. Risk factors and mitigation strategies" ++ nl
  ++ "            8. Success probability assessment" ++ nl
  ++ "            9. Key performance indicators to monitor" ++ nl
  ++ "            10. Contingency plans" ++ nl
  ++ "            " ++ nl
  ++ "            Provide a detailed roadmap with specific, actionable recommendations."
  ++ nl ++ "            ".

(** The text [context] of [decision_analysis]. *)
Definition decision_analysis_context (py_format : json -> string) (decision_context : PyDict.t json) (options : list json)
  : string :=
  nl ++ "            Decision Context: " ++ py_format (JObj decision_context) ++ nl
  ++ "            Available Options: " ++ py_format (JArr options) ++ nl
  ++ "            ".

(** The text [prompt] of [decision_analysis]. *)
Definition decision_analysis_prompt (decision_context : PyDict.t json) (options : list json)
  : string :=
  nl
  ++ "            Please analyze the decision options and provide a comprehensive recommendation."
  ++ nl ++ "            " ++ nl ++ "            For each option, evaluate:" ++ nl
  ++ "            1. Pros and cons" ++ nl ++ "            2. Risk-return profile" ++ nl
  ++ "            3. Alignment with objectives" ++ nl
  ++ "            4. Implementation complexity" ++ nl
  ++ "            5. Resource requirements" ++ nl
  ++ "            6. Timeline implications" ++ nl
  ++ "            7. Potential outcomes and scenarios" ++ nl
  ++ "            " ++ nl ++ "            Then provide:" ++ nl
  ++ "            - Comparative analysis" ++ nl
  ++ "            - Recommended option with rationale" ++ nl
  ++ "            - Implementation considerations" ++ nl
  ++ "            - Monitoring and review framework" ++ nl
  ++ "            ".

(** The text [context] of [trend_analysis]. *)
Definition trend_analysis_context (py_format : json -> string) (data_context : PyDict.t json) (trend_type : string)
  : string :=
  nl ++ "            Data Context: " ++ py_format (JObj data_context) ++ nl
  ++ "            Trend Analysis Type: " ++ trend_type ++ nl
  ++ "            ".

(** The text [prompt] of [trend_analysis]. *)
Definition trend_analysis_prompt (data_context : PyDict.t json) (trend_type : string)
  : string :=
  nl ++ "            Please analyze the trends and patterns in the provided data." ++ nl
  ++ "            " ++ nl ++ "            Focus on:" ++ nl
  ++ "            1. Trend identification (upward, downward, sideways)" ++ nl
  ++ "            2. Trend strength and momentum" ++ nl
  ++ "            3. Cyclical patterns" ++ nl
  ++ "            4. Seasonal effects" ++ nl
  ++ "            5. Breakout/breakdown points" ++ nl
  ++ "            6. Support and resistance levels" ++ nl
  ++ "            7. Leading and lagging indicators" ++ nl
  ++ "            8. Future trend projections" ++ nl
  ++ "            9. Risk factors for trend reversal" ++ nl
  ++ "            " ++ nl
  ++ "            Provide actionable insights based on the trend analysis." ++ nl
  ++ "            ".

Section Calls.

Variable send : http_request -> outcome json.
Variable generate : generate_request -> outcome (PyDict.t string).
Variable py_format : json -> string.

Definition swot_analysis (self : t) (subject : string) (context : PyDict.t json)
  : outcome string :=
  try_except
    (let context_str := swot_analysis_context py_format subject context in
     let prompt := swot_analysis_prompt subject context in
     routed <- AgentManager.query_best_agent send generate py_format (agent_manager self)
                 prompt "swot" (Some context_str) (QueryKwargs None no_kwargs) ;;
     let (agent_name, response) := routed in
     Return ("SWOT Analysis (by " ++ agent_name ++ "):" ++ nl ++ nl ++ response))
    (fun e => Return ("Error performing SWOT analysis: " ++ exn_str e)).

(** In the source [complexity_level] defaults to ['intermediate']. *)
Definition explain_concept (self : t) (concept : string) (complexity_level : string)
  : outcome string :=
  try_except
    (let context := explain_concept_context concept complexity_level in
     let prompt := explain_concept_prompt concept complexity_level in
     routed <- AgentManager.query_best_agent send generate py_format (agent_manager self)
                 prompt "explanation" (Some context) (QueryKwargs None no_kwargs) ;;
     let (agent_name, response) := routed in
     Return ("Concept Explanation (by " ++ agent_name ++ "):" ++ nl ++ nl ++ response))
    (fun e => Return ("Error explaining concept: " ++ exn_str e)).

Definition reverse_simulation (self : t) (target_outcome : PyDict.t json) (current_state : PyDict.t json)
  : outcome string :=
  try_except
    (let context := reverse_simulation_context py_format target_outcome current_state in
     let prompt := reverse_simulation_prompt target_outcome current_state in
     routed <- AgentManager.query_best_agent send generate py_format (agent_manager self)
                 prompt "explanation" (Some context) (QueryKwargs None no_kwargs) ;;
     let (agent_name, response) := routed in
     Return ("Reverse Simulation (by " ++ agent_name ++ "):" ++ nl ++ nl ++ response))
    (fun e => Return ("Error performing reverse simulation: " ++ exn_str e)).

Definition decision_analysis (self : t) (decision_context : PyDict.t json) (options : list json)
  : outcome string :=
  try_except
    (let context := decision_analysis_context py_format decision_context options in
     let prompt := decision_analysis_prompt decision_context options in
     routed <- AgentManager.query_best_agent send generate py_format (agent_manager self)
                 prompt "explanation" (Some context) (QueryKwargs None no_kwargs) ;;
     let (agent_name, response) := routed in
     Return ("Decision Analysis (by " ++ agent_name ++ "):" ++ nl ++ nl ++ response))
    (fun e => Return ("Error analyzing decision: " ++ exn_str e)).

(** In the source [trend_type] defaults to ['general']. *)
Definition trend_analysis (self : t) (data_context : PyDict.t json) (trend_type : string)
  : outcome string :=
  try_except
    (let context := trend_analysis_context py_format data_context trend_type in
     let prompt := trend_analysis_prompt data_context trend_type in
     routed <- AgentManager.query_best_agent send generate py_format (agent_manager self)
                 prompt "explanation" (Some context) (QueryKwargs None no_kwargs) ;;
     let (agent_name, response) := routed in
     Return ("Trend Analysis (by " ++ agent_name ++ "):" ++ nl ++ nl ++ response))
    (fun e => Return ("Error analyzing trends: " ++ exn_str e)).

End Calls.

End AnalysisTools.

(** *** The calls of the tool modules *)

(** One call of a function of the five tool modules, with its arguments. *)
Inductive tool_call : Type :=
| AnalyzePortfolio (portfolio_data : PyDict.t json) (analysis_type : string)
| OptimizePortfolio (portfolio_data : PyDict.t json) (method : string) (constraints : option (PyDict.t json))
| PerformanceAttribution (portfolio_data : PyDict.t json) (benchmark_data : PyDict.t json)
| AnalyzeMarket (symbols : list string) (analysis_type : string)
| AnalyzeVolatility (symbols : list string) (timeframe : string)
| SectorAnalysis (sector : string)
| CorrelationAnalysis (symbols : list string)
| AssessRisk (portfolio_data : PyDict.t json) (user_profile : PyDict.t json) (risk_type : string)
| SimulateScenarios (portfolio_data : PyDict.t json) (scenarios : list (PyDict.t json))
| LiquidityRiskAnalysis (portfolio_data : PyDict.t json)
| TailRiskAnalysis (portfolio_data : PyDict.t json)
| RecommendStrategy (user_profile : PyDict.t json) (market_conditions : PyDict.t json) (strategy_type : string)
| TacticalAllocation (market_outlook : PyDict.t json) (current_allocation : PyDict.t json)
| RebalancingStrategy (portfolio_data : PyDict.t json) (target_allocation : PyDict.t json)
| HedgeStrategy (portfolio_data : PyDict.t json) (hedge_objectives : PyDict.t json)
| SwotAnalysis (subject : string) (context : PyDict.t json)
| ExplainConcept (concept : string) (complexity_level : string)
| ReverseSimulation (target_outcome : PyDict.t json) (current_state : PyDict.t json)
| DecisionAnalysis (decision_context : PyDict.t json) (options : list json)
| TrendAnalysis (data_context : PyDict.t json) (trend_type : string).

(** The heading a call puts over the response. *)
Definition tool_call_title (call : tool_call) : string :=
  match call with
  | AnalyzePortfolio portfolio_data analysis_type => "Portfolio Analysis"
  | OptimizePortfolio portfolio_data method constraints => "Portfolio Optimization"
  | PerformanceAttribution portfolio_data benchmark_data => "Performance Attribution"
  | AnalyzeMarket symbols analysis_type => "Market Analysis"
  | AnalyzeVolatility symbols timeframe => "Volatility Analysis"
  | SectorAnalysis sector => "Sector Analysis"
  | CorrelationAnalysis symbols => "Correlation Analysis"
  | AssessRisk portfolio_data user_profile risk_type => "Risk Assessment"
  | SimulateScenarios portfolio_data scenarios => "Scenario Analysis"
  | LiquidityRiskAnalysis portfolio_data => "Liquidity Risk Analysis"
  | TailRiskAnalysis portfolio_data => "Tail Risk Analysis"
  | RecommendStrategy user_profile market_conditions strategy_type => "Strategy Recommendation"
  | TacticalAllocation market_outlook current_allocation => "Tactical Allocation"
  | RebalancingStrategy portfolio_data target_allocation => "Rebalancing Strategy"
  | HedgeStrategy portfolio_data hedge_objectives => "Hedge Strategy"
  | SwotAnalysis subject context => "SWOT Analysis"
  | ExplainConcept concept complexity_level => "Concept Explanation"
  | ReverseSimulation target_outcome current_state => "Reverse Simulation"
  | DecisionAnalysis decision_context options => "Decision Analysis"
  | TrendAnalysis data_context trend_type => "Trend Analysis"
  end.

(** The text that opens the result of a call whose body raised. *)
Definition tool_call_error (call : tool_call) : string :=
  match call with
  | AnalyzePortfolio portfolio_data analysis_type => "Error analyzing portfolio: "
  | OptimizePortfolio portfolio_data method constraints => "Error optimizing portfolio: "
  | PerformanceAttribution portfolio_data benchmark_data => "Error in performance attribution: "
  | AnalyzeMarket symbols analysis_type => "Error analyzing market: "
  | AnalyzeVolatility symbols timeframe => "Error analyzing volatility: "
  | SectorAnalysis sector => "Error analyzing sector: "
  | CorrelationAnalysis symbols => "Error analyzing correlations: "
  | AssessRisk portfolio_data user_profile risk_type => "Error assessing risk: "
  | SimulateScenarios portfolio_data scenarios => "Error running scenario simulation: "
  | LiquidityRiskAnalysis portfolio_data => "Error analyzing liquidity risk: "
  | TailRiskAnalysis portfolio_data => "Error analyzing tail risk: "
  | RecommendStrategy user_profile market_conditions strategy_type => "Error recommending strategy: "
  | TacticalAllocation market_outlook current_allocation => "Error providing tactical allocation: "
  | RebalancingStrategy portfolio_data target_allocation => "Error developing rebalancing strategy: "
  | HedgeStrategy portfolio_data hedge_objectives => "Error developing hedge strategy: "
  | SwotAnalysis subject context => "Error performing SWOT analysis: "
  | ExplainConcept concept complexity_level => "Error explaining concept: "
  | ReverseSimulation target_outcome current_state => "Error performing reverse simulation: "
  | DecisionAnalysis decision_context options => "Error analyzing decision: "
  | TrendAnalysis data_context trend_type => "Error analyzing trends: "
  end.

(** The task type a call routes by. *)
Definition tool_call_task_type (call : tool_call) : string :=
  match call with
  | AnalyzePortfolio portfolio_data analysis_type => "portfolio"
  | OptimizePortfolio portfolio_data method constraints => "portfolio"
  | PerformanceAttribution portfolio_data benchmark_data => "portfolio"
  | AnalyzeMarket symbols analysis_type => "market_analysis"
  | AnalyzeVolatility symbols timeframe => "market_analysis"
  | SectorAnalysis sector => "market_analysis"
  | CorrelationAnalysis symbols => "market_analysis"
  | AssessRisk portfolio_data user_profile risk_type => "risk"
  | SimulateScenarios portfolio_data scenarios => "risk"
  | LiquidityRiskAnalysis portfolio_data => "risk"
  | TailRiskAnalysis portfolio_data => "risk"
  | RecommendStrategy user_profile market_conditions strategy_type => "strategy"
  | TacticalAllocation market_outlook current_allocation => "strategy"
  | RebalancingStrategy portfolio_data target_allocation => "strategy"
  | HedgeStrategy portfolio_data hedge_objectives => "strategy"
  | SwotAnalysis subject context => "swot"
  | ExplainConcept concept complexity_level => "explanation"
  | ReverseSimulation target_outcome current_state => "explanation"
  | DecisionAnalysis decision_context options => "explanation"
  | TrendAnalysis data_context trend_type => "explanation"
  end.

(** The agent the task table prefers for the calls of a module. *)
Definition tool_call_agent (call : tool_call) : string :=
  match call with
  | AnalyzePortfolio _ _ => "portfolio_manager"
  | OptimizePortfolio _ _ _ => "portfolio_manager"
  | PerformanceAttribution _ _ => "portfolio_manager"
  | AnalyzeMarket _ _ => "market_analyst"
  | AnalyzeVolatility _ _ => "market_analyst"
  | SectorAnalysis _ => "market_analyst"
  | CorrelationAnalysis _ => "market_analyst"
  | AssessRisk _ _ _ => "risk_analyst"
  | SimulateScenarios _ _ => "risk_analyst"
  | LiquidityRiskAnalysis _ => "risk_analyst"
  | TailRiskAnalysis _ => "risk_analyst"
  | RecommendStrategy _ _ _ => "portfolio_manager"
  | TacticalAllocation _ _ => "portfolio_manager"
  | RebalancingStrategy _ _ => "portfolio_manager"
  | HedgeStrategy _ _ => "portfolio_manager"
  | SwotAnalysis _ _ => "explainability_agent"
  | ExplainConcept _ _ => "explainability_agent"
  | ReverseSimulation _ _ => "explainability_agent"
  | DecisionAnalysis _ _ => "explainability_agent"
  | TrendAnalysis _ _ => "explainability_agent"
  end.

(** The context a call hands to the router. *)
Definition tool_call_context (py_format : json -> string) (call : tool_call) : string :=
  match call with
  | AnalyzePortfolio portfolio_data analysis_type => PortfolioTools.analyze_portfolio_context py_format portfolio_data analysis_type
  | OptimizePortfolio portfolio_data method constraints => PortfolioTools.optimize_portfolio_context py_format portfolio_data method constraints
  | PerformanceAttribution portfolio_data benchmark_data => PortfolioTools.performance_attribution_context py_format portfolio_data benchmark_data
  | AnalyzeMarket symbols analysis_type => MarketTools.analyze_market_context py_format symbols analysis_type
  | AnalyzeVolatility symbols timeframe => MarketTools.analyze_volatility_context py_format symbols timeframe
  | SectorAnalysis sector => MarketTools.sector_analysis_context sector
  | CorrelationAnalysis symbols => MarketTools.correlation_analysis_context py_format symbols
  | AssessRisk portfolio_data user_profile risk_type => RiskTools.assess_risk_context py_format portfolio_data user_profile risk_type
  | SimulateScenarios portfolio_data scenarios => RiskTools.simulate_scenarios_context py_format portfolio_data scenarios
  | LiquidityRiskAnalysis portfolio_data => RiskTools.liquidity_risk_analysis_context py_format portfolio_data
  | TailRiskAnalysis portfolio_data => RiskTools.tail_risk_analysis_context py_format portfolio_data
  | RecommendStrategy user_profile market_conditions strategy_type => StrategyTools.recommend_strategy_context py_format user_profile market_conditions strategy_type
  | TacticalAllocation market_outlook current_allocation => StrategyTools.tactical_allocation_context py_format market_outlook current_allocation
  | RebalancingStrategy portfolio_data target_allocation => StrategyTools.rebalancing_strategy_context py_format portfolio_data target_allocation
  | HedgeStrategy portfolio_data hedge_objectives => StrategyTools.hedge_strategy_context py_format portfolio_data hedge_objectives
  | SwotAnalysis subject context => AnalysisTools.swot_analysis_context py_format subject context
  | ExplainConcept concept complexity_level => AnalysisTools.explain_concept_context concept complexity_level
  | ReverseSimulation target_outcome current_state => AnalysisTools.reverse_simulation_context py_format target_outcome current_state
  | DecisionAnalysis decision_context options => AnalysisTools.decision_analysis_context py_format decision_context options
  | TrendAnalysis data_context trend_type => AnalysisTools.trend_analysis_context py_format data_context trend_type
  end.

(** The prompt a call hands to the router. *)
Definition tool_call_prompt (call : tool_call) : string :=
  match call with
  | AnalyzePortfolio portfolio_data analysis_type => PortfolioTools.analyze_portfolio_prompt portfolio_data analysis_type
  | OptimizePortfolio portfolio_data method constraints => PortfolioTools.optimize_portfolio_prompt portfolio_data method constraints
  | PerformanceAttribution portfolio_data benchmark_data => PortfolioTools.performance_attribution_prompt portfolio_data benchmark_data
  | AnalyzeMarket symbols analysis_type => MarketTools.analyze_market_prompt symbols analysis_type
  | AnalyzeVolatility symbols timeframe => MarketTools.analyze_volatility_prompt symbols timeframe
  | SectorAnalysis sector => MarketTools.sector_analysis_prompt sector
  | CorrelationAnalysis symbols => MarketTools.correlation_analysis_prompt symbols
  | AssessRisk portfolio_data user_profile risk_type => RiskTools.assess_risk_prompt portfolio_data user_profile risk_type
  | SimulateScenarios portfolio_data scenarios => RiskTools.simulate_scenarios_prompt portfolio_data scenarios
  | LiquidityRiskAnalysis portfolio_data => RiskTools.liquidity_risk_analysis_prompt portfolio_data
  | TailRiskAnalysis portfolio_data => RiskTools.tail_risk_analysis_prompt portfolio_data
  | RecommendStrategy user_profile market_conditions strategy_type => StrategyTools.recommend_strategy_prompt user_profile market_conditions strategy_type
  | TacticalAllocation market_outlook current_allocation => StrategyTools.tactical_allocation_prompt market_outlook current_allocation
  | RebalancingStrategy portfolio_data target_allocation => StrategyTools.rebalancing_strategy_prompt portfolio_data target_allocation
  | HedgeStrategy portfolio_data hedge_objectives => StrategyTools.hedge_strategy_prompt portfolio_data hedge_objectives
  | SwotAnalysis subject context => AnalysisTools.swot_analysis_prompt subject context
  | ExplainConcept concept complexity_level => AnalysisTools.explain_concept_prompt concept complexity_level
  | ReverseSimulation target_outcome current_state => AnalysisTools.reverse_simulation_prompt target_outcome current_state
  | DecisionAnalysis decision_context options => AnalysisTools.decision_analysis_prompt decision_context options
  | TrendAnalysis data_context trend_type => AnalysisTools.trend_analysis_prompt data_context trend_type
  end.

(** A call, run on the tool object of its module. *)
Definition run_tool_call (send : http_request -> outcome json)
    (generate : generate_request -> outcome (PyDict.t string))
    (py_format : json -> string) (manager : AgentManager.t) (call : tool_call)
  : outcome string :=
  match call with
  | AnalyzePortfolio portfolio_data analysis_type =>
      PortfolioTools.analyze_portfolio send generate py_format (PortfolioTools.__init__ manager) portfolio_data analysis_type
  | OptimizePortfolio portfolio_data method constraints =>
      PortfolioTools.optimize_portfolio send generate py_format (PortfolioTools.__init__ manager) portfolio_data method constraints
  | PerformanceAttribution portfolio_data benchmark_data =>
      PortfolioTools.performance_attribution send generate py_format (PortfolioTools.__init__ manager) portfolio_data benchmark_data
  | AnalyzeMarket symbols analysis_type =>
      MarketTools.analyze_market send generate py_format (MarketTools.__init__ manager) symbols analysis_type
  | AnalyzeVolatility symbols timeframe =>
      MarketTools.analyze_volatility send generate py_format (MarketTools.__init__ manager) symbols timeframe
  | SectorAnalysis sector =>
      MarketTools.sector_analysis send generate py_format (MarketTools.__init__ manager) sector
  | CorrelationAnalysis symbols =>
      MarketTools.correlation_analysis send generate py_format (MarketTools.__init__ manager) symbols
  | AssessRisk portfolio_data user_profile risk_type =>
      RiskTools.assess_risk send generate py_format (RiskTools.__init__ manager) portfolio_data user_profile risk_type
  | SimulateScenarios portfolio_data scenarios =>
      RiskTools.simulate_scenarios send generate py_format (RiskTools.__init__ manager) portfolio_data scenarios
  | LiquidityRiskAnalysis portfolio_data =>
      RiskTools.liquidity_risk_analysis send generate py_format (RiskTools.__init__ manager) portfolio_data
  | TailRiskAnalysis portfolio_data =>
      RiskTools.tail_risk_analysis send generate py_format (RiskTools.__init__ manager) portfolio_data
  | RecommendStrategy user_profile market_conditions strategy_type =>
      StrategyTools.recommend_strategy send generate py_format (StrategyTools.__init__ manager) user_profile market_conditions strategy_type
  | TacticalAllocation market_outlook current_allocation =>
      StrategyTools.tactical_allocation send generate py_format (StrategyTools.__init__ manager) market_outlook current_allocation
  | RebalancingStrategy portfolio_data target_allocation =>
      StrategyTools.rebalancing_strategy send generate py_format (StrategyTools.__init__ manager) portfolio_data target_allocation
  | HedgeStrategy portfolio_data hedge_objectives =>
      StrategyTools.hedge_strategy send generate py_format (StrategyTools.__init__ manager) portfolio_data hedge_objectives
  | SwotAnalysis subject context =>
      AnalysisTools.swot_analysis send generate py_format (AnalysisTools.__init__ manager) subject context
  | ExplainConcept concept complexity_level =>
      AnalysisTools.explain_concept send generate py_format (AnalysisTools.__init__ manager) concept complexity_level
  | ReverseSimulation target_outcome current_state =>
      AnalysisTools.reverse_simulation send generate py_format (AnalysisTools.__init__ manager) target_outcome current_state
  | DecisionAnalysis decision_context options =>
      AnalysisTools.decision_analysis send generate py_format (AnalysisTools.__init__ manager) decision_context options
  | TrendAnalysis data_context trend_type =>
      AnalysisTools.trend_analysis send generate py_format (AnalysisTools.__init__ manager) data_context trend_type
  end.

(** ** The default configuration ([src/config/config.py]) *)

(** [Config._create_default_config]: the agents of the default
    configuration, over the dataclass defaults of the other fields. *)
Definition _create_default_config : Config.t := {|
  Config.server_name := "openbanking-mcp";
  Config.development_mode := false;
  Config.ollama_base_url := "http://localhost:11434";
  Config.bank_api := BankApiConfig.default;
  Config.agents :=
    [ AgentConfig.make "market_analyst" "llama3.2:latest"
        "Market Data Analyst"
        "You are a specialized market data analyst agent. Your role is to analyze market conditions, identify volatile situations, and provide insights on current market trends. Focus on real-time data analysis and market volatility assessment.";
      AgentConfig.make "portfolio_manager" "llama3.2:latest"
        "Portfolio Manager"
        "You are a portfolio management agent specializing in strategy development. Your role is to analyze portfolios, recommend investment strategies, and provide optimization suggestions. Focus on risk-adjusted returns and strategic asset allocation.";
      AgentConfig.make "risk_analyst" "llama3.2:latest"
        "Risk Analyst"
        "You are a risk analysis agent focused on user-specific risk assessment. Your role is to evaluate financial risks, assess user risk profiles, and provide risk management recommendations. Focus on personalized risk analysis and mitigation strategies.";
      AgentConfig.make "explainability_agent" "llama3.2:latest"
        "Explainability & Strategy Agent"
        "You are an explainability agent specializing in making complex financial concepts understandable. Your role is to provide clear explanations, conduct SWOT analysis, and help users understand financial decisions. Focus on clarity and educational value." ]
|}.

(** ** Vocabulary of the properties *)

(** The five sources of the composite record. *)
Inductive source : Type :=
| Customer
| Portfolio
| Accounts
| Transactions
| RiskMetrics.

(** The name of a source, both in the endpoint table and in the
    composite record. *)
Definition source_key (s : source) : string :=
  match s with
  | Customer => "customer"
  | Portfolio => "portfolio"
  | Accounts => "accounts"
  | Transactions => "transactions"
  | RiskMetrics => "risk_metrics"
  end.

Definition five_source_keys : list string :=
  map source_key [Customer; Portfolio; Accounts; Transactions; RiskMetrics].

(** The text that opens the error marker of a source. *)
Definition failure_text (s : source) : string :=
  match s with
  | Customer => "Failed to retrieve customer data: "
  | Portfolio => "Failed to retrieve portfolio data: "
  | Accounts => "Failed to retrieve accounts: "
  | Transactions => "Failed to retrieve transactions: "
  | RiskMetrics => "Failed to retrieve risk metrics: "
  end.

(** The endpoint the aggregator asks for, given the formatted template
    of the source: only the transactions source gets a query string. *)
Definition requested_endpoint (s : source) (endpoint : string) : string :=
  match s with
  | Transactions => endpoint ++ "?limit=50"
  | _ => endpoint
  end.

(** The headers every request carries. *)
Definition request_headers (self : BankApiClient.t) : PyDict.t string :=
  let headers := PyDict.literal
    [ ("Content-Type", "application/json"); ("Accept", "application/json") ] in
  if str_truthy (BankApiClient.api_key self)
  then PyDict.set headers "Authorization" ("Bearer " ++ BankApiClient.api_key self)
  else headers.

(** The [GET] exchange for an endpoint. *)
Definition get_request (self : BankApiClient.t) (endpoint : string) : http_request :=
  HttpRequest "GET" (BankApiClient.base_url self ++ endpoint) (request_headers self)
              None (BankApiClient.timeout self).

(** What a fetch settles to once its request is known: the payload as
    it came, or the marker of the failure. *)
Definition settled (send : http_request -> outcome json) (self : BankApiClient.t)
    (s : source) (endpoint : string) : outcome json :=
  match send (get_request self endpoint) with
  | Return payload => Return payload
  | Raise e => Return (error_dict (failure_text s ++ exn_str e))
  end.

(** A field of the composite record is either the marker of its own
    source's failure or a payload the service returned. *)
Definition isolated_field (send : http_request -> outcome json) (s : source)
    (field : json) : Prop :=
  (exists e, field = error_dict (failure_text s ++ exn_str e))
  \/ (exists request, send request = Return field).

(** The composite record with its six entries. *)
Definition composite (customer_oid : string)
    (customer portfolio accounts transactions risk_metrics : json) : PyDict.t json :=
  [ ("customer_oid", JStr customer_oid);
    ("customer", customer);
    ("portfolio", portfolio);
    ("accounts", accounts);
    ("transactions", transactions);
    ("risk_metrics", risk_metrics) ].

(** Values [len] accepts. *)
Definition has_len (v : json) : bool :=
  match v with
  | JStr _ | JArr _ | JObj _ => true
  | _ => false
  end.

(** A transactions payload whose entries can be counted: a JSON object
    whose ["transactions"] member, when there is one, has a length. *)
Definition countable_transactions (payload : json) : bool :=
  match payload with
  | JObj d =>
      match PyDict.get d "transactions" with
      | Some entries => has_len entries
      | None => true
      end
  | _ => false
  end.

(** The payloads a source hands on as they are. *)
Definition accepted (s : source) (payload : json) : bool :=
  match s with
  | Transactions => countable_transactions payload
  | _ => true
  end.

(** The claim that every source whose fetch succeeds has its decoded
    payload under its key, in the spec's words. *)
Definition succeeding_sources_hold_payloads (send : http_request -> outcome json)
    (self : BankApiClient.t) (oid : string) : Prop :=
  exists record,
    BankApiClient.get_comprehensive_customer_data send self oid = Return (JObj record)
    /\ forall s template endpoint payload,
         PyDict.get (BankApiClient.endpoints self) (source_key s) = Some template ->
         str_format template oid = Return endpoint ->
         send (get_request self (requested_endpoint s endpoint)) = Return payload ->
         PyDict.get record (source_key s) = Some payload.


(** The claim that the composite record has the five source keys and no
    other, in the spec's words. *)
Definition exactly_five_keys (result : outcome json) : Prop :=
  exists record,
    result = Return (JObj record)
    /\ forall k, In k (PyDict.keys record) <-> In k five_source_keys.

(** The names the probe reads out of a listing; none when the call
    raised or the answer has a shape the probe does not know. *)
Definition listed_models (listing : outcome list_response) : list string :=
  match listing with
  | Return models_response =>
      match Agent.models_of models_response with
      | Some models_list => Agent.available_models models_list
      | None => []
      end
  | Raise _ => []
  end.

(** The base name of a model identity: the text before the first [:]. *)
Definition base_name (model : string) : string := split_head ":" model.

(** *** Sample environments *)

Definition sample_client : BankApiClient.t :=
  BankApiClient.__init__ BankApiConfig.default.

Definition sample_transaction (n : Z) : json :=
  JObj [ ("transaction_id", JInt n); ("type", JStr "buy") ].

(** Fifty-one entries: one more than the limit asks for. *)
Definition sample_transactions : json :=
  JObj [ ("customer_oid", JStr "CUST1");
         ("transactions", JArr (map sample_transaction
                                    (map Z.of_nat (seq 1 51)))) ].

(** A bank service whose portfolio endpoint times out and whose
    transactions endpoint ignores the limit. *)
Definition sample_send (r : http_request) : outcome json :=
  if String.eqb (req_url r) "http://localhost:3000/api/portfolio/CUST1" then
    Raise (Exn "ReadTimeout" "timed out")
  else if String.eqb (req_url r) "http://localhost:3000/api/transactions/CUST1?limit=50" then
    Return sample_transactions
  else Return (JObj [ ("customer_oid", JStr "CUST1") ]).

(** A bank service that answers every request with the body
    [{"transactions": null}]. *)
Definition sample_null_body : json := JObj [ ("transactions", JNull) ].

Definition sample_send_null (_ : http_request) : outcome json :=
  Return sample_null_body.



(** A rendering for the samples: a value shows as the name of its
    type. *)
Definition sample_format (v : json) : string := "<" ++ type_name v ++ ">".

(** A runtime whose completion call is refused. *)
Definition sample_refusing (_ : generate_request) : outcome (PyDict.t string) :=
  Raise (Exn "ConnectionError" "connection refused").

(** A runtime that answers with the name of the model it was asked for. *)
Definition sample_echo (r : generate_request) : outcome (PyDict.t string) :=
  Return [ ("response", gen_model r) ].

Definition sample_config (name : string) : AgentConfig.t :=
  AgentConfig.make name "llama3.2:latest" "Analyst" "You are an analyst.".

(** An agent as [_initialize_agents] registers it after an exact match. *)
Definition sample_agent (name : string) : Agent.t :=
  Agent.set_is_available (Agent.__init__ (sample_config name) sample_client) true.

Definition sample_manager (names : list string) : AgentManager.t :=
  AgentManager.Build
    (Config.Build "openbanking-mcp" false "http://localhost:11434"
       BankApiConfig.default (map sample_config names))
    (map (fun name => (name, sample_agent name)) names)
    (Some "http://localhost:11434")
    sample_client.

(** The claim about a failed generation, in the spec's words: the
    returned text carries the agent's name and the error's text. *)
Definition names_agent_and_error (self : Agent.t) (e : exn) (result : outcome string)
  : Prop :=
  exists text,
    result = Return text
    /\ str_contains (Agent.name self) text = true
    /\ str_contains (exn_str e) text = true.

(** The claim that an unmapped tool name is routed to the default
    agent, in the spec's words. *)
Definition unmapped_tool_routes_to_default : Prop :=
  forall (self : AgentManager.t) (tool_name : string),
    PyDict.get AgentManager.tool_agent_mapping tool_name = None ->
    AgentManager.get_agent_for_tool self (Some tool_name)
    = AgentManager.get_agent self "explainability_agent".

(** What [GET /mcp/status] reports for one registered agent. *)
Definition status_entry (agent : Agent.t) : json :=
  JObj [ ("available", JBool (Agent.is_available agent));
         ("model", JStr (Agent.model_name agent)) ].

(** The invariant of the registry. *)
Definition all_available (registry : PyDict.t Agent.t) : Prop :=
  Forall (fun entry => Agent.is_available (snd entry) = true) registry.

(** A listing that offers one tagged variant of the configured family. *)
Definition sample_listing : outcome list_response :=
  Return (ListObject [ ModelObject (Some "mistral:7b"); ModelObject (Some "llama3.2:3b") ]).

(** A registry as the manager keeps it: distinct names, and every agent
    marked available. *)
Definition registry_ok (registry : PyDict.t Agent.t) : Prop :=
  NoDup (PyDict.keys registry) /\ all_available registry.

(** *** Vocabulary of the further properties *)

(** The path of a source under the default endpoint table, up to the
    subject. *)
Definition default_path (s : source) : string :=
  match s with
  | Customer => "/api/customers/"
  | Portfolio => "/api/portfolio/"
  | Accounts => "/api/accounts/"
  | Transactions => "/api/transactions/"
  | RiskMetrics => "/api/risk/"
  end.


(** The endpoint [get_market_data] asks for. *)
Definition market_endpoint (endpoint : string) (symbols : option (list string)) : string :=
  match symbols with
  | Some (first :: rest) => endpoint ++ "?symbols=" ++ String.concat "," (first :: rest)
  | _ => endpoint
  end.


(** A client whose endpoint table is empty, as [Config.load] builds it
    from a [bank_api] section that names no endpoints. *)
Definition sample_bare_client : BankApiClient.t :=
  BankApiClient.__init__
    (BankApiConfig.Build "http://localhost:3000" 10 "secret" PyDict.empty).


(** A bank service that answers with the address it was asked at. *)
Definition sample_send_echo (r : http_request) : outcome json :=
  Return (JObj [ ("url", JStr (req_url r)) ]).

(** A bank service that refuses everything but [GET]. *)
Definition sample_send_get_only (r : http_request) : outcome json :=
  if String.eqb (req_method r) "GET" then sample_send r
  else Raise (Exn "HTTPStatusError" "405 Method Not Allowed").

(** The prompt [execute_tool] builds for a tool call. *)
Definition execute_tool_prompt (py_format : json -> string) (self : Agent.t)
    (tool_name : string) (arguments : PyDict.t json) : string :=
  nl ++ "Execute the following tool: " ++ tool_name ++ nl
  ++ "Arguments: " ++ py_format (JObj arguments) ++ nl ++ nl
  ++ "Please provide a detailed response based on your role as "
  ++ Agent.role self ++ "." ++ nl
  ++ "Analyze the request and provide insights according to your expertise." ++ nl
  ++ "If customer data is available, provide personalized recommendations." ++ nl.

(** The arguments of a tool call once [call_tool] has written the
    request's customer identifier into them. *)
Definition with_customer (arguments : PyDict.t json) (customer_oid : string)
  : PyDict.t json :=
  PyDict.set (PyDict.set arguments "customer_oid" (JStr customer_oid))
             "CustomerOID" (JStr customer_oid).

(** The text [generate_response] returns for an outcome of the
    runtime's completion call. *)
Definition response_text (generated : outcome (PyDict.t string)) : string :=
  match generated with
  | Return response =>
      match PyDict.get response "response" with
      | Some text => text
      | None => "Error: Unable to generate response - 'response'"
      end
  | Raise e => "Error: Unable to generate response - " ++ exn_str e
  end.

(** The block of customer data in a prompt, from the five rendered
    fields. *)
Definition customer_block (customer_oid customer portfolio accounts transactions
                           risk_metrics : string) : string :=
  nl ++ "Customer Data for " ++ customer_oid ++ ":" ++ nl
  ++ "- Customer Profile: " ++ customer ++ nl
  ++ "- Portfolio: " ++ portfolio ++ nl
  ++ "- Accounts: " ++ accounts ++ nl
  ++ "- Recent Transactions: " ++ transactions ++ nl
  ++ "- Risk Metrics: " ++ risk_metrics ++ nl.

(** The context line of a prompt. *)
Definition context_line (context : option string) : string :=
  if opt_truthy context then "Context: " ++ fmt_opt context ++ nl ++ nl else "".

(** An entry of the registry as [_initialize_agents] makes it from the
    configured agents: the key is the agent's name, the agent carries an
    enabled configuration and the manager's bank client, its reported
    [model_name] is the configured identity, it is marked available, and
    the model it generates with is the configured one or a name that
    starts with its base name. *)
Definition made_from (configs : list AgentConfig.t) (bank : BankApiClient.t)
    (entry : string * Agent.t) : Prop :=
  let (key, agent) := entry in
  In (Agent.config agent) configs
  /\ AgentConfig.enabled (Agent.config agent) = true
  /\ key = AgentConfig.name (Agent.config agent)
  /\ Agent.name agent = key
  /\ Agent.role agent = AgentConfig.role (Agent.config agent)
  /\ Agent.model_name agent = AgentConfig.model (Agent.config agent)
  /\ Agent.bank_api_client agent = bank
  /\ Agent.is_available agent = true
  /\ startswith (Agent.model agent) (base_name (Agent.model_name agent)) = true.

(** A runtime whose listing call is refused. *)
Definition sample_no_runtime (_ : nat) : outcome list_response :=
  Raise (Exn "ConnectionError" "connection refused").

Definition sample_configs : list AgentConfig.t :=
  [ sample_config "market_analyst";
    AgentConfig.Build "portfolio_manager" "llama3.2:latest" "Portfolio Manager"
      "You manage portfolios." AgentConfig.default_temperature 2048 false;
    AgentConfig.make "risk_analyst" "qwen2:7b" "Risk Analyst" "You assess risk.";
    sample_config "explainability_agent" ].

Definition sample_server_config : Config.t :=
  Config.Build "openbanking-mcp" false "http://localhost:11434" BankApiConfig.default
    sample_configs.

(** The tools the registry can have tracked. *)
Definition tracked_only (tools : PyDict.t string) : Prop :=
  forall tool, In tool (PyDict.keys tools) ->
               tool = "analyze_portfolio" \/ tool = "portfolio_optimization".

(** The names of the agents of the default configuration, in order. *)
Definition default_agent_names : list string :=
  map AgentConfig.name (Config.agents _create_default_config).

(** The manager a server has after [initialize], started from a
    configuration. *)
Definition started (list_models : nat -> outcome list_response) (config : Config.t)
    (calls : nat) : AgentManager.t :=
  snd (fst (AgentManager.initialize list_models (AgentManager.__init__ config) calls)).

(** The routing query a tool call makes. *)
Definition tool_call_query (send : http_request -> outcome json)
    (generate : generate_request -> outcome (PyDict.t string))
    (py_format : json -> string) (manager : AgentManager.t) (call : tool_call)
  : outcome (string * string) :=
  AgentManager.query_best_agent send generate py_format manager
    (tool_call_prompt call) (tool_call_task_type call)
    (Some (tool_call_context py_format call)) (QueryKwargs None no_kwargs).

(** The body every tool function shares: the routed response under a
    heading that names the agent, or the error text when the body
    raised. *)
Definition attributed (title error : string) (query : outcome (string * string))
  : outcome string :=
  try_except
    (routed <- query ;;
     let (agent_name, response) := routed in
     Return (title ++ " (by " ++ agent_name ++ "):" ++ nl ++ nl ++ response))
    (fun e => Return (error ++ exn_str e)).

(** A runtime that lists one model of the default family. *)
Definition sample_models (_ : nat) : outcome list_response :=
  Return (ListDict [ ("models", [ ModelDict [ ("name", "llama3.2:1b") ] ]) ]).

(** * Properties *)

(** ** Dictionaries and raising computations *)

Lemma try_except_reraise {A : Type} (body : outcome A) :
  try_except body (fun e => Raise e) = body.
Proof. destruct body; reflexivity. Qed.

Lemma try_except_returns {A : Type} (body : outcome A) (handler : exn -> A) :
  exists a, try_except body (fun e => Return (handler e)) = Return a.
Proof. destruct body as [a | e]; simpl; eauto. Qed.

Lemma getitem_present {V : Type} (d : PyDict.t V) (k : string) (v : V) :
  PyDict.get d k = Some v -> PyDict.getitem d k = Return v.
Proof. unfold PyDict.getitem. intros ->. reflexivity. Qed.

(** ** The aggregator *)

Section Aggregator.

Variable send : http_request -> outcome json.
Variable self : BankApiClient.t.

Lemma _make_request_get (endpoint : string) :
  BankApiClient._make_request send self endpoint "GET" None
  = send (get_request self endpoint).
Proof.
  unfold BankApiClient._make_request. rewrite try_except_reraise.
  reflexivity.
Qed.

Ltac fetch_steps Hget Hfmt :=
  rewrite (getitem_present _ _ _ Hget); cbn [bind];
  rewrite Hfmt; cbn [bind];
  rewrite _make_request_get;
  unfold settled; destruct (send _); reflexivity.

Lemma get_customer_data_sent (oid template endpoint : string) :
  PyDict.get (BankApiClient.endpoints self) "customer" = Some template ->
  str_format template oid = Return endpoint ->
  BankApiClient.get_customer_data send self oid = settled send self Customer endpoint.
Proof.
  intros Hget Hfmt. unfold BankApiClient.get_customer_data.
  fetch_steps Hget Hfmt.
Qed.

Lemma get_portfolio_data_sent (oid template endpoint : string) :
  PyDict.get (BankApiClient.endpoints self) "portfolio" = Some template ->
  str_format template oid = Return endpoint ->
  BankApiClient.get_portfolio_data send self oid = settled send self Portfolio endpoint.
Proof.
  intros Hget Hfmt. unfold BankApiClient.get_portfolio_data.
  fetch_steps Hget Hfmt.
Qed.

Lemma get_accounts_sent (oid template endpoint : string) :
  PyDict.get (BankApiClient.endpoints self) "accounts" = Some template ->
  str_format template oid = Return endpoint ->
  BankApiClient.get_accounts send self oid = settled send self Accounts endpoint.
Proof.
  intros Hget Hfmt. unfold BankApiClient.get_accounts.
  fetch_steps Hget Hfmt.
Qed.

Lemma get_risk_metrics_sent (oid template endpoint : string) :
  PyDict.get (BankApiClient.endpoints self) "risk_metrics" = Some template ->
  str_format template oid = Return endpoint ->
  BankApiClient.get_risk_metrics send self oid = settled send self RiskMetrics endpoint.
Proof.
  intros Hget Hfmt. unfold BankApiClient.get_risk_metrics.
  fetch_steps Hget Hfmt.
Qed.

(** Counting the entries of a countable payload does not raise. *)
Lemma count_entries_returns (payload : json) :
  countable_transactions payload = true ->
  exists n, (entries <- json_get payload "transactions" (JArr []) ;; py_len entries)
            = Return n.
Proof.
  destruct payload as [| | | | | |d]; try discriminate. simpl.
  unfold PyDict.get_default.
  destruct (PyDict.get d "transactions") as [entries|]; [|simpl; eauto].
  destruct entries; try discriminate; simpl; eauto.
Qed.

(** A payload that is not countable makes the count raise. *)
Lemma count_entries_raises (payload : json) :
  countable_transactions payload = false ->
  exists e, (entries <- json_get payload "transactions" (JArr []) ;; py_len entries)
            = Raise e.
Proof.
  destruct payload as [| | | | | |d]; simpl; eauto.
  unfold PyDict.get_default.
  destruct (PyDict.get d "transactions") as [entries|]; [|discriminate].
  destruct entries; try discriminate; simpl; eauto.
Qed.

Lemma get_transactions_sent (oid template endpoint : string) :
  PyDict.get (BankApiClient.endpoints self) "transactions" = Some template ->
  str_format template oid = Return endpoint ->
  match send (get_request self (endpoint ++ "?limit=50")) with
  | Return payload =>
      countable_transactions payload = true ->
      BankApiClient.get_transactions send self oid 50 = Return payload
  | Raise e =>
      BankApiClient.get_transactions send self oid 50
      = Return (error_dict (failure_text Transactions ++ exn_str e))
  end.
Proof.
  intros Hget Hfmt. unfold BankApiClient.get_transactions.
  rewrite (getitem_present _ _ _ Hget); cbn [bind].
  rewrite Hfmt; cbn [bind].
  change (negb (50 =? 0)%Z) with true. cbv iota.
  change (str_of_int 50) with "50".
  rewrite _make_request_get.
  destruct (send _) as [payload | e]; [|reflexivity].
  intros Hcount. cbn [bind].
  destruct (count_entries_returns payload Hcount) as [n Hn].
  unfold bind in Hn |- *.
  destruct (json_get payload "transactions" (JArr [])) as [entries | e]; [|discriminate].
  rewrite Hn. reflexivity.
Qed.

(** A payload whose entries cannot be counted is settled as a failure of
    the transactions source. *)
Lemma get_transactions_uncountable (oid template endpoint : string) (payload : json) :
  PyDict.get (BankApiClient.endpoints self) "transactions" = Some template ->
  str_format template oid = Return endpoint ->
  send (get_request self (endpoint ++ "?limit=50")) = Return payload ->
  countable_transactions payload = false ->
  exists e,
    BankApiClient.get_transactions send self oid 50
    = Return (error_dict (failure_text Transactions ++ exn_str e)).
Proof.
  intros Hget Hfmt Hsend Hcount. unfold BankApiClient.get_transactions.
  rewrite (getitem_present _ _ _ Hget); cbn [bind].
  rewrite Hfmt; cbn [bind].
  change (negb (50 =? 0)%Z) with true. cbv iota.
  change (endpoint ++ "?limit=" ++ str_of_int 50) with (endpoint ++ "?limit=50").
  rewrite _make_request_get, Hsend. cbn [bind].
  destruct (count_entries_raises payload Hcount) as [e He].
  exists e. unfold bind in He |- *.
  destruct (json_get payload "transactions" (JArr [])) as [entries | e'].
  - rewrite He. reflexivity.
  - injection He as ->. reflexivity.
Qed.

Ltac settle_step :=
  match goal with
  | |- context [try_except (bind ?c _) _] =>
      let H := fresh "Hstep" in
      destruct c eqn:H; cbn [bind try_except];
      [| eexists; split; [reflexivity | left; eexists; reflexivity] ]
  end.

Ltac settle_payload :=
  eexists; split; [reflexivity | right; eexists; eassumption].

Lemma get_customer_data_isolated (oid : string) :
  exists field,
    BankApiClient.get_customer_data send self oid = Return field
    /\ isolated_field send Customer field.
Proof.
  unfold BankApiClient.get_customer_data.
  settle_step. settle_step. rewrite _make_request_get. settle_step. settle_payload.
Qed.

Lemma get_portfolio_data_isolated (oid : string) :
  exists field,
    BankApiClient.get_portfolio_data send self oid = Return field
    /\ isolated_field send Portfolio field.
Proof.
  unfold BankApiClient.get_portfolio_data.
  settle_step. settle_step. rewrite _make_request_get. settle_step. settle_payload.
Qed.

Lemma get_accounts_isolated (oid : string) :
  exists field,
    BankApiClient.get_accounts send self oid = Return field
    /\ isolated_field send Accounts field.
Proof.
  unfold BankApiClient.get_accounts.
  settle_step. settle_step. rewrite _make_request_get. settle_step. settle_payload.
Qed.

Lemma get_risk_metrics_isolated (oid : string) :
  exists field,
    BankApiClient.get_risk_metrics send self oid = Return field
    /\ isolated_field send RiskMetrics field.
Proof.
  unfold BankApiClient.get_risk_metrics.
  settle_step. settle_step. rewrite _make_request_get. settle_step. settle_payload.
Qed.

Lemma get_transactions_isolated (oid : string) (limit : Z) :
  exists field,
    BankApiClient.get_transactions send self oid limit = Return field
    /\ isolated_field send Transactions field.
Proof.
  unfold BankApiClient.get_transactions.
  settle_step. settle_step. rewrite _make_request_get. settle_step.
  settle_step. settle_step. settle_payload.
Qed.

(** The five tasks all return, so [gather] hands back five values and
    the record is assembled from them. *)
Lemma composite_assembled (oid : string) :
  BankApiClient.get_comprehensive_customer_data send self oid
  = Return (JObj (composite oid
      (BankApiClient.value_or_error (BankApiClient.get_customer_data send self oid))
      (BankApiClient.value_or_error (BankApiClient.get_portfolio_data send self oid))
      (BankApiClient.value_or_error (BankApiClient.get_accounts send self oid))
      (BankApiClient.value_or_error (BankApiClient.get_transactions send self oid 50))
      (BankApiClient.value_or_error (BankApiClient.get_risk_metrics send self oid)))).
Proof. reflexivity. Qed.

Lemma composite_keys (oid : string) (c p a t r : json) :
  PyDict.keys (composite oid c p a t r) = "customer_oid" :: five_source_keys.
Proof. reflexivity. Qed.

Lemma composite_get (oid : string) (c p a t r : json) (s : source) :
  PyDict.get (composite oid c p a t r) (source_key s)
  = Some match s with
         | Customer => c
         | Portfolio => p
         | Accounts => a
         | Transactions => t
         | RiskMetrics => r
         end.
Proof. destruct s; reflexivity. Qed.

(** C1, as the code has it.  For every subject and every behaviour of
    the bank service, [get_comprehensive_customer_data] returns a record
    with exactly six keys, in this order: [customer_oid], which repeats
    the subject, and the five source keys [customer], [portfolio],
    [accounts], [transactions] and [risk_metrics]; whichever fetches
    fail, no key is missing and none is added. *)
Theorem composite_has_subject_and_five_sources (oid : string) :
  exists record,
    BankApiClient.get_comprehensive_customer_data send self oid = Return (JObj record)
    /\ PyDict.keys record = "customer_oid" :: five_source_keys
    /\ PyDict.get record "customer_oid" = Some (JStr oid)
    /\ forall s, exists field, PyDict.get record (source_key s) = Some field.
Proof.
  eexists. split; [apply composite_assembled|].
  split; [apply composite_keys|].
  split; [reflexivity|].
  intros s. rewrite composite_get. eauto.
Qed.

(** X28.  For every subject and every behaviour of the bank service the
    composite fetch returns the record, never the blanket error
    [{"error": "Failed to retrieve comprehensive customer data: ..."}].
    For each source whose endpoint is configured, the record holds under
    the source's key the marker [{"error": ...}] with the failure's
    text when the exchange raised, and the decoded payload when it
    returned and, for the transactions source, is a payload whose entries
    can be counted.  Whatever the configuration, each of the five fields
    is either the marker of its own source or a payload the service
    returned. *)
Theorem source_failures_are_isolated (oid : string) :
  exists record,
    BankApiClient.get_comprehensive_customer_data send self oid = Return (JObj record)
    /\ (forall message,
          BankApiClient.get_comprehensive_customer_data send self oid
          <> Return (error_dict message))
    /\ (forall s template endpoint,
         PyDict.get (BankApiClient.endpoints self) (source_key s) = Some template ->
         str_format template oid = Return endpoint ->
         match send (get_request self (requested_endpoint s endpoint)) with
         | Raise e =>
             PyDict.get record (source_key s)
             = Some (error_dict (failure_text s ++ exn_str e))
         | Return payload =>
             accepted s payload = true ->
             PyDict.get record (source_key s) = Some payload
         end)
    /\ (forall s, exists field,
          PyDict.get record (source_key s) = Some field
          /\ isolated_field send s field).
Proof.
  eexists. split; [apply composite_assembled|].
  split.
  { intros message. rewrite composite_assembled. discriminate. }
  split; cycle 1.
  { intros s. rewrite composite_get. eexists. split; [reflexivity|].
    destruct s.
    - destruct (get_customer_data_isolated oid) as (field & -> & H). exact H.
    - destruct (get_portfolio_data_isolated oid) as (field & -> & H). exact H.
    - destruct (get_accounts_isolated oid) as (field & -> & H). exact H.
    - destruct (get_transactions_isolated oid 50) as (field & -> & H). exact H.
    - destruct (get_risk_metrics_isolated oid) as (field & -> & H). exact H. }
  intros s template endpoint Hget Hfmt. rewrite composite_get.
  destruct s; cbn [source_key requested_endpoint accepted] in *.
  - rewrite (get_customer_data_sent _ _ _ Hget Hfmt). unfold settled.
    destruct (send _); reflexivity.
  - rewrite (get_portfolio_data_sent _ _ _ Hget Hfmt). unfold settled.
    destruct (send _); reflexivity.
  - rewrite (get_accounts_sent _ _ _ Hget Hfmt). unfold settled.
    destruct (send _); reflexivity.
  - pose proof (get_transactions_sent _ _ _ Hget Hfmt) as Hsent.
    destruct (send _) as [payload | e].
    + intros Hcount. rewrite (Hsent Hcount). reflexivity.
    + rewrite Hsent. reflexivity.
  - rewrite (get_risk_metrics_sent _ _ _ Hget Hfmt). unfold settled.
    destruct (send _); reflexivity.
Qed.

(** X29.  The composite fetch asks the transactions source for
    [base_url + endpoint + "?limit=50"], and a payload whose entries can
    be counted is handed on unchanged, however many entries it holds: the
    client does not cut the list down to the limit. *)
Theorem transactions_limit_is_server_side (oid template endpoint : string)
    (payload : json) :
  PyDict.get (BankApiClient.endpoints self) "transactions" = Some template ->
  str_format template oid = Return endpoint ->
  send (HttpRequest "GET" (BankApiClient.base_url self ++ endpoint ++ "?limit=50")
                    (request_headers self) None (BankApiClient.timeout self))
  = Return payload ->
  countable_transactions payload = true ->
  BankApiClient.get_transactions send self oid 50 = Return payload
  /\ exists record,
       BankApiClient.get_comprehensive_customer_data send self oid = Return (JObj record)
       /\ PyDict.get record "transactions" = Some payload.
Proof.
  intros Hget Hfmt Hsend Hcount.
  pose proof (get_transactions_sent _ _ _ Hget Hfmt) as Hsent.
  unfold get_request in Hsent. rewrite Hsend in Hsent.
  specialize (Hsent Hcount). split; [exact Hsent|].
  eexists. split; [apply composite_assembled|].
  rewrite (composite_get _ _ _ _ _ _ Transactions), Hsent. reflexivity.
Qed.

End Aggregator.

(** ** Answers the transactions fetch loses *)

(** C2, where the code departs from it.  The service answers every
    request, the transactions request too, with the body
    [{"transactions": null}].  The four sibling sources hold that body
    under their keys; the transactions source, whose fetch succeeded as
    well, holds the marker of a failure: the log line of
    [get_transactions] takes [len] of the ["transactions"] member inside
    the [try], the [TypeError] is caught, and the payload is replaced by
    [{"error": "Failed to retrieve transactions: ..."}].  So not every
    succeeding source has its decoded payload under its key. *)
Theorem succeeding_transactions_fetch_is_marked_failed :
  sample_send_null (get_request sample_client "/api/transactions/CUST1?limit=50")
  = Return sample_null_body
  /\ BankApiClient.get_comprehensive_customer_data sample_send_null sample_client "CUST1"
     = Return (JObj (composite "CUST1" sample_null_body sample_null_body sample_null_body
                       (error_dict ("Failed to retrieve transactions: "
                                    ++ "object of type 'NoneType' has no len()"))
                       sample_null_body))
  /\ ~ succeeding_sources_hold_payloads sample_send_null sample_client "CUST1".
Proof.
  split; [reflexivity|]. split; [reflexivity|].
  intros (record & Hrecord & Hheld).
  specialize (Hheld Transactions "/api/transactions/{CustomerOID}"
                "/api/transactions/CUST1" sample_null_body eq_refl eq_refl eq_refl).
  rewrite composite_assembled in Hrecord. injection Hrecord as <-.
  rewrite (composite_get _ _ _ _ _ _ Transactions) in Hheld.
  discriminate Hheld.
Qed.


(** ** The availability probe *)

Lemma name_in_iff (m : string) (available : list string) :
  Agent.name_in m available = true <-> In m available.
Proof.
  unfold Agent.name_in. rewrite existsb_exists. split.
  - intros (x & Hin & Heq). apply String.eqb_eq in Heq. subst. exact Hin.
  - intros Hin. exists m. split; [exact Hin | apply String.eqb_refl].
Qed.

Lemma first_startswith_sound (model_base : string) (available : list string) (m : string) :
  Agent.first_startswith model_base available = Some m ->
  In m available /\ startswith m model_base = true.
Proof.
  induction available as [|x rest IH]; simpl; [discriminate|].
  destruct (startswith x model_base) eqn:Hx.
  - intros [= <-]. split; [left; reflexivity | exact Hx].
  - intros H. destruct (IH H) as [Hin Hm]. split; [right; exact Hin | exact Hm].
Qed.

(** The name found is the first one in the listing's order. *)
Lemma first_startswith_first (model_base : string) (available : list string) (m : string) :
  Agent.first_startswith model_base available = Some m ->
  exists before after,
    available = (before ++ m :: after)%list
    /\ Forall (fun x => startswith x model_base = false) before.
Proof.
  induction available as [|x rest IH]; simpl; [discriminate|].
  destruct (startswith x model_base) eqn:Hx.
  - intros [= <-]. exists [], rest. split; [reflexivity | constructor].
  - intros H. destruct (IH H) as (before & after & -> & Hall).
    exists (x :: before), after. split; [reflexivity|].
    constructor; assumption.
Qed.

Lemma first_startswith_complete (model_base : string) (available : list string) :
  (exists m, In m available /\ startswith m model_base = true) ->
  exists m, Agent.first_startswith model_base available = Some m.
Proof.
  induction available as [|x rest IH]; simpl.
  - intros (m & [] & _).
  - intros (m & [-> | Hin] & Hm).
    + rewrite Hm. eauto.
    + destruct (startswith x model_base); eauto.
Qed.

(** The probe, read off the listed names. *)
Lemma is_model_available_listed (self : Agent.t) (listing : outcome list_response) :
  Agent.is_model_available self listing
  = if Agent.name_in (Agent.model self) (listed_models listing) then (true, self)
    else match Agent.first_startswith (base_name (Agent.model self))
                 (listed_models listing) with
         | Some available_model => (true, Agent.set_model self available_model)
         | None => (false, self)
         end.
Proof.
  unfold Agent.is_model_available, listed_models.
  destruct listing as [models_response | e]; [|reflexivity].
  destruct (Agent.models_of models_response); reflexivity.
Qed.

Lemma keys_set {V : Type} (d : PyDict.t V) (k : string) (v : V) (k' : string) :
  In k' (PyDict.keys (PyDict.set d k v)) <-> k' = k \/ In k' (PyDict.keys d).
Proof.
  induction d as [|[k0 v0] r IH]; simpl.
  - intuition congruence.
  - destruct (String.eqb k0 k) eqn:Heq; simpl.
    + apply String.eqb_eq in Heq. subst. intuition congruence.
    + rewrite IH. intuition.
Qed.

Section Registry.

Variable list_models : nat -> outcome list_response.
Variable bank : BankApiClient.t.

(** Whether the probe of a configured agent succeeds on a listing. *)
Let probes (agent_config : AgentConfig.t) (calls : nat) : bool :=
  fst (Agent.is_model_available (Agent.__init__ agent_config bank) (list_models calls)).

(** An agent is registered by the loop exactly when one of the enabled
    configurations with its name passes its own probe: the [i]-th
    enabled configuration is probed on the [i]-th listing, whatever
    became of the ones before it. *)
Lemma initialize_loop_keys (configs : list AgentConfig.t) :
  forall (agents : PyDict.t Agent.t) (calls : nat) (name : string),
    In name (PyDict.keys (fst (AgentManager.initialize_loop list_models bank configs
                                 agents calls)))
    <-> In name (PyDict.keys agents)
        \/ exists i agent_config,
             nth_error (filter AgentConfig.enabled configs) i = Some agent_config
             /\ AgentConfig.name agent_config = name
             /\ probes agent_config (calls + i) = true.
Proof.
  induction configs as [|c rest IH]; intros agents calls name; simpl.
  - split; [auto|]. intros [H | (i & ac & H & _)]; [exact H|].
    destruct i; discriminate.
  - destruct (AgentConfig.enabled c) eqn:Hen; simpl.
    + destruct (Agent.is_model_available (Agent.__init__ c bank) (list_models calls))
        as [available agent] eqn:Hprobe.
      assert (Hp : probes c calls = available) by (unfold probes; rewrite Hprobe; reflexivity).
      destruct available; rewrite IH.
      * rewrite keys_set. split.
        -- intros [[-> | H] | (i & ac & Hnth & Hname & Hok)].
           ++ right. exists 0, c. rewrite Nat.add_0_r. auto.
           ++ left. exact H.
           ++ right. exists (S i), ac. rewrite Nat.add_succ_r. auto.
        -- intros [H | (i & ac & Hnth & Hname & Hok)].
           ++ left. right. exact H.
           ++ destruct i as [|i]; simpl in Hnth.
              ** injection Hnth as <-. left. left. symmetry. exact Hname.
              ** right. exists i, ac. rewrite Nat.add_succ_r in Hok. auto.
      * split.
        -- intros [H | (i & ac & Hnth & Hname & Hok)]; [left; exact H|].
           right. exists (S i), ac. rewrite Nat.add_succ_r. auto.
        -- intros [H | (i & ac & Hnth & Hname & Hok)]; [left; exact H|].
           destruct i as [|i]; simpl in Hnth.
           ++ injection Hnth as <-. rewrite Nat.add_0_r in Hok. congruence.
           ++ right. exists i, ac. rewrite Nat.add_succ_r in Hok. auto.
    + apply IH.
Qed.

End Registry.

Section Probe.

Variable self : Agent.t.
Variable listing : outcome list_response.

Let available := listed_models listing.
Let model_base := base_name (Agent.model self).
Let result := Agent.is_model_available self listing.

Lemma probe_succeeds_iff :
  fst result = true
  <-> In (Agent.model self) available
      \/ exists m, In m available /\ startswith m model_base = true.
Proof.
  unfold result. rewrite is_model_available_listed. fold available model_base.
  destruct (Agent.name_in (Agent.model self) available) eqn:Hexact.
  - apply name_in_iff in Hexact. simpl. tauto.
  - destruct (Agent.first_startswith model_base available) as [found|] eqn:Hfirst; simpl.
    + apply first_startswith_sound in Hfirst. split; eauto.
    + split; [discriminate|]. intros [Hin | Hex].
      * apply name_in_iff in Hin. congruence.
      * destruct (first_startswith_complete _ _ Hex) as [m Hm]. congruence.
Qed.

Lemma probe_exact_keeps :
  In (Agent.model self) available -> snd result = self.
Proof.
  intros Hin. unfold result. rewrite is_model_available_listed. fold available.
  apply name_in_iff in Hin. rewrite Hin. reflexivity.
Qed.

Lemma probe_prefix_rewrites (m : string) :
  ~ In (Agent.model self) available ->
  Agent.first_startswith model_base available = Some m ->
  fst result = true /\ snd result = Agent.set_model self m.
Proof.
  intros Hnot Hfirst. unfold result. rewrite is_model_available_listed.
  fold available model_base.
  destruct (Agent.name_in (Agent.model self) available) eqn:Hexact.
  - apply name_in_iff in Hexact. contradiction.
  - rewrite Hfirst. split; reflexivity.
Qed.

Lemma probe_failure_keeps :
  fst result = false -> snd result = self.
Proof.
  unfold result. rewrite is_model_available_listed. fold available model_base.
  destruct (Agent.name_in (Agent.model self) available); [reflexivity|].
  destruct (Agent.first_startswith model_base available); [discriminate | reflexivity].
Qed.

Lemma probe_llama_example :
  Agent.model self = "llama3.2:latest" -> available = ["llama3.2:3b"] ->
  fst result = true /\ Agent.model (snd result) = "llama3.2:3b".
Proof.
  intros Hmodel Hlist.
  destruct (probe_prefix_rewrites "llama3.2:3b") as [Hok Hsnd].
  - rewrite Hmodel, Hlist. simpl. intuition discriminate.
  - unfold model_base. rewrite Hmodel, Hlist. reflexivity.
  - rewrite Hsnd. split; [exact Hok | reflexivity].
Qed.

End Probe.

(** C3.  The probe returns [True] exactly when the configured identity
    is among the listed names or some listed name starts with its base
    name (the text before the first [:]).  On an exact match the agent is
    left as it was; otherwise its [model] becomes the first listed name
    with that prefix, so configured ["llama3.2:latest"] against the
    listing [["llama3.2:3b"]] gives ["llama3.2:3b"]; a failed probe
    changes nothing.  In [_initialize_agents] an agent name is registered
    exactly when an enabled configuration of that name passed its own
    probe, so an agent that fails is left out and the others are still
    initialised. *)
Theorem probe_matching_policy (self : Agent.t) (listing : outcome list_response) :
  let available := listed_models listing in
  let model_base := base_name (Agent.model self) in
  let result := Agent.is_model_available self listing in
  (fst result = true
   <-> In (Agent.model self) available
       \/ exists m, In m available /\ startswith m model_base = true)
  /\ (In (Agent.model self) available -> snd result = self)
  /\ (~ In (Agent.model self) available ->
      (exists m, In m available /\ startswith m model_base = true) ->
      exists m,
        Agent.first_startswith model_base available = Some m
        /\ In m available /\ startswith m model_base = true
        /\ snd result = Agent.set_model self m)
  /\ (fst result = false -> snd result = self)
  /\ (Agent.model self = "llama3.2:latest" -> available = ["llama3.2:3b"] ->
      fst result = true /\ Agent.model (snd result) = "llama3.2:3b")
  /\ (forall list_models bank configs agents calls name,
        In name (PyDict.keys (fst (AgentManager.initialize_loop list_models bank configs
                                     agents calls)))
        <-> In name (PyDict.keys agents)
            \/ exists i agent_config,
                 nth_error (filter AgentConfig.enabled configs) i = Some agent_config
                 /\ AgentConfig.name agent_config = name
                 /\ fst (Agent.is_model_available (Agent.__init__ agent_config bank)
                           (list_models (calls + i))) = true).
Proof.
  intros available model_base result.
  split; [apply probe_succeeds_iff|].
  split; [apply probe_exact_keeps|].
  split.
  { intros Hnot Hsome.
    destruct (first_startswith_complete _ _ Hsome) as [m Hfirst].
    destruct (first_startswith_sound _ _ _ Hfirst) as [Hin Hpre].
    exists m. repeat split; try assumption.
    apply probe_prefix_rewrites; assumption. }
  split; [apply probe_failure_keeps|].
  split; [apply probe_llama_example|].
  intros list_models bank configs agents calls name. apply initialize_loop_keys.
Qed.

(** ** Generation *)

Lemma prefix_refl (s : string) : String.prefix s s = true.
Proof.
  induction s as [|c r IH]; simpl; [reflexivity|].
  destruct (ascii_dec c c); [exact IH | congruence].
Qed.

Lemma str_contains_unfold (needle hay : string) :
  str_contains needle hay
  = if String.prefix needle hay then true
    else match hay with
         | EmptyString => false
         | String _ r => str_contains needle r
         end.
Proof. destruct hay; reflexivity. Qed.

Lemma str_contains_refl (s : string) : str_contains s s = true.
Proof. rewrite str_contains_unfold, prefix_refl. reflexivity. Qed.

(** A text is found at the end of what was put before it. *)
Lemma str_contains_append (before s : string) : str_contains s (before ++ s) = true.
Proof.
  induction before as [|c r IH].
  - apply str_contains_refl.
  - rewrite str_contains_unfold. change (String c r ++ s) with (String c (r ++ s)).
    destruct (String.prefix s (String c (r ++ s))); [reflexivity | exact IH].
Qed.

Section Generation.

Variable send : http_request -> outcome json.
Variable generate : generate_request -> outcome (PyDict.t string).
Variable py_format : json -> string.

Lemma customer_context_returns (oid : string) (record : PyDict.t json) :
  exists text, Agent.customer_context py_format oid (JObj record) = Return text.
Proof. unfold Agent.customer_context. simpl. eauto. Qed.

(** Building the prompt never raises: the composite fetch returns a
    record, and a record has the [get] method. *)
Lemma build_prompt_returns (self : Agent.t) (prompt : string)
    (context customer_oid : option string) :
  exists full_prompt,
    Agent.build_prompt send py_format self prompt context customer_oid
    = Return full_prompt.
Proof.
  unfold Agent.build_prompt.
  destruct (opt_truthy customer_oid).
  - rewrite composite_assembled. cbn [bind].
    destruct (customer_context_returns (fmt_opt customer_oid)
                (composite (fmt_opt customer_oid)
                   (BankApiClient.value_or_error
                      (BankApiClient.get_customer_data send (Agent.bank_api_client self)
                         (fmt_opt customer_oid)))
                   (BankApiClient.value_or_error
                      (BankApiClient.get_portfolio_data send (Agent.bank_api_client self)
                         (fmt_opt customer_oid)))
                   (BankApiClient.value_or_error
                      (BankApiClient.get_accounts send (Agent.bank_api_client self)
                         (fmt_opt customer_oid)))
                   (BankApiClient.value_or_error
                      (BankApiClient.get_transactions send (Agent.bank_api_client self)
                         (fmt_opt customer_oid) 50))
                   (BankApiClient.value_or_error
                      (BankApiClient.get_risk_metrics send (Agent.bank_api_client self)
                         (fmt_opt customer_oid))))) as [text Htext].
    rewrite Htext. cbn [bind]. eauto.
  - destruct (opt_truthy context); cbn [bind]; eauto.
Qed.

(** [generate_response] always returns a text. *)
Lemma generate_response_returns (self : Agent.t) (prompt : string)
    (context customer_oid : option string) (kwargs : gen_kwargs) :
  exists text,
    Agent.generate_response send generate py_format self prompt context customer_oid kwargs
    = Return text.
Proof. unfold Agent.generate_response. apply try_except_returns. Qed.

(** C7, as the code has it.  When the runtime's completion call raises,
    [generate_response] does not raise: it returns the text
    ["Error: Unable to generate response - "] followed by the error's
    text.  The returned text holds the error's text; the agent's name is
    not put into it (it goes to the log line only). *)
Theorem generation_failure_is_returned (self : Agent.t) (prompt : string)
    (context customer_oid : option string) (kwargs : gen_kwargs) (e : exn) :
  (forall full_prompt, generate (Agent.request_for self full_prompt kwargs) = Raise e) ->
  Agent.generate_response send generate py_format self prompt context customer_oid kwargs
  = Return ("Error: Unable to generate response - " ++ exn_str e)
  /\ str_contains (exn_str e) ("Error: Unable to generate response - " ++ exn_str e) = true.
Proof.
  intros Hfail. split; [|apply str_contains_append].
  unfold Agent.generate_response.
  destruct (build_prompt_returns self prompt context customer_oid) as [full_prompt Hp].
  rewrite Hp. cbn [bind]. rewrite Hfail. reflexivity.
Qed.

End Generation.

(** C7 as the spec words it fails: the agent [risk_analyst], refused
    by the runtime, answers a text that does not hold its name. *)
Lemma names_agent_and_error_fails :
  ~ names_agent_and_error (sample_agent "risk_analyst")
      (Exn "ConnectionError" "connection refused")
      (Agent.generate_response sample_send sample_refusing sample_format
         (sample_agent "risk_analyst") "What is my exposure?" None None no_kwargs).
Proof.
  intros (text & Hret & Hname & _).
  vm_compute in Hret. injection Hret as <-.
  vm_compute in Hname. discriminate.
Qed.

Lemma generation_failure_is_returned_sample :
  Agent.generate_response sample_send sample_refusing sample_format
    (sample_agent "risk_analyst") "What is my exposure?" None (Some "CUST1") no_kwargs
  = Return "Error: Unable to generate response - connection refused"
  /\ str_contains "connection refused"
       "Error: Unable to generate response - connection refused" = true.
Proof.
  apply (generation_failure_is_returned sample_send sample_refusing sample_format
           (sample_agent "risk_analyst") "What is my exposure?" None (Some "CUST1")
           no_kwargs (Exn "ConnectionError" "connection refused")).
  intros full_prompt. reflexivity.
Defined.

(** ** Routing *)

Lemma get_In {V : Type} (d : PyDict.t V) (k : string) (v : V) :
  PyDict.get d k = Some v -> In (k, v) d.
Proof.
  induction d as [|[k0 v0] r IH]; simpl; [discriminate|].
  destruct (String.eqb k0 k) eqn:Heq.
  - apply String.eqb_eq in Heq. intros [= <-]. left. congruence.
  - intros H. right. exact (IH H).
Qed.

(** Every agent name in the tool table is a non-empty text. *)
Lemma tool_agent_mapping_names (tool_name agent_name : string) :
  PyDict.get AgentManager.tool_agent_mapping tool_name = Some agent_name ->
  str_truthy agent_name = true.
Proof.
  intros Hget. apply get_In in Hget.
  assert (Hall : forallb (fun kv => str_truthy (snd kv)) AgentManager.tool_agent_mapping
                 = true) by reflexivity.
  rewrite forallb_forall in Hall. exact (Hall _ Hget).
Qed.

(** Tool routing is the table lookup followed by the registry lookup. *)
Lemma get_agent_for_tool_lookup (self : AgentManager.t) (tool_name : option string) :
  AgentManager.get_agent_for_tool self tool_name
  = match tool_name with
    | Some tool =>
        match PyDict.get AgentManager.tool_agent_mapping tool with
        | Some agent_name => PyDict.get (AgentManager.agents self) agent_name
        | None => None
        end
    | None => None
    end.
Proof.
  unfold AgentManager.get_agent_for_tool, AgentManager.get_agent.
  destruct tool_name as [tool|]; [|reflexivity].
  destruct (PyDict.get AgentManager.tool_agent_mapping tool) as [agent_name|] eqn:Hget;
    [|reflexivity].
  simpl. rewrite (tool_agent_mapping_names _ _ Hget). reflexivity.
Qed.

Section Routing.

Variable send : http_request -> outcome json.
Variable generate : generate_request -> outcome (PyDict.t string).
Variable py_format : json -> string.

Lemma query_agent_registered (self : AgentManager.t) (agent_name prompt : string)
    (context : option string) (kwargs : query_kwargs) (agent : Agent.t) :
  PyDict.get (AgentManager.agents self) agent_name = Some agent ->
  AgentManager.query_agent send generate py_format self agent_name prompt context kwargs
  = Agent.generate_response send generate py_format agent prompt context
      (kw_customer_oid kwargs) (kw_generation kwargs).
Proof.
  intros Hget. unfold AgentManager.query_agent, AgentManager.get_agent.
  rewrite Hget. reflexivity.
Qed.

Lemma query_best_agent_preferred (self : AgentManager.t) (prompt task_type : string)
    (context : option string) (kwargs : query_kwargs) (agent : Agent.t) :
  PyDict.get (AgentManager.agents self)
    (PyDict.get_default AgentManager.task_agent_mapping task_type "explainability_agent")
  = Some agent ->
  exists response,
    Agent.generate_response send generate py_format agent prompt context
      (kw_customer_oid kwargs) (kw_generation kwargs) = Return response
    /\ AgentManager.query_best_agent send generate py_format self prompt task_type
         context kwargs
       = Return (PyDict.get_default AgentManager.task_agent_mapping task_type
                   "explainability_agent", response).
Proof.
  intros Hget. unfold AgentManager.query_best_agent, PyDict.contains.
  rewrite Hget. rewrite (query_agent_registered _ _ _ _ _ _ Hget).
  destruct (generate_response_returns send generate py_format agent prompt context
              (kw_customer_oid kwargs) (kw_generation kwargs)) as [response Hr].
  exists response. rewrite Hr. split; reflexivity.
Qed.

Lemma query_best_agent_fallback (self : AgentManager.t) (prompt task_type : string)
    (context : option string) (kwargs : query_kwargs)
    (first : string) (agent : Agent.t) (rest : PyDict.t Agent.t) :
  PyDict.get (AgentManager.agents self)
    (PyDict.get_default AgentManager.task_agent_mapping task_type "explainability_agent")
  = None ->
  AgentManager.agents self = (first, agent) :: rest ->
  exists response,
    Agent.generate_response send generate py_format agent prompt context
      (kw_customer_oid kwargs) (kw_generation kwargs) = Return response
    /\ AgentManager.query_best_agent send generate py_format self prompt task_type
         context kwargs
       = Return (first, response).
Proof.
  intros Hnone Hreg.
  assert (Hget : PyDict.get (AgentManager.agents self) first = Some agent).
  { rewrite Hreg. simpl. rewrite String.eqb_refl. reflexivity. }
  unfold AgentManager.query_best_agent, PyDict.contains.
  rewrite Hnone, Hreg. cbn [PyDict.truthy PyDict.keys map fst bind].
  rewrite (query_agent_registered _ _ _ _ _ _ Hget).
  destruct (generate_response_returns send generate py_format agent prompt context
              (kw_customer_oid kwargs) (kw_generation kwargs)) as [response Hr].
  exists response. rewrite Hr. split; reflexivity.
Qed.

Lemma query_best_agent_none (self : AgentManager.t) (prompt task_type : string)
    (context : option string) (kwargs : query_kwargs) :
  AgentManager.agents self = [] ->
  AgentManager.query_best_agent send generate py_format self prompt task_type
    context kwargs
  = Return ("none", "Error: No agents available").
Proof.
  intros Hreg. unfold AgentManager.query_best_agent, PyDict.contains.
  rewrite Hreg. reflexivity.
Qed.

(** C4.  For every task type, with [preferred] the table's agent for it
    (or the table's default): when [preferred] is registered,
    [query_best_agent] returns its name with its response; when it is
    not and the registry is not empty, it returns the name and response
    of the first registered agent in insertion order; when the registry
    is empty it returns ["none"] with the text
    ["Error: No agents available"].  In each case the call returns. *)
Theorem task_routing_with_fallback (self : AgentManager.t) (prompt task_type : string)
    (context : option string) (kwargs : query_kwargs) :
  let preferred :=
    PyDict.get_default AgentManager.task_agent_mapping task_type "explainability_agent" in
  let registry := AgentManager.agents self in
  let routed :=
    AgentManager.query_best_agent send generate py_format self prompt task_type
      context kwargs in
  let response_of agent :=
    Agent.generate_response send generate py_format agent prompt context
      (kw_customer_oid kwargs) (kw_generation kwargs) in
  (forall agent,
     PyDict.get registry preferred = Some agent ->
     exists response,
       response_of agent = Return response /\ routed = Return (preferred, response))
  /\ (PyDict.get registry preferred = None ->
      forall first agent rest,
        registry = (first, agent) :: rest ->
        exists response,
          response_of agent = Return response /\ routed = Return (first, response))
  /\ (registry = [] -> routed = Return ("none", "Error: No agents available")).
Proof.
  cbv zeta. split; [|split].
  - intros agent Hget.
    exact (query_best_agent_preferred self prompt task_type context kwargs agent Hget).
  - intros Hnone first agent rest Hreg.
    exact (query_best_agent_fallback self prompt task_type context kwargs
             first agent rest Hnone Hreg).
  - exact (query_best_agent_none self prompt task_type context kwargs).
Qed.

(** C5.  For every tool name, [get_agent_for_tool] is the lookup of the
    name in the tool table followed by the lookup of the mapped agent in
    the registry: it gives that agent and no other, and gives none when
    the name is missing, is not in the table, or maps to an agent that is
    not registered, whatever else the registry holds.  [call_tool] then
    answers [{"error": "No agent available for tool: <name>"}]. *)
Theorem tool_routing_has_no_fallback (self : AgentManager.t) (tool_name : option string) :
  AgentManager.get_agent_for_tool self tool_name
  = match tool_name with
    | Some tool =>
        match PyDict.get AgentManager.tool_agent_mapping tool with
        | Some agent_name => PyDict.get (AgentManager.agents self) agent_name
        | None => None
        end
    | None => None
    end
  /\ (forall tool,
        tool_name = Some tool ->
        PyDict.get AgentManager.tool_agent_mapping tool = None ->
        AgentManager.get_agent_for_tool self tool_name = None)
  /\ (forall tool agent_name,
        tool_name = Some tool ->
        PyDict.get AgentManager.tool_agent_mapping tool = Some agent_name ->
        PyDict.get (AgentManager.agents self) agent_name = None ->
        AgentManager.get_agent_for_tool self tool_name = None)
  /\ (AgentManager.get_agent_for_tool self tool_name = None ->
      forall tools arguments customer_oid CustomerOID,
        MCPOpenbankingServer.call_tool send generate py_format
          (MCPOpenbankingServer.Build self tools)
          (CallRequest tool_name arguments customer_oid CustomerOID)
        = JObj [("error", JStr ("No agent available for tool: " ++ fmt_opt tool_name))]).
Proof.
  split; [apply get_agent_for_tool_lookup|].
  split; [|split].
  - intros tool -> Hnone. rewrite get_agent_for_tool_lookup, Hnone. reflexivity.
  - intros tool agent_name -> Hmap Hreg.
    rewrite get_agent_for_tool_lookup, Hmap. exact Hreg.
  - intros Hnone tools arguments customer_oid CustomerOID.
    unfold MCPOpenbankingServer.call_tool.
    cbn [MCPOpenbankingServer.agent_manager call_tool_name].
    rewrite Hnone. reflexivity.
Qed.

(** C6, as the code has it.  A task type that is not in the task table
    has [explainability_agent] as its preferred agent, and
    [query_best_agent] returns that agent's name whenever it is
    registered.  A tool name that is not in the tool table has no agent:
    [get_agent_for_tool] gives none, also when [explainability_agent] is
    registered. *)
Theorem default_agent_for_task_types_only (self : AgentManager.t) :
  (forall task_type prompt context kwargs agent,
     PyDict.get AgentManager.task_agent_mapping task_type = None ->
     PyDict.get (AgentManager.agents self) "explainability_agent" = Some agent ->
     exists response,
       AgentManager.query_best_agent send generate py_format self prompt task_type
         context kwargs
       = Return ("explainability_agent", response))
  /\ (forall tool_name,
        PyDict.get AgentManager.tool_agent_mapping tool_name = None ->
        AgentManager.get_agent_for_tool self (Some tool_name) = None).
Proof.
  split.
  - intros task_type prompt context kwargs agent Hnone Hget.
    destruct (query_best_agent_preferred self prompt task_type context kwargs agent)
      as (response & _ & Hr).
    + unfold PyDict.get_default. rewrite Hnone. exact Hget.
    + exists response. unfold PyDict.get_default in Hr. rewrite Hnone in Hr. exact Hr.
  - intros tool_name Hnone. rewrite get_agent_for_tool_lookup, Hnone. reflexivity.
Qed.

End Routing.

(** C6 as the spec words it fails for tool names: with
    [explainability_agent] registered, an unmapped tool name still gets
    no agent. *)
Lemma unmapped_tool_routes_to_default_fails : ~ unmapped_tool_routes_to_default.
Proof.
  intros Hclaim.
  specialize (Hclaim (sample_manager ["explainability_agent"]) "unknown_tool" eq_refl).
  vm_compute in Hclaim. discriminate.
Qed.

(** ** The status report *)

Lemma set_fresh {V : Type} (d : PyDict.t V) (k : string) (v : V) :
  ~ In k (PyDict.keys d) -> PyDict.set d k v = (d ++ [(k, v)])%list.
Proof.
  induction d as [|[k0 v0] r IH]; simpl; [reflexivity|].
  intros Hnot. destruct (String.eqb k0 k) eqn:Heq.
  - apply String.eqb_eq in Heq. tauto.
  - rewrite IH by tauto. reflexivity.
Qed.

Lemma set_keys_NoDup {V : Type} (d : PyDict.t V) (k : string) (v : V) :
  NoDup (PyDict.keys d) -> NoDup (PyDict.keys (PyDict.set d k v)).
Proof.
  induction d as [|[k0 v0] r IH]; simpl; intros Hnd.
  - constructor; [intros [] | constructor].
  - inversion Hnd as [|? ? Hnot Hrest]; subst.
    destruct (String.eqb k0 k) eqn:Heq; simpl.
    + constructor; assumption.
    + constructor; [|apply IH; exact Hrest].
      intros Hin. apply keys_set in Hin. destruct Hin as [-> | Hin].
      * rewrite String.eqb_refl in Heq. discriminate.
      * contradiction.
Qed.

Lemma set_Forall {V : Type} (P : V -> Prop) (d : PyDict.t V) (k : string) (v : V) :
  Forall (fun entry => P (snd entry)) d -> P v ->
  Forall (fun entry => P (snd entry)) (PyDict.set d k v).
Proof.
  induction d as [|[k0 v0] r IH]; simpl; intros Hall Hv.
  - constructor; [exact Hv | constructor].
  - inversion Hall as [|? ? H0 Hrest]; subst.
    destruct (String.eqb k0 k); constructor; auto.
Qed.

Lemma Forall_get {V : Type} (P : V -> Prop) (d : PyDict.t V) (k : string) (v : V) :
  Forall (fun entry => P (snd entry)) d -> PyDict.get d k = Some v -> P v.
Proof.
  intros Hall Hget. apply get_In in Hget.
  rewrite Forall_forall in Hall. exact (Hall _ Hget).
Qed.

(** On a registry with distinct names the status loop reports the
    agents one by one, in the registry's order. *)
Lemma agents_status_map (items : list (string * Agent.t)) :
  forall status,
    NoDup (PyDict.keys status ++ PyDict.keys items) ->
    MCPOpenbankingServer.agents_status items status
    = (status ++ map (fun entry => (fst entry, status_entry (snd entry))) items)%list.
Proof.
  induction items as [|[name agent] rest IH]; intros status Hnd; simpl.
  - rewrite app_nil_r. reflexivity.
  - simpl in Hnd. rewrite IH.
    + rewrite set_fresh.
      * rewrite <- app_assoc. reflexivity.
      * apply NoDup_remove_2 in Hnd. intros Hin. apply Hnd.
        apply in_or_app. left. exact Hin.
    + rewrite set_fresh.
      * unfold PyDict.keys. rewrite map_app. simpl. rewrite <- app_assoc. simpl.
        apply NoDup_remove_1 in Hnd as Hnd1. apply NoDup_remove_2 in Hnd as Hnd2.
        fold (PyDict.keys status). fold (PyDict.keys rest).
        apply NoDup_Add with (a := name) (l := (PyDict.keys status ++ PyDict.keys rest)%list).
        -- apply Add_app.
        -- split; assumption.
      * apply NoDup_remove_2 in Hnd. intros Hin. apply Hnd.
        apply in_or_app. left. exact Hin.
Qed.

Lemma get_map_entry (registry : PyDict.t Agent.t) (name : string) :
  PyDict.get (map (fun entry => (fst entry, status_entry (snd entry))) registry) name
  = option_map status_entry (PyDict.get registry name).
Proof.
  induction registry as [|[k a] r IH]; simpl; [reflexivity|].
  destruct (String.eqb k name); [reflexivity | exact IH].
Qed.

(** The report of [GET /mcp/status] on a registry with distinct names. *)
Lemma get_status_report (self : MCPOpenbankingServer.t) :
  NoDup (PyDict.keys (AgentManager.agents (MCPOpenbankingServer.agent_manager self))) ->
  MCPOpenbankingServer.get_status self
  = JObj [ ("status", JStr "running");
           ("agents", JObj (map (fun entry => (fst entry, status_entry (snd entry)))
                              (AgentManager.agents (MCPOpenbankingServer.agent_manager self))));
           ("tools", JArr (map JStr (PyDict.keys (MCPOpenbankingServer.registered_tools self)))) ].
Proof.
  intros Hnd. unfold MCPOpenbankingServer.get_status, PyDict.items.
  rewrite agents_status_map by exact Hnd. reflexivity.
Qed.

(** ** The registry over the life of the server *)

Section Lifecycle.

Variable list_models : nat -> outcome list_response.

(** The loop inserts an agent only after its probe succeeded and its
    flag was set. *)
Lemma initialize_loop_ok (bank : BankApiClient.t) (configs : list AgentConfig.t) :
  forall agents calls,
    registry_ok agents ->
    registry_ok (fst (AgentManager.initialize_loop list_models bank configs agents calls)).
Proof.
  induction configs as [|c rest IH]; intros agents calls Hok; simpl; [exact Hok|].
  destruct (AgentConfig.enabled c); simpl; [|apply IH; exact Hok].
  destruct (Agent.is_model_available (Agent.__init__ c bank) (list_models calls))
    as [available agent].
  destruct available; apply IH; [|exact Hok].
  destruct Hok as [Hnd Hall]. split.
  - apply set_keys_NoDup. exact Hnd.
  - apply (set_Forall (fun a => Agent.is_available a = true)); [exact Hall | reflexivity].
Qed.

Lemma manager_initialize_ok (self : AgentManager.t) (calls : nat) :
  registry_ok (AgentManager.agents self) ->
  registry_ok
    (AgentManager.agents (snd (fst (AgentManager.initialize list_models self calls)))).
Proof.
  intros Hok. unfold AgentManager.initialize, AgentManager._test_ollama_connection.
  destruct (try_except (_ <- list_models calls ;; Return tt) (fun e => Raise e));
    [|exact Hok].
  unfold AgentManager._initialize_agents.
  cbn [AgentManager.set_ollama_client AgentManager.agents AgentManager.config
       AgentManager.bank_api_client].
  pose proof (initialize_loop_ok (AgentManager.bank_api_client self)
                (Config.agents (AgentManager.config self))
                (AgentManager.agents self) (S calls) Hok) as Hloop.
  destruct (AgentManager.initialize_loop list_models (AgentManager.bank_api_client self)
              (Config.agents (AgentManager.config self)) (AgentManager.agents self)
              (S calls)) as [agents calls'].
  exact Hloop.
Qed.

Lemma step_ok (state : MCPOpenbankingServer.t * nat) (ev : MCPOpenbankingServer.event) :
  registry_ok (AgentManager.agents (MCPOpenbankingServer.agent_manager (fst state))) ->
  registry_ok
    (AgentManager.agents
       (MCPOpenbankingServer.agent_manager
          (fst (MCPOpenbankingServer.step list_models state ev)))).
Proof.
  destruct state as [self calls]. intros Hok. destruct ev as [|r|]; simpl.
  - unfold MCPOpenbankingServer.initialize.
    pose proof (manager_initialize_ok (MCPOpenbankingServer.agent_manager self) calls Hok)
      as Hinit.
    destruct (AgentManager.initialize list_models
                (MCPOpenbankingServer.agent_manager self) calls)
      as [[[u | e] manager] calls']; exact Hinit.
  - exact Hok.
  - split; constructor.
Qed.

Lemma run_ok (events : list MCPOpenbankingServer.event) :
  forall state,
    registry_ok (AgentManager.agents (MCPOpenbankingServer.agent_manager (fst state))) ->
    registry_ok
      (AgentManager.agents
         (MCPOpenbankingServer.agent_manager
            (fst (MCPOpenbankingServer.run list_models state events)))).
Proof.
  induction events as [|ev rest IH]; intros state Hok; simpl; [exact Hok|].
  apply IH. apply step_ok. exact Hok.
Qed.

(** C10.  In every state the server reaches from its construction
    through initialisations, served requests and shutdowns, each agent in
    the registry has [is_available] set: the only insertion follows a
    successful probe and the setting of the flag, a served request leaves
    the server as it was, and a shutdown empties the registry.  So
    [GET /mcp/status] lists every registered agent with
    ["available": true]. *)
Theorem registered_agents_are_available (config : Config.t) (calls : nat)
    (events : list MCPOpenbankingServer.event) :
  let state :=
    MCPOpenbankingServer.run list_models (MCPOpenbankingServer.__init__ config, calls)
      events in
  let manager := MCPOpenbankingServer.agent_manager (fst state) in
  all_available (AgentManager.agents manager)
  /\ (forall name agent,
        AgentManager.get_agent manager name = Some agent ->
        Agent.is_available agent = true)
  /\ (forall r, MCPOpenbankingServer.step list_models state (MCPOpenbankingServer.Serve r)
                = state)
  /\ (exists reported tools,
        MCPOpenbankingServer.get_status (fst state)
        = JObj [ ("status", JStr "running"); ("agents", JObj reported); ("tools", tools) ]
        /\ PyDict.keys reported = AgentManager.list_agents manager
        /\ forall name entry,
             PyDict.get reported name = Some entry ->
             exists model_name,
               entry = JObj [ ("available", JBool true); ("model", JStr model_name) ]).
Proof.
  intros state manager.
  assert (Hok : registry_ok (AgentManager.agents manager)).
  { apply run_ok. split; constructor. }
  destruct Hok as [Hnd Hall].
  split; [exact Hall|].
  split.
  { intros name agent Hget.
    exact (Forall_get (fun a => Agent.is_available a = true) _ _ _ Hall Hget). }
  split.
  { intros r. destruct state; reflexivity. }
  eexists. eexists. split; [apply get_status_report; exact Hnd|].
  split.
  { unfold AgentManager.list_agents, PyDict.keys. rewrite map_map. reflexivity. }
  intros name entry Hget. rewrite get_map_entry in Hget.
  fold manager in Hget.
  destruct (PyDict.get (AgentManager.agents manager) name) as [agent|] eqn:Hreg;
    [|discriminate].
  injection Hget as <-. exists (Agent.model_name agent). unfold status_entry.
  rewrite (Forall_get (fun a => Agent.is_available a = true) _ _ _ Hall Hreg).
  reflexivity.
Qed.

End Lifecycle.

(** ** Substitution and the reported model *)

Section Substitution.

Variable agent_config : AgentConfig.t.
Variable bank : BankApiClient.t.
Variable listing : outcome list_response.

Let configured := AgentConfig.model agent_config.
Let probed := Agent.is_model_available (Agent.__init__ agent_config bank) listing.
Let agent := Agent.set_is_available (snd probed) true.

(** C9.  When the probe finds no exact match and rewrites the model to
    the listed name [m], the agent that is registered differs from the
    configured one in [model] (now [m]) and [is_available] only: its
    [model_name] is still the configured identity.  [GET /mcp/status]
    reports [model_name], so it shows the configured identity, while the
    request [generate_response] sends names [m]. *)
Theorem substitution_keeps_model_name (m : string) :
  ~ In configured (listed_models listing) ->
  Agent.first_startswith (base_name configured) (listed_models listing) = Some m ->
  fst probed = true
  /\ agent = Agent.Build agent_config bank (AgentConfig.name agent_config) m
              configured (AgentConfig.role agent_config) true
  /\ Agent.model agent = m
  /\ Agent.model_name agent = configured
  /\ status_entry agent = JObj [ ("available", JBool true); ("model", JStr configured) ]
  /\ (forall self name,
        NoDup (PyDict.keys (AgentManager.agents (MCPOpenbankingServer.agent_manager self))) ->
        AgentManager.get_agent (MCPOpenbankingServer.agent_manager self) name = Some agent ->
        exists reported tools,
          MCPOpenbankingServer.get_status self
          = JObj [ ("status", JStr "running"); ("agents", JObj reported); ("tools", tools) ]
          /\ PyDict.get reported name
             = Some (JObj [ ("available", JBool true); ("model", JStr configured) ]))
  /\ (forall full_prompt kwargs,
        gen_model (Agent.request_for agent full_prompt kwargs) = m)
  /\ (forall send py_format prompt context customer_oid kwargs,
        Agent.generate_response send (fun r => Return [("response", gen_model r)])
          py_format agent prompt context customer_oid kwargs
        = Return m).
Proof.
  intros Hnot Hfirst.
  destruct (probe_prefix_rewrites (Agent.__init__ agent_config bank) listing m Hnot Hfirst)
    as [Hok Hsnd].
  fold probed in Hok, Hsnd.
  assert (Hagent : agent = Agent.Build agent_config bank (AgentConfig.name agent_config) m
                             configured (AgentConfig.role agent_config) true).
  { unfold agent. rewrite Hsnd. reflexivity. }
  split; [exact Hok|]. split; [exact Hagent|].
  rewrite Hagent.
  split; [reflexivity|]. split; [reflexivity|]. split; [reflexivity|].
  split; [|split].
  - intros self name Hnd Hget. eexists. eexists.
    split; [apply get_status_report; exact Hnd|].
    rewrite get_map_entry. unfold AgentManager.get_agent in Hget. rewrite Hget.
    reflexivity.
  - reflexivity.
  - intros send py_format prompt context customer_oid kwargs.
    unfold Agent.generate_response.
    destruct (build_prompt_returns send py_format
                (Agent.Build agent_config bank (AgentConfig.name agent_config) m
                   configured (AgentConfig.role agent_config) true)
                prompt context customer_oid) as [full_prompt Hp].
    rewrite Hp. reflexivity.
Qed.

End Substitution.

(** C1 as the spec words it fails: with the portfolio endpoint timing
    out, the record that comes back has the key [customer_oid] next to
    the five source keys. *)
Lemma exactly_five_keys_fails :
  ~ exactly_five_keys
      (BankApiClient.get_comprehensive_customer_data sample_send sample_client "CUST1").
Proof.
  intros (record & Hret & Hkeys).
  rewrite composite_assembled in Hret. injection Hret as <-.
  assert (Hin : In "customer_oid" five_source_keys).
  { apply Hkeys. rewrite composite_keys. left. reflexivity. }
  vm_compute in Hin. intuition discriminate.
Qed.

Lemma composite_has_subject_and_five_sources_sample :
  exists record,
    BankApiClient.get_comprehensive_customer_data sample_send sample_client "CUST1"
    = Return (JObj record)
    /\ PyDict.keys record
       = ["customer_oid"; "customer"; "portfolio"; "accounts"; "transactions"; "risk_metrics"].
Proof.
  destruct (composite_has_subject_and_five_sources sample_send sample_client "CUST1")
    as (record & Hret & Hkeys & _).
  exists record. split; [exact Hret | exact Hkeys].
Defined.

(** One timeout among the five fetches: the portfolio field carries the
    marker, the four other fields carry what the service sent. *)
Lemma source_failures_are_isolated_sample :
  exists record,
    BankApiClient.get_comprehensive_customer_data sample_send sample_client "CUST1"
    = Return (JObj record)
    /\ PyDict.get record "portfolio"
       = Some (JObj [("error", JStr "Failed to retrieve portfolio data: timed out")])
    /\ PyDict.get record "customer" = Some (JObj [("customer_oid", JStr "CUST1")])
    /\ PyDict.get record "accounts" = Some (JObj [("customer_oid", JStr "CUST1")])
    /\ PyDict.get record "transactions" = Some sample_transactions
    /\ PyDict.get record "risk_metrics" = Some (JObj [("customer_oid", JStr "CUST1")]).
Proof.
  destruct (source_failures_are_isolated sample_send sample_client "CUST1")
    as (record & Hret & _ & Hsource & _).
  exists record. split; [exact Hret|].
  split; [exact (Hsource Portfolio _ _ eq_refl eq_refl)|].
  split; [exact (Hsource Customer _ _ eq_refl eq_refl eq_refl)|].
  split; [exact (Hsource Accounts _ _ eq_refl eq_refl eq_refl)|].
  split; [exact (Hsource Transactions _ _ eq_refl eq_refl eq_refl)|].
  exact (Hsource RiskMetrics _ _ eq_refl eq_refl eq_refl).
Defined.

(** The service answers fifty-one entries to the request that asks for
    fifty, and all of them come back. *)
Lemma transactions_limit_is_server_side_sample :
  (entries <- json_get sample_transactions "transactions" (JArr []) ;; py_len entries)
  = Return 51%Z
  /\ BankApiClient.get_transactions sample_send sample_client "CUST1" 50
     = Return sample_transactions
  /\ exists record,
       BankApiClient.get_comprehensive_customer_data sample_send sample_client "CUST1"
       = Return (JObj record)
       /\ PyDict.get record "transactions" = Some sample_transactions.
Proof.
  split; [reflexivity|].
  apply (transactions_limit_is_server_side sample_send sample_client "CUST1"
           "/api/transactions/{CustomerOID}" "/api/transactions/CUST1"
           sample_transactions); reflexivity.
Defined.

(** ** The properties on the samples *)

(** Configured ["llama3.2:latest"], listed ["mistral:7b"] and
    ["llama3.2:3b"]: the probe succeeds and the agent now names
    ["llama3.2:3b"]. *)
Lemma probe_matching_policy_sample :
  let self := Agent.__init__ (sample_config "risk_analyst") sample_client in
  fst (Agent.is_model_available self sample_listing) = true
  /\ snd (Agent.is_model_available self sample_listing)
     = Agent.set_model self "llama3.2:3b".
Proof.
  intros self.
  destruct (probe_matching_policy self sample_listing)
    as (Hiff & _ & Hprefix & _).
  assert (Hsome : exists m, In m (listed_models sample_listing)
                            /\ startswith m (base_name (Agent.model self)) = true).
  { exists "llama3.2:3b". split; [simpl; auto | reflexivity]. }
  split.
  - apply Hiff. right. exact Hsome.
  - assert (Hnot : ~ In (Agent.model self) (listed_models sample_listing)).
    { simpl. intros [H | [H | []]]; discriminate. }
    destruct (Hprefix Hnot Hsome)
      as (m & Hfirst & _ & _ & Hsnd).
    injection Hfirst as <-. exact Hsnd.
Defined.

(** [risk_analyst] is not registered and [portfolio_manager] is the
    first registered agent: the task type ["risk"] goes to
    [portfolio_manager]. *)
Lemma task_routing_with_fallback_sample :
  exists response,
    AgentManager.query_best_agent sample_send sample_echo sample_format
      (sample_manager ["portfolio_manager"; "market_analyst"])
      "How exposed am I?" "risk" None (QueryKwargs None no_kwargs)
    = Return ("portfolio_manager", response).
Proof.
  destruct (task_routing_with_fallback sample_send sample_echo sample_format
              (sample_manager ["portfolio_manager"; "market_analyst"])
              "How exposed am I?" "risk" None (QueryKwargs None no_kwargs))
    as (_ & Hfallback & _).
  destruct (Hfallback eq_refl _ _ _ eq_refl) as (response & _ & Hrouted).
  exists response. exact Hrouted.
Defined.

(** With the same registry the tool [calculate_var], mapped to
    [risk_analyst], gets no agent. *)
Lemma tool_routing_has_no_fallback_sample :
  AgentManager.get_agent_for_tool
    (sample_manager ["portfolio_manager"; "market_analyst"]) (Some "calculate_var")
  = None
  /\ MCPOpenbankingServer.call_tool sample_send sample_echo sample_format
       (MCPOpenbankingServer.Build
          (sample_manager ["portfolio_manager"; "market_analyst"]) PyDict.empty)
       (CallRequest (Some "calculate_var") None (Some "CUST1") None)
     = JObj [("error", JStr "No agent available for tool: calculate_var")].
Proof.
  destruct (tool_routing_has_no_fallback sample_send sample_echo sample_format
              (sample_manager ["portfolio_manager"; "market_analyst"])
              (Some "calculate_var"))
    as (_ & _ & Hunregistered & Hcall).
  assert (Hnone : AgentManager.get_agent_for_tool
                    (sample_manager ["portfolio_manager"; "market_analyst"])
                    (Some "calculate_var") = None)
    by exact (Hunregistered "calculate_var" "risk_analyst" eq_refl eq_refl eq_refl).
  split; [exact Hnone|].
  exact (Hcall Hnone PyDict.empty None (Some "CUST1") None).
Defined.

(** An unknown task type goes to [explainability_agent]; an unknown
    tool name goes nowhere. *)
Lemma default_agent_for_task_types_only_sample :
  (exists response,
     AgentManager.query_best_agent sample_send sample_echo sample_format
       (sample_manager ["risk_analyst"; "explainability_agent"])
       "What changed?" "weather" None (QueryKwargs None no_kwargs)
     = Return ("explainability_agent", response))
  /\ AgentManager.get_agent_for_tool
       (sample_manager ["risk_analyst"; "explainability_agent"]) (Some "unknown_tool")
     = None.
Proof.
  destruct (default_agent_for_task_types_only sample_send sample_echo sample_format
              (sample_manager ["risk_analyst"; "explainability_agent"]))
    as (Htask & Htool).
  split.
  - exact (Htask "weather" "What changed?" None (QueryKwargs None no_kwargs)
             (sample_agent "explainability_agent") eq_refl eq_refl).
  - exact (Htool "unknown_tool" eq_refl).
Defined.

(** The status entry of the substituted agent still shows
    ["llama3.2:latest"]; its generation request names ["llama3.2:3b"]. *)
Lemma substitution_keeps_model_name_sample :
  let probed :=
    Agent.is_model_available (Agent.__init__ (sample_config "risk_analyst") sample_client)
      sample_listing in
  let agent := Agent.set_is_available (snd probed) true in
  fst probed = true
  /\ Agent.model agent = "llama3.2:3b"
  /\ Agent.model_name agent = "llama3.2:latest"
  /\ status_entry agent
     = JObj [ ("available", JBool true); ("model", JStr "llama3.2:latest") ]
  /\ Agent.generate_response sample_send sample_echo sample_format agent
       "How exposed am I?" None (Some "CUST1") no_kwargs
     = Return "llama3.2:3b".
Proof.
  intros probed agent.
  destruct (substitution_keeps_model_name (sample_config "risk_analyst") sample_client
              sample_listing "llama3.2:3b")
    as (Hok & _ & Hmodel & Hname & Hentry & _ & _ & Hecho).
  - simpl. intros [H | [H | []]]; discriminate.
  - reflexivity.
  - split; [exact Hok|]. split; [exact Hmodel|]. split; [exact Hname|].
    split; [exact Hentry|].
    exact (Hecho sample_send sample_format "How exposed am I?" None (Some "CUST1")
             no_kwargs).
Defined.

(** A server that is initialised, asked for its status, shut down and
    initialised again. *)
Lemma registered_agents_are_available_sample :
  let config :=
    Config.Build "openbanking-mcp" false "http://localhost:11434" BankApiConfig.default
      [ sample_config "market_analyst";
        AgentConfig.make "risk_analyst" "qwen2:7b" "Risk Analyst" "You assess risk." ] in
  let state :=
    MCPOpenbankingServer.run (fun _ => sample_listing)
      (MCPOpenbankingServer.__init__ config, 0)
      [ MCPOpenbankingServer.Initialize;
        MCPOpenbankingServer.Serve GetStatus;
        MCPOpenbankingServer.Shutdown;
        MCPOpenbankingServer.Initialize ] in
  AgentManager.list_agents (MCPOpenbankingServer.agent_manager (fst state))
  = ["market_analyst"]
  /\ all_available
       (AgentManager.agents (MCPOpenbankingServer.agent_manager (fst state))).
Proof.
  intros config state. split; [reflexivity|].
  exact (proj1 (registered_agents_are_available (fun _ => sample_listing) config 0
                  [ MCPOpenbankingServer.Initialize;
                    MCPOpenbankingServer.Serve GetStatus;
                    MCPOpenbankingServer.Shutdown;
                    MCPOpenbankingServer.Initialize ])).
Defined.

(** * Further properties of the code *)

(** ** The bank API client *)

Lemma append_nil_r (s : string) : s ++ "" = s.
Proof. induction s as [|c r IH]; simpl; [reflexivity | rewrite IH; reflexivity]. Qed.

Section Client.

Variable send : http_request -> outcome json.
Variable self : BankApiClient.t.

(** X1.  [_make_request] compares the upper-cased method: any ASCII
    spelling of GET sends a GET without a body, any ASCII spelling of
    POST sends a POST with the data as its JSON body, and every other
    method written in ASCII raises
    [ValueError("Unsupported HTTP method: <method>")] without a request
    being made.  (Outside ASCII, Python's [upper] knows further spellings
    of POST; they are not covered here.) *)
Theorem make_request_method_dispatch (endpoint method : string) (data : option json) :
  (upper method = "GET" ->
   BankApiClient._make_request send self endpoint method data
   = send (HttpRequest "GET" (BankApiClient.base_url self ++ endpoint)
             (request_headers self) None (BankApiClient.timeout self)))
  /\ (upper method = "POST" ->
      BankApiClient._make_request send self endpoint method data
      = send (HttpRequest "POST" (BankApiClient.base_url self ++ endpoint)
                (request_headers self) data (BankApiClient.timeout self)))
  /\ (is_ascii method = true ->
      upper method <> "GET" -> upper method <> "POST" ->
      BankApiClient._make_request send self endpoint method data
      = Raise (Exn "ValueError" ("Unsupported HTTP method: " ++ method))).
Proof.
  unfold BankApiClient._make_request. rewrite try_except_reraise.
  fold (request_headers self).
  split; [|split].
  - intros ->. reflexivity.
  - intros ->. reflexivity.
  - intros _ Hget Hpost.
    destruct (String.eqb (upper method) "GET") eqn:E1.
    + apply String.eqb_eq in E1. contradiction.
    + destruct (String.eqb (upper method) "POST") eqn:E2; [|reflexivity].
      apply String.eqb_eq in E2. contradiction.
Qed.

End Client.

Lemma make_request_method_dispatch_sample :
  BankApiClient._make_request sample_send sample_client "/api/portfolio/CUST1" "get"
    (Some JNull)
  = Raise (Exn "ReadTimeout" "timed out")
  /\ BankApiClient._make_request sample_send sample_client "/api/market-data" "Post"
       (Some JNull)
     = Return (JObj [ ("customer_oid", JStr "CUST1") ])
  /\ BankApiClient._make_request sample_send sample_client "/api/market-data" "PUT" None
     = Raise (Exn "ValueError" "Unsupported HTTP method: PUT").
Proof.
  destruct (make_request_method_dispatch sample_send sample_client
              "/api/portfolio/CUST1" "get" (Some JNull)) as (Hget & _ & _).
  destruct (make_request_method_dispatch sample_send sample_client
              "/api/market-data" "Post" (Some JNull)) as (_ & Hpost & _).
  destruct (make_request_method_dispatch sample_send sample_client
              "/api/market-data" "PUT" None) as (_ & _ & Hput).
  split; [exact (Hget eq_refl)|].
  split; [exact (Hpost eq_refl)|].
  apply Hput; [reflexivity | discriminate | discriminate].
Defined.

Section Fetches.

Variable send : http_request -> outcome json.
Variable self : BankApiClient.t.

Lemma composite_field (oid : string) (s : source) (field : json) :
  match s with
  | Customer => BankApiClient.get_customer_data send self oid
  | Portfolio => BankApiClient.get_portfolio_data send self oid
  | Accounts => BankApiClient.get_accounts send self oid
  | Transactions => BankApiClient.get_transactions send self oid 50
  | RiskMetrics => BankApiClient.get_risk_metrics send self oid
  end = Return field ->
  exists record,
    BankApiClient.get_comprehensive_customer_data send self oid = Return (JObj record)
    /\ PyDict.get record (source_key s) = Some field.
Proof.
  intros Hfield. eexists. split; [apply composite_assembled|].
  rewrite composite_get. destruct s; rewrite Hfield; reflexivity.
Qed.

(** X2.  A source whose endpoint is missing from the client's table
    fails on its own: the record comes back with the marker
    [{"error": "Failed to retrieve ...: '<key>'"}] (the text of the
    [KeyError]) under that source's key, whatever the service would have
    answered. *)
Theorem missing_endpoint_is_a_field_error (oid : string) (s : source) :
  PyDict.get (BankApiClient.endpoints self) (source_key s) = None ->
  exists record,
    BankApiClient.get_comprehensive_customer_data send self oid = Return (JObj record)
    /\ PyDict.get record (source_key s)
       = Some (JObj [("error", JStr (failure_text s ++ "'" ++ source_key s ++ "'"))]).
Proof.
  intros Hnone. apply composite_field.
  destruct s; cbn [source_key] in Hnone |- *.
  - unfold BankApiClient.get_customer_data, PyDict.getitem. rewrite Hnone. reflexivity.
  - unfold BankApiClient.get_portfolio_data, PyDict.getitem. rewrite Hnone. reflexivity.
  - unfold BankApiClient.get_accounts, PyDict.getitem. rewrite Hnone. reflexivity.
  - unfold BankApiClient.get_transactions, PyDict.getitem. rewrite Hnone. reflexivity.
  - unfold BankApiClient.get_risk_metrics, PyDict.getitem. rewrite Hnone. reflexivity.
Qed.


(** X4.  [get_market_data] never raises.  With a configured endpoint it
    asks for the endpoint itself when no symbols are given (none or an
    empty list) and for [endpoint?symbols=a,b,...] otherwise, and returns
    the payload as it came or the marker
    [{"error": "Failed to retrieve market data: ..."}]; without a
    configured endpoint it returns the marker of the [KeyError] and makes
    no request. *)
Theorem get_market_data_characterised (symbols : option (list string)) :
  BankApiClient.get_market_data send self symbols
  = Return match PyDict.get (BankApiClient.endpoints self) "market_data" with
           | None => error_dict "Failed to retrieve market data: 'market_data'"
           | Some endpoint =>
               match send (get_request self (market_endpoint endpoint symbols)) with
               | Return payload => payload
               | Raise e => error_dict ("Failed to retrieve market data: " ++ exn_str e)
               end
           end.
Proof.
  unfold BankApiClient.get_market_data, PyDict.getitem.
  destruct (PyDict.get (BankApiClient.endpoints self) "market_data") as [endpoint|];
    [|reflexivity].
  cbn [bind]. rewrite _make_request_get.
  assert (Hep : (if BankApiClient.symbols_truthy symbols
                 then endpoint ++ "?symbols=" ++ String.concat "," (option_default symbols [])
                 else endpoint)
                = market_endpoint endpoint symbols).
  { destruct symbols as [[|first rest]|]; reflexivity. }
  rewrite Hep.
  destruct (send (get_request self (market_endpoint endpoint symbols))); reflexivity.
Qed.

(** X5.  The aggregator reaches the service only through [GET]
    exchanges to [base_url + endpoint] that carry the client's headers,
    no body and the client's timeout: two services that answer these
    alike give the same record.  The headers are [Content-Type] and
    [Accept], and [Authorization: Bearer <key>] exactly when an API key
    is configured. *)
Theorem aggregator_sends_only_client_requests (send' : http_request -> outcome json)
    (oid : string) :
  (forall endpoint, send (get_request self endpoint) = send' (get_request self endpoint)) ->
  BankApiClient.get_comprehensive_customer_data send self oid
  = BankApiClient.get_comprehensive_customer_data send' self oid
  /\ PyDict.get (request_headers self) "Content-Type" = Some "application/json"
  /\ PyDict.get (request_headers self) "Accept" = Some "application/json"
  /\ PyDict.get (request_headers self) "Authorization"
     = (if str_truthy (BankApiClient.api_key self)
        then Some ("Bearer " ++ BankApiClient.api_key self) else None)
  /\ PyDict.keys (request_headers self)
     = (if str_truthy (BankApiClient.api_key self)
        then ["Content-Type"; "Accept"; "Authorization"]
        else ["Content-Type"; "Accept"]).
Proof.
  intros Hsame. split.
  - rewrite !composite_assembled.
    assert (H1 : BankApiClient.get_customer_data send self oid
                 = BankApiClient.get_customer_data send' self oid).
    { unfold BankApiClient.get_customer_data.
      destruct (PyDict.getitem (BankApiClient.endpoints self) "customer"); [|reflexivity].
      cbn [bind]. destruct (str_format a oid); [|reflexivity].
      cbn [bind]. rewrite !_make_request_get, Hsame. reflexivity. }
    assert (H2 : BankApiClient.get_portfolio_data send self oid
                 = BankApiClient.get_portfolio_data send' self oid).
    { unfold BankApiClient.get_portfolio_data.
      destruct (PyDict.getitem (BankApiClient.endpoints self) "portfolio"); [|reflexivity].
      cbn [bind]. destruct (str_format a oid); [|reflexivity].
      cbn [bind]. rewrite !_make_request_get, Hsame. reflexivity. }
    assert (H3 : BankApiClient.get_accounts send self oid
                 = BankApiClient.get_accounts send' self oid).
    { unfold BankApiClient.get_accounts.
      destruct (PyDict.getitem (BankApiClient.endpoints self) "accounts"); [|reflexivity].
      cbn [bind]. destruct (str_format a oid); [|reflexivity].
      cbn [bind]. rewrite !_make_request_get, Hsame. reflexivity. }
    assert (H4 : BankApiClient.get_transactions send self oid 50
                 = BankApiClient.get_transactions send' self oid 50).
    { unfold BankApiClient.get_transactions.
      destruct (PyDict.getitem (BankApiClient.endpoints self) "transactions");
        [|reflexivity].
      cbn [bind]. destruct (str_format a oid); [|reflexivity].
      cbn [bind]. rewrite !_make_request_get, Hsame. reflexivity. }
    assert (H5 : BankApiClient.get_risk_metrics send self oid
                 = BankApiClient.get_risk_metrics send' self oid).
    { unfold BankApiClient.get_risk_metrics.
      destruct (PyDict.getitem (BankApiClient.endpoints self) "risk_metrics");
        [|reflexivity].
      cbn [bind]. destruct (str_format a oid); [|reflexivity].
      cbn [bind]. rewrite !_make_request_get, Hsame. reflexivity. }
    rewrite H1, H2, H3, H4, H5. reflexivity.
  - unfold request_headers.
    destruct (str_truthy (BankApiClient.api_key self)); repeat split; reflexivity.
Qed.

End Fetches.

Lemma default_template (s : source) (oid : string) :
  exists template,
    PyDict.get (BankApiClient.endpoints (BankApiClient.__init__ BankApiConfig.default))
      (source_key s) = Some template
    /\ str_format template oid = Return (default_path s ++ oid).
Proof.
  destruct s; eexists; (split; [reflexivity|]);
    unfold str_format; cbn; rewrite append_nil_r; reflexivity.
Qed.

(** X6.  Under the default configuration the subject is put into the
    path as it is, without escaping: for every subject the five exchanges
    are [GET http://localhost:3000/api/customers/<oid>],
    [.../api/portfolio/<oid>], [.../api/accounts/<oid>],
    [.../api/transactions/<oid>?limit=50] and [.../api/risk/<oid>], with
    the two JSON headers, no [Authorization] header and a timeout of 10,
    and each field of the record is settled from its own exchange. *)
Theorem default_endpoints_take_the_subject_verbatim
    (send : http_request -> outcome json) (oid : string) :
  exists record,
    BankApiClient.get_comprehensive_customer_data send
      (BankApiClient.__init__ BankApiConfig.default) oid
    = Return (JObj record)
    /\ forall s,
         match send (HttpRequest "GET"
                       ("http://localhost:3000"
                        ++ requested_endpoint s (default_path s ++ oid))
                       [ ("Content-Type", "application/json");
                         ("Accept", "application/json") ]
                       None 10) with
         | Raise e =>
             PyDict.get record (source_key s)
             = Some (error_dict (failure_text s ++ exn_str e))
         | Return payload =>
             accepted s payload = true ->
             PyDict.get record (source_key s) = Some payload
         end.
Proof.
  eexists. split; [apply composite_assembled|].
  intros s. rewrite composite_get.
  destruct (default_template s oid) as (template & Hget & Hfmt).
  change (HttpRequest "GET"
            ("http://localhost:3000" ++ requested_endpoint s (default_path s ++ oid))
            [ ("Content-Type", "application/json"); ("Accept", "application/json") ]
            None 10)
    with (get_request (BankApiClient.__init__ BankApiConfig.default)
            (requested_endpoint s (default_path s ++ oid))).
  destruct s; cbn [source_key requested_endpoint accepted] in *.
  - rewrite (get_customer_data_sent _ _ _ _ _ Hget Hfmt). unfold settled.
    destruct (send _); reflexivity.
  - rewrite (get_portfolio_data_sent _ _ _ _ _ Hget Hfmt). unfold settled.
    destruct (send _); reflexivity.
  - rewrite (get_accounts_sent _ _ _ _ _ Hget Hfmt). unfold settled.
    destruct (send _); reflexivity.
  - pose proof (get_transactions_sent send _ _ _ _ Hget Hfmt) as Hsent.
    destruct (send _) as [payload | e].
    + intros Hcount. rewrite (Hsent Hcount). reflexivity.
    + rewrite Hsent. reflexivity.
  - rewrite (get_risk_metrics_sent _ _ _ _ _ Hget Hfmt). unfold settled.
    destruct (send _); reflexivity.
Qed.

Lemma missing_endpoint_is_a_field_error_sample :
  exists record,
    BankApiClient.get_comprehensive_customer_data sample_send sample_bare_client "CUST1"
    = Return (JObj record)
    /\ PyDict.get record "accounts"
       = Some (JObj [("error", JStr "Failed to retrieve accounts: 'accounts'")]).
Proof.
  exact (missing_endpoint_is_a_field_error sample_send sample_bare_client "CUST1"
           Accounts eq_refl).
Defined.


Lemma get_market_data_characterised_sample :
  BankApiClient.get_market_data sample_send_echo sample_client (Some ["AAPL"; "MSFT"])
  = Return (JObj [("url", JStr "http://localhost:3000/api/market-data?symbols=AAPL,MSFT")])
  /\ BankApiClient.get_market_data sample_send_echo sample_client (Some [])
     = Return (JObj [("url", JStr "http://localhost:3000/api/market-data")])
  /\ BankApiClient.get_market_data sample_send_echo sample_bare_client None
     = Return (JObj [("error", JStr "Failed to retrieve market data: 'market_data'")]).
Proof.
  split; [|split].
  - exact (get_market_data_characterised sample_send_echo sample_client
             (Some ["AAPL"; "MSFT"])).
  - exact (get_market_data_characterised sample_send_echo sample_client (Some [])).
  - exact (get_market_data_characterised sample_send_echo sample_bare_client None).
Defined.

Lemma aggregator_sends_only_client_requests_sample :
  BankApiClient.get_comprehensive_customer_data sample_send sample_bare_client "CUST1"
  = BankApiClient.get_comprehensive_customer_data sample_send_get_only sample_bare_client
      "CUST1"
  /\ PyDict.get (request_headers sample_bare_client) "Authorization"
     = Some "Bearer secret".
Proof.
  destruct (aggregator_sends_only_client_requests sample_send sample_bare_client
              sample_send_get_only "CUST1") as (Hsame & _ & _ & Hauth & _).
  - intros endpoint. reflexivity.
  - split; [exact Hsame | exact Hauth].
Defined.

Lemma default_endpoints_take_the_subject_verbatim_sample :
  exists record,
    BankApiClient.get_comprehensive_customer_data sample_send_echo
      (BankApiClient.__init__ BankApiConfig.default) "a/../b?x={y}"
    = Return (JObj record)
    /\ PyDict.get record "risk_metrics"
       = Some (JObj [("url", JStr "http://localhost:3000/api/risk/a/../b?x={y}")]).
Proof.
  destruct (default_endpoints_take_the_subject_verbatim sample_send_echo "a/../b?x={y}")
    as (record & Hret & Hfields).
  exists record. split; [exact Hret|].
  exact (Hfields RiskMetrics eq_refl).
Defined.

(** ** Agents *)

Lemma append_assoc (a b c : string) : (a ++ b) ++ c = a ++ b ++ c.
Proof. induction a as [|x r IH]; simpl; [reflexivity | rewrite IH; reflexivity]. Qed.

Lemma get_set_same {V : Type} (d : PyDict.t V) (k : string) (v : V) :
  PyDict.get (PyDict.set d k v) k = Some v.
Proof.
  induction d as [|[k0 v0] r IH]; simpl.
  - rewrite String.eqb_refl. reflexivity.
  - destruct (String.eqb k0 k) eqn:E; simpl; rewrite E; [reflexivity | exact IH].
Qed.

Lemma get_set_other {V : Type} (d : PyDict.t V) (k k' : string) (v : V) :
  k <> k' -> PyDict.get (PyDict.set d k v) k' = PyDict.get d k'.
Proof.
  intros Hne. induction d as [|[k0 v0] r IH]; simpl.
  - destruct (String.eqb k k') eqn:E; [|reflexivity].
    apply String.eqb_eq in E. contradiction.
  - destruct (String.eqb k0 k) eqn:E; simpl.
    + apply String.eqb_eq in E. subst k0.
      destruct (String.eqb k k') eqn:E'; [|reflexivity].
      apply String.eqb_eq in E'. contradiction.
    + rewrite IH. reflexivity.
Qed.

Section AgentCalls.

Variable send : http_request -> outcome json.
Variable generate : generate_request -> outcome (PyDict.t string).
Variable py_format : json -> string.

Lemma generate_response_text (self : Agent.t) (prompt : string)
    (context customer_oid : option string) (kwargs : gen_kwargs) (full_prompt : string) :
  Agent.build_prompt send py_format self prompt context customer_oid = Return full_prompt ->
  Agent.generate_response send generate py_format self prompt context customer_oid kwargs
  = Return (response_text (generate (Agent.request_for self full_prompt kwargs))).
Proof.
  intros Hp. unfold Agent.generate_response, response_text. rewrite Hp. cbn [bind].
  destruct (generate (Agent.request_for self full_prompt kwargs)) as [response | e];
    [|reflexivity].
  cbn [bind]. unfold PyDict.getitem.
  destruct (PyDict.get response "response"); reflexivity.
Qed.

(** X7.  [generate_response] sends one completion request, for the
    prompt it built, and returns the text under the answer's
    ["response"] key.  An answer without that key and a call that raises
    both come back as a text that starts with
    ["Error: Unable to generate response - "]: the caller cannot tell
    them from a model's answer by the type of the result. *)
Theorem generate_response_characterised (self : Agent.t) (prompt : string)
    (context customer_oid : option string) (kwargs : gen_kwargs) :
  exists full_prompt,
    Agent.build_prompt send py_format self prompt context customer_oid
    = Return full_prompt
    /\ Agent.generate_response send generate py_format self prompt context customer_oid
         kwargs
       = Return (response_text (generate (Agent.request_for self full_prompt kwargs))).
Proof.
  destruct (build_prompt_returns send py_format self prompt context customer_oid)
    as [full_prompt Hp].
  exists full_prompt. split; [exact Hp | apply generate_response_text; exact Hp].
Qed.

(** X8.  Without a customer identifier (none, or the empty text) the
    prompt is the system prompt, a blank line, the context line when a
    non-empty context is given, and the query; the bank service is not
    asked and nothing is rendered, so the response does not depend on
    them. *)
Theorem prompt_without_customer (self : Agent.t) (prompt : string)
    (context customer_oid : option string) :
  opt_truthy customer_oid = false ->
  Agent.build_prompt send py_format self prompt context customer_oid
  = Return (AgentConfig.system_prompt (Agent.config self) ++ nl ++ nl
            ++ context_line context ++ "User Query: " ++ prompt)
  /\ forall send' py_format' kwargs,
       Agent.generate_response send generate py_format self prompt context customer_oid
         kwargs
       = Agent.generate_response send' generate py_format' self prompt context
           customer_oid kwargs.
Proof.
  intros Hno.
  assert (Hp : forall sd fmt,
             Agent.build_prompt sd fmt self prompt context customer_oid
             = Return (AgentConfig.system_prompt (Agent.config self) ++ nl ++ nl
                       ++ context_line context ++ "User Query: " ++ prompt)).
  { intros sd fmt. unfold Agent.build_prompt, context_line. rewrite Hno.
    destruct (opt_truthy context); cbn [bind].
    - rewrite !append_assoc. reflexivity.
    - rewrite !append_assoc. reflexivity. }
  split; [apply Hp|].
  intros send' py_format' kwargs. unfold Agent.generate_response.
  rewrite !Hp. reflexivity.
Qed.

(** X9.  With a customer identifier the prompt is the system prompt, a
    blank line, the context line when a non-empty context is given, then
    ["Customer Context: "] with the block of customer data, and last the
    query.  The block renders the five source fields of the composite
    record, each one the payload or the error marker of its own fetch;
    the record's [customer_oid] entry is not rendered. *)
Theorem prompt_with_customer (self : Agent.t) (prompt : string)
    (context : option string) (customer_oid : string) :
  str_truthy customer_oid = true ->
  let bank := Agent.bank_api_client self in
  let rendered fetched := py_format (BankApiClient.value_or_error fetched) in
  Agent.build_prompt send py_format self prompt context (Some customer_oid)
  = Return (AgentConfig.system_prompt (Agent.config self) ++ nl ++ nl
            ++ context_line context
            ++ "Customer Context: "
            ++ customer_block customer_oid
                 (rendered (BankApiClient.get_customer_data send bank customer_oid))
                 (rendered (BankApiClient.get_portfolio_data send bank customer_oid))
                 (rendered (BankApiClient.get_accounts send bank customer_oid))
                 (rendered (BankApiClient.get_transactions send bank customer_oid 50))
                 (rendered (BankApiClient.get_risk_metrics send bank customer_oid))
            ++ nl ++ nl ++ "User Query: " ++ prompt).
Proof.
  intros Hoid bank rendered. unfold Agent.build_prompt.
  cbn [opt_truthy fmt_opt]. rewrite Hoid.
  rewrite composite_assembled. cbn [bind].
  unfold Agent.customer_context, composite. cbn [json_get bind].
  unfold PyDict.get_default. cbn [PyDict.get String.eqb Ascii.eqb Bool.eqb].
  unfold context_line, customer_block, rendered, bank.
  destruct (opt_truthy context); cbn [bind]; rewrite !append_assoc; reflexivity.
Qed.

Lemma execute_tool_generates (self : Agent.t) (tool_name : string)
    (arguments : PyDict.t json) :
  Agent.execute_tool send generate py_format self tool_name arguments
  = Agent.generate_response send generate py_format self
      (execute_tool_prompt py_format self tool_name arguments) None
      (Agent.as_customer_oid py_format (Agent.customer_oid_argument arguments))
      no_kwargs.
Proof.
  unfold Agent.execute_tool. fold (execute_tool_prompt py_format self tool_name arguments).
  destruct (generate_response_returns send generate py_format self
              (execute_tool_prompt py_format self tool_name arguments) None
              (Agent.as_customer_oid py_format (Agent.customer_oid_argument arguments))
              no_kwargs) as [text Htext].
  rewrite Htext. reflexivity.
Qed.

(** X10.  [execute_tool] returns what [generate_response] returns for
    the tool prompt, with the customer identifier read from the
    arguments: ["customer_oid"] when its value is truthy, else
    ["CustomerOID"].  It never raises, and a failed generation comes back
    as the text of [generate_response], not as
    ["Error: Unable to execute tool - ..."]. *)
Theorem execute_tool_is_a_generation (self : Agent.t) (tool_name : string)
    (arguments : PyDict.t json) :
  Agent.execute_tool send generate py_format self tool_name arguments
  = Agent.generate_response send generate py_format self
      (execute_tool_prompt py_format self tool_name arguments) None
      (Agent.as_customer_oid py_format (Agent.customer_oid_argument arguments))
      no_kwargs
  /\ (forall e,
        (forall request, generate request = Raise e) ->
        Agent.execute_tool send generate py_format self tool_name arguments
        = Return ("Error: Unable to generate response - " ++ exn_str e)).
Proof.
  pose proof (execute_tool_generates self tool_name arguments) as Heq.
  split; [exact Heq|].
  intros e Hfail. rewrite Heq.
  destruct (build_prompt_returns send py_format self
              (execute_tool_prompt py_format self tool_name arguments) None
              (Agent.as_customer_oid py_format (Agent.customer_oid_argument arguments)))
    as [full_prompt Hp].
  rewrite (generate_response_text _ _ _ _ no_kwargs _ Hp), Hfail. reflexivity.
Qed.

End AgentCalls.

Lemma generate_response_characterised_sample :
  Agent.generate_response sample_send (fun _ => Return [ ("done", "true") ]) sample_format
    (sample_agent "risk_analyst") "How exposed am I?" None None no_kwargs
  = Return "Error: Unable to generate response - 'response'".
Proof.
  destruct (generate_response_characterised sample_send
              (fun _ => Return [ ("done", "true") ]) sample_format
              (sample_agent "risk_analyst") "How exposed am I?" None None no_kwargs)
    as (full_prompt & _ & Hgen).
  exact Hgen.
Defined.

(** An empty customer identifier counts as none. *)
Lemma prompt_without_customer_sample :
  Agent.build_prompt sample_send sample_format (sample_agent "risk_analyst")
    "How exposed am I?" (Some "Q3 review") (Some "")
  = Return ("You are an analyst." ++ nl ++ nl ++ "Context: Q3 review" ++ nl ++ nl
            ++ "User Query: How exposed am I?").
Proof.
  exact (proj1 (prompt_without_customer sample_send sample_echo sample_format
                  (sample_agent "risk_analyst") "How exposed am I?" (Some "Q3 review")
                  (Some "") eq_refl)).
Defined.

Lemma prompt_with_customer_sample :
  Agent.build_prompt sample_send sample_format (sample_agent "risk_analyst")
    "How exposed am I?" None (Some "CUST1")
  = Return ("You are an analyst." ++ nl ++ nl
            ++ "Customer Context: "
            ++ customer_block "CUST1" "<dict>" "<dict>" "<dict>" "<dict>" "<dict>"
            ++ nl ++ nl ++ "User Query: How exposed am I?").
Proof.
  exact (prompt_with_customer sample_send sample_format (sample_agent "risk_analyst")
           "How exposed am I?" None "CUST1" eq_refl).
Defined.

(** The arguments' own ["customer_oid"] is empty, so ["CustomerOID"] is
    taken; the runtime is down, and the reply is the generation's error
    text. *)
Lemma execute_tool_is_a_generation_sample :
  Agent.as_customer_oid sample_format
    (Agent.customer_oid_argument
       [ ("customer_oid", JStr ""); ("CustomerOID", JStr "CUST1") ])
  = Some "CUST1"
  /\ Agent.execute_tool sample_send sample_refusing sample_format
       (sample_agent "risk_analyst") "calculate_var"
       [ ("customer_oid", JStr ""); ("CustomerOID", JStr "CUST1") ]
     = Return "Error: Unable to generate response - connection refused".
Proof.
  split; [reflexivity|].
  destruct (execute_tool_is_a_generation sample_send sample_refusing sample_format
              (sample_agent "risk_analyst") "calculate_var"
              [ ("customer_oid", JStr ""); ("CustomerOID", JStr "CUST1") ])
    as (_ & Hfail).
  exact (Hfail (Exn "ConnectionError" "connection refused") (fun _ => eq_refl)).
Defined.

(** ** The probe, further *)

Lemma split_head_prefix (sep : ascii) (s : string) :
  String.prefix (split_head sep s) s = true.
Proof.
  induction s as [|c r IH]; simpl; [reflexivity|].
  destruct (Ascii.eqb c sep); simpl; [reflexivity|].
  destruct (ascii_dec c c); [exact IH | congruence].
Qed.

Lemma truthy_names_nonempty (names : list (option string)) (m : string) :
  In m (Agent.truthy_names names) -> m <> "".
Proof.
  induction names as [|[x|] rest IH]; simpl; [intros [] | | exact IH].
  destruct x as [|c r]; simpl; [exact IH|].
  intros [<- | Hin]; [discriminate | exact (IH Hin)].
Qed.

Lemma listed_models_nonempty (listing : outcome list_response) (m : string) :
  In m (listed_models listing) -> m <> "".
Proof.
  unfold listed_models. destruct listing as [r|e]; [|intros []].
  destruct (Agent.models_of r); [|intros []].
  apply truthy_names_nonempty.
Qed.

(** What a probe leaves: the flag, and the agent with at most its model
    changed to a listed name with the base name's prefix. *)
Lemma probe_outcome (self : Agent.t) (listing : outcome list_response) :
  let result := Agent.is_model_available self listing in
  (fst result = false /\ snd result = self)
  \/ (fst result = true /\ snd result = self
      /\ In (Agent.model self) (listed_models listing))
  \/ (exists m,
        fst result = true /\ snd result = Agent.set_model self m
        /\ In m (listed_models listing)
        /\ startswith m (base_name (Agent.model self)) = true).
Proof.
  cbv zeta. rewrite is_model_available_listed.
  destruct (Agent.name_in (Agent.model self) (listed_models listing)) eqn:Hexact.
  - right. left. apply name_in_iff in Hexact. auto.
  - destruct (Agent.first_startswith (base_name (Agent.model self))
                (listed_models listing)) as [m|] eqn:Hfirst.
    + right. right. exists m.
      destruct (first_startswith_sound _ _ _ Hfirst) as [Hin Hpre]. auto.
    + left. auto.
Qed.

Section ProbeFurther.

Variable self : Agent.t.
Variable listing : outcome list_response.

(** X11.  Probing is stable: a second probe of the agent against the
    same listing gives the same flag and leaves the agent as the first
    probe left it (after a substitution the model is an exact match). *)
Theorem probe_is_stable :
  Agent.is_model_available (snd (Agent.is_model_available self listing)) listing
  = Agent.is_model_available self listing.
Proof.
  destruct (probe_outcome self listing) as [[Hf Hs] | [(Hf & Hs & Hin) | (m & Hf & Hs & Hin & Hpre)]].
  - rewrite Hs. reflexivity.
  - rewrite Hs. reflexivity.
  - rewrite Hs. rewrite (is_model_available_listed (Agent.set_model self m)).
    cbn [Agent.set_model Agent.model].
    apply name_in_iff in Hin. rewrite Hin.
    rewrite <- Hs, <- Hf. destruct (Agent.is_model_available self listing); reflexivity.
Qed.

(** X12.  The exact-match test does not widen the probe: it succeeds
    exactly when some listed name starts with the base name of the
    configured identity.  After a successful probe the agent's model is
    one of the listed names, is not empty and starts with that base
    name. *)
Theorem probe_selects_a_listed_model :
  (fst (Agent.is_model_available self listing) = true
   <-> exists m, In m (listed_models listing)
                 /\ startswith m (base_name (Agent.model self)) = true)
  /\ (fst (Agent.is_model_available self listing) = true ->
      In (Agent.model (snd (Agent.is_model_available self listing)))
         (listed_models listing)
      /\ Agent.model (snd (Agent.is_model_available self listing)) <> ""
      /\ startswith (Agent.model (snd (Agent.is_model_available self listing)))
           (base_name (Agent.model self)) = true).
Proof.
  assert (Hself : startswith (Agent.model self) (base_name (Agent.model self)) = true)
    by apply split_head_prefix.
  destruct (probe_outcome self listing)
    as [[Hf Hs] | [(Hf & Hs & Hin) | (m & Hf & Hs & Hin & Hpre)]].
  - split.
    + split; [congruence|]. intros Hex.
      assert (Hok : fst (Agent.is_model_available self listing) = true).
      { apply probe_succeeds_iff. right. exact Hex. }
      congruence.
    + congruence.
  - split.
    + split; [|intros _; exact Hf]. intros _. exists (Agent.model self). auto.
    + intros _. rewrite Hs. repeat split; auto.
      exact (listed_models_nonempty _ _ Hin).
  - split.
    + split; [|intros _; exact Hf]. intros _. exists m. auto.
    + intros _. rewrite Hs. cbn [Agent.set_model Agent.model]. repeat split; auto.
      exact (listed_models_nonempty _ _ Hin).
Qed.

(** X13.  A configured identity with an empty base name (the empty text,
    or a text that starts with [:]) matches anything: against a listing
    with at least one name the probe succeeds, and unless the identity is
    itself listed the agent takes the first listed name. *)
Theorem empty_base_name_takes_the_first_model (first : string) (rest : list string) :
  base_name (Agent.model self) = "" ->
  listed_models listing = first :: rest ->
  fst (Agent.is_model_available self listing) = true
  /\ (~ In (Agent.model self) (first :: rest) ->
      snd (Agent.is_model_available self listing) = Agent.set_model self first).
Proof.
  intros Hbase Hlist. rewrite is_model_available_listed, Hbase, Hlist.
  cbn [Agent.first_startswith]. unfold startswith.
  assert (Hp : String.prefix "" first = true) by (destruct first; reflexivity).
  rewrite Hp.
  destruct (Agent.name_in (Agent.model self) (first :: rest)) eqn:Hexact.
  - split; [reflexivity|]. intros Hnot. apply name_in_iff in Hexact. contradiction.
  - split; reflexivity.
Qed.

End ProbeFurther.

Lemma empty_base_name_takes_the_first_model_sample :
  let self :=
    Agent.__init__ (AgentConfig.make "risk_analyst" ":latest" "Risk Analyst" "You assess risk.")
      sample_client in
  fst (Agent.is_model_available self sample_listing) = true
  /\ Agent.model (snd (Agent.is_model_available self sample_listing)) = "mistral:7b".
Proof.
  intros self.
  destruct (empty_base_name_takes_the_first_model self sample_listing
              "mistral:7b" ["llama3.2:3b"] eq_refl eq_refl) as [Hok Hsnd].
  split; [exact Hok|].
  rewrite Hsnd; [reflexivity|].
  simpl. intros [H | [H | []]]; discriminate.
Defined.

Lemma probe_selects_a_listed_model_sample :
  let self := Agent.__init__ (sample_config "risk_analyst") sample_client in
  In (Agent.model (snd (Agent.is_model_available self sample_listing)))
     ["mistral:7b"; "llama3.2:3b"].
Proof.
  intros self.
  destruct (probe_selects_a_listed_model self sample_listing) as [Hiff Hafter].
  apply Hafter. apply Hiff. exists "llama3.2:3b". split; [simpl; auto | reflexivity].
Defined.

(** ** The manager, further *)

Lemma set_Forall_entry {V : Type} (P : string * V -> Prop) (d : PyDict.t V)
    (k : string) (v : V) :
  Forall P d -> P (k, v) -> Forall P (PyDict.set d k v).
Proof.
  induction d as [|[k0 v0] r IH]; simpl; intros Hall Hv.
  - constructor; [exact Hv | constructor].
  - inversion Hall as [|? ? H0 Hrest]; subst.
    destruct (String.eqb k0 k) eqn:E.
    + apply String.eqb_eq in E. subst k0. constructor; assumption.
    + constructor; auto.
Qed.

Section Startup.

Variable list_models : nat -> outcome list_response.

Lemma initialize_loop_filter (bank : BankApiClient.t) (configs : list AgentConfig.t) :
  forall agents calls,
    AgentManager.initialize_loop list_models bank configs agents calls
    = AgentManager.initialize_loop list_models bank
        (filter AgentConfig.enabled configs) agents calls.
Proof.
  induction configs as [|c rest IH]; intros agents calls; [reflexivity|].
  cbn [filter AgentManager.initialize_loop].
  destruct (AgentConfig.enabled c) eqn:Hen; cbn [negb].
  - cbn [AgentManager.initialize_loop]. rewrite Hen. cbn [negb].
    destruct (Agent.is_model_available (Agent.__init__ c bank) (list_models calls))
      as [available agent].
    destruct available; apply IH.
  - apply IH.
Qed.

Lemma initialize_loop_calls (bank : BankApiClient.t) (configs : list AgentConfig.t) :
  forall agents calls,
    snd (AgentManager.initialize_loop list_models bank configs agents calls)
    = calls + length (filter AgentConfig.enabled configs).
Proof.
  induction configs as [|c rest IH]; intros agents calls; simpl.
  - rewrite Nat.add_0_r. reflexivity.
  - destruct (AgentConfig.enabled c); simpl; [|apply IH].
    destruct (Agent.is_model_available (Agent.__init__ c bank) (list_models calls))
      as [available agent].
    destruct available; rewrite IH, Nat.add_succ_r; reflexivity.
Qed.

(** X14.  A configuration that is not enabled is skipped without a
    trace: the loop of [_initialize_agents] gives the same registry as on
    the enabled configurations alone, it lists the models once per
    enabled configuration, and a name that only disabled configurations
    carry is registered after the loop exactly when it was before. *)
Theorem disabled_agents_are_skipped (bank : BankApiClient.t)
    (configs : list AgentConfig.t) (agents : PyDict.t Agent.t) (calls : nat) :
  AgentManager.initialize_loop list_models bank configs agents calls
  = AgentManager.initialize_loop list_models bank
      (filter AgentConfig.enabled configs) agents calls
  /\ snd (AgentManager.initialize_loop list_models bank configs agents calls)
     = calls + length (filter AgentConfig.enabled configs)
  /\ (forall name,
        (forall c, In c configs -> AgentConfig.name c = name ->
                   AgentConfig.enabled c = false) ->
        (In name (PyDict.keys (fst (AgentManager.initialize_loop list_models bank configs
                                      agents calls)))
         <-> In name (PyDict.keys agents))).
Proof.
  split; [apply initialize_loop_filter|].
  split; [apply initialize_loop_calls|].
  intros name Hdisabled. rewrite initialize_loop_keys.
  split; [|auto].
  intros [H | (i & c & Hnth & Hname & _)]; [exact H|].
  apply nth_error_In in Hnth. apply filter_In in Hnth. destruct Hnth as [Hin Hen].
  rewrite (Hdisabled c Hin Hname) in Hen. discriminate.
Qed.

Lemma initialize_loop_made_from (bank : BankApiClient.t) (all : list AgentConfig.t)
    (configs : list AgentConfig.t) :
  (forall c, In c configs -> In c all) ->
  forall agents calls,
    Forall (made_from all bank) agents ->
    Forall (made_from all bank)
      (fst (AgentManager.initialize_loop list_models bank configs agents calls)).
Proof.
  induction configs as [|c rest IH]; intros Hsub agents calls Hall; simpl; [exact Hall|].
  assert (Hrest : forall c', In c' rest -> In c' all)
    by (intros c' Hin; apply Hsub; right; exact Hin).
  destruct (AgentConfig.enabled c) eqn:Hen; simpl; [|apply IH; assumption].
  pose proof (probe_outcome (Agent.__init__ c bank) (list_models calls)) as Hprobe.
  cbv zeta in Hprobe.
  destruct (Agent.is_model_available (Agent.__init__ c bank) (list_models calls))
    as [available agent].
  cbn [fst snd] in Hprobe.
  destruct available; [|apply IH; assumption].
  apply IH; [assumption|].
  apply set_Forall_entry; [exact Hall|].
  assert (Hc : In c all) by (apply Hsub; left; reflexivity).
  destruct Hprobe as [[Hf _] | [(_ & -> & _) | (m & _ & -> & _ & Hpre)]];
    [discriminate | |].
  - cbn. repeat split; auto. apply split_head_prefix.
  - cbn. repeat split; auto.
Qed.

(** X15.  After the manager's initialisation every entry of the registry
    comes from the configuration: its key is the name of an enabled
    configured agent, the agent carries that configuration, the manager's
    bank client and the configured identity as [model_name], it is marked
    available, and the model it generates with starts with the base name
    of the configured identity.  No name is registered twice. *)
Theorem registry_entries_come_from_the_configuration (config : Config.t) (calls : nat) :
  let manager :=
    snd (fst (AgentManager.initialize list_models (AgentManager.__init__ config) calls)) in
  Forall (made_from (Config.agents config) (BankApiClient.__init__ (Config.bank_api config)))
    (AgentManager.agents manager)
  /\ NoDup (AgentManager.list_agents manager).
Proof.
  cbv zeta.
  unfold AgentManager.initialize, AgentManager._test_ollama_connection,
    AgentManager._initialize_agents.
  destruct (try_except (_ <- list_models calls ;; Return tt) (fun e => Raise e)).
  - cbn [AgentManager.__init__ AgentManager.set_ollama_client AgentManager.agents
         AgentManager.config AgentManager.bank_api_client].
    pose proof (initialize_loop_made_from
                  (BankApiClient.__init__ (Config.bank_api config))
                  (Config.agents config) (Config.agents config) (fun c H => H)
                  PyDict.empty (S calls) (Forall_nil _)) as Hmade.
    pose proof (initialize_loop_ok list_models
                  (BankApiClient.__init__ (Config.bank_api config))
                  (Config.agents config) PyDict.empty (S calls)
                  (conj (NoDup_nil _) (Forall_nil _))) as [Hnd _].
    destruct (AgentManager.initialize_loop list_models
                (BankApiClient.__init__ (Config.bank_api config))
                (Config.agents config) PyDict.empty (S calls)) as [agents calls'].
    split; [exact Hmade | exact Hnd].
  - split; constructor.
Qed.

(** X16.  The manager's initialisation stands or falls with the first
    listing.  When it raises, [initialize] raises the same exception
    after one listing, the registry is as before, and the server
    registers no tool.  When it returns, [initialize] returns, the
    registry is what the loop makes of the configured agents, and one
    more listing was made per enabled configuration. *)
Theorem initialize_needs_the_runtime (self : AgentManager.t) (calls : nat) :
  (forall e,
     list_models calls = Raise e ->
     AgentManager.initialize list_models self calls
     = (Raise e,
        AgentManager.set_ollama_client self
          (Some (Config.ollama_base_url (AgentManager.config self))),
        S calls)
     /\ forall tools,
          MCPOpenbankingServer.initialize list_models
            (MCPOpenbankingServer.Build self tools) calls
          = (Raise e,
             MCPOpenbankingServer.Build
               (AgentManager.set_ollama_client self
                  (Some (Config.ollama_base_url (AgentManager.config self))))
               tools,
             S calls))
  /\ (forall models_response,
        list_models calls = Return models_response ->
        exists manager,
          AgentManager.initialize list_models self calls
          = (Return tt, manager,
             S calls + length (filter AgentConfig.enabled
                                 (Config.agents (AgentManager.config self))))
          /\ AgentManager.agents manager
             = fst (AgentManager.initialize_loop list_models
                      (AgentManager.bank_api_client self)
                      (Config.agents (AgentManager.config self))
                      (AgentManager.agents self) (S calls))).
Proof.
  split.
  - intros e Hraise.
    assert (Hinit : AgentManager.initialize list_models self calls
                    = (Raise e,
                       AgentManager.set_ollama_client self
                         (Some (Config.ollama_base_url (AgentManager.config self))),
                       S calls)).
    { unfold AgentManager.initialize, AgentManager._test_ollama_connection.
      rewrite Hraise. reflexivity. }
    split; [exact Hinit|].
    intros tools. unfold MCPOpenbankingServer.initialize.
    cbn [MCPOpenbankingServer.agent_manager MCPOpenbankingServer.registered_tools].
    rewrite Hinit. reflexivity.
  - intros models_response Hret.
    unfold AgentManager.initialize, AgentManager._test_ollama_connection,
      AgentManager._initialize_agents.
    rewrite Hret. cbn [bind try_except].
    cbn [AgentManager.set_ollama_client AgentManager.agents AgentManager.config
         AgentManager.bank_api_client].
    pose proof (initialize_loop_calls (AgentManager.bank_api_client self)
                  (Config.agents (AgentManager.config self))
                  (AgentManager.agents self) (S calls)) as Hcalls.
    destruct (AgentManager.initialize_loop list_models (AgentManager.bank_api_client self)
                (Config.agents (AgentManager.config self)) (AgentManager.agents self)
                (S calls)) as [agents calls'].
    cbn [fst snd] in *. subst calls'.
    eexists. split; reflexivity.
Qed.

End Startup.

Section AfterShutdown.

Variable send : http_request -> outcome json.
Variable generate : generate_request -> outcome (PyDict.t string).
Variable py_format : json -> string.

(** X17.  After [shutdown] the manager has no agent: [is_available] is
    false, no name resolves, every task type is answered with
    [("none", "Error: No agents available")], every tool name is without
    an agent, and the status report lists no agent while it still lists
    the tools.  The configuration and the bank client are kept. *)
Theorem shutdown_leaves_no_agent (self : AgentManager.t) (tools : PyDict.t string) :
  let stopped := AgentManager.shutdown self in
  AgentManager.is_available stopped = false
  /\ AgentManager.list_agents stopped = []
  /\ (forall name, AgentManager.get_agent stopped name = None)
  /\ (forall prompt task_type context kwargs,
        AgentManager.query_best_agent send generate py_format stopped prompt task_type
          context kwargs
        = Return ("none", "Error: No agents available"))
  /\ (forall tool_name, AgentManager.get_agent_for_tool stopped tool_name = None)
  /\ MCPOpenbankingServer.get_status (MCPOpenbankingServer.Build stopped tools)
     = JObj [ ("status", JStr "running"); ("agents", JObj []);
              ("tools", JArr (map JStr (PyDict.keys tools))) ]
  /\ AgentManager.config stopped = AgentManager.config self
  /\ AgentManager.bank_api_client stopped = AgentManager.bank_api_client self.
Proof.
  cbv zeta. repeat split; try reflexivity.
  intros tool_name. rewrite get_agent_for_tool_lookup.
  destruct tool_name as [tool|]; [|reflexivity].
  destruct (PyDict.get AgentManager.tool_agent_mapping tool); reflexivity.
Qed.

(** X18.  The name [query_best_agent] returns is a registered name, with
    the response of that agent's generation, or it is ["none"] with the
    text ["Error: No agents available"], which happens only on an empty
    registry.  The text of an unknown agent
    (["Error: Agent '...' not found"]) is never produced by the
    lookups of [query_best_agent]. *)
Theorem best_agent_is_registered (self : AgentManager.t) (prompt task_type : string)
    (context : option string) (kwargs : query_kwargs) :
  (exists name agent response,
     PyDict.get (AgentManager.agents self) name = Some agent
     /\ In name (AgentManager.list_agents self)
     /\ Agent.generate_response send generate py_format agent prompt context
          (kw_customer_oid kwargs) (kw_generation kwargs) = Return response
     /\ AgentManager.query_best_agent send generate py_format self prompt task_type
          context kwargs
        = Return (name, response))
  \/ (AgentManager.agents self = []
      /\ AgentManager.query_best_agent send generate py_format self prompt task_type
           context kwargs
         = Return ("none", "Error: No agents available")).
Proof.
  destruct (PyDict.get (AgentManager.agents self)
              (PyDict.get_default AgentManager.task_agent_mapping task_type
                 "explainability_agent")) as [agent|] eqn:Hpref.
  - left.
    destruct (query_best_agent_preferred send generate py_format self prompt task_type
                context kwargs agent Hpref) as (response & Hgen & Hrouted).
    exists (PyDict.get_default AgentManager.task_agent_mapping task_type
              "explainability_agent"), agent, response.
    repeat split; try assumption.
    apply get_In in Hpref. unfold AgentManager.list_agents, PyDict.keys.
    apply (in_map fst) in Hpref. exact Hpref.
  - destruct (AgentManager.agents self) as [|[first agent] rest] eqn:Hreg.
    + right. split; [reflexivity|].
      apply query_best_agent_none. exact Hreg.
    + left.
      rewrite <- Hreg in Hpref.
      destruct (query_best_agent_fallback send generate py_format self prompt task_type
                  context kwargs first agent rest Hpref Hreg)
        as (response & Hgen & Hrouted).
      exists first, agent, response.
      repeat split; try assumption.
      * simpl. rewrite String.eqb_refl. reflexivity.
      * unfold AgentManager.list_agents. rewrite Hreg. left. reflexivity.
Qed.

End AfterShutdown.

(** ** The HTTP handlers, further *)

Lemma customer_oid_argument_with_customer (arguments : PyDict.t json) (customer : string) :
  str_truthy customer = true ->
  Agent.customer_oid_argument (with_customer arguments customer) = Some (JStr customer).
Proof.
  intros Htruthy. unfold Agent.customer_oid_argument, with_customer.
  rewrite get_set_other by discriminate. rewrite get_set_same.
  cbn [py_truthy]. rewrite Htruthy. reflexivity.
Qed.

Section HandlersFurther.

Variable send : http_request -> outcome json.
Variable generate : generate_request -> outcome (PyDict.t string).
Variable py_format : json -> string.

(** X19.  [POST /mcp/query] checks the query first and the agent second.
    A missing or empty query is answered [{"error": "Query is required"}]
    whatever else the request holds.  Otherwise the agent is looked up by
    the name in [agent_type] (["market_analyst"] when absent), with no
    routing and no fallback: an unregistered name is answered
    [{"error": "Agent not found: <name>"}], and a registered one gives
    [{"response": <text of generate_response>}]. *)
Theorem query_endpoint_checks_in_order (self : MCPOpenbankingServer.t)
    (request_data : query_request) :
  let agent_type := option_default (query_agent_type request_data) "market_analyst" in
  let reply :=
    MCPOpenbankingServer.query_agent send generate py_format self request_data in
  (opt_truthy (query_text request_data) = false ->
   reply = JObj [("error", JStr "Query is required")])
  /\ (opt_truthy (query_text request_data) = true ->
      AgentManager.get_agent (MCPOpenbankingServer.agent_manager self) agent_type = None ->
      reply = JObj [("error", JStr ("Agent not found: " ++ agent_type))])
  /\ (opt_truthy (query_text request_data) = true ->
      forall agent,
        AgentManager.get_agent (MCPOpenbankingServer.agent_manager self) agent_type
        = Some agent ->
        exists text,
          Agent.generate_response send generate py_format agent
            (fmt_opt (query_text request_data)) (query_context request_data)
            (opt_or (query_customer_oid request_data) (query_CustomerOID request_data))
            no_kwargs
          = Return text
          /\ reply = JObj [("response", JStr text)]).
Proof.
  cbv zeta. unfold MCPOpenbankingServer.query_agent.
  split; [|split].
  - intros ->. reflexivity.
  - intros -> ->. reflexivity.
  - intros -> agent ->. cbn [negb].
    destruct (generate_response_returns send generate py_format agent
                (fmt_opt (query_text request_data)) (query_context request_data)
                (opt_or (query_customer_oid request_data)
                   (query_CustomerOID request_data))
                no_kwargs) as [text Htext].
    exists text. rewrite Htext. split; reflexivity.
Qed.

(** X20.  [POST /mcp/analyze] needs a customer identifier: without one
    it answers [{"error": "CustomerOID is required"}].  With one, the
    agent is the entry of the handler's own table for the analysis type
    ([explainability_agent] for a type the table does not know), and
    there is no fallback: when that agent is not registered the answer is
    [{"error": "Agent not available: <agent>"}], whatever else is
    registered.  When it is registered the answer holds the identifier,
    the analysis type, the agent's name and the text generated for the
    prompt ["Provide a <type> analysis for this customer's financial
    situation."] with the customer's data. *)
Theorem analyze_endpoint_has_no_fallback (self : MCPOpenbankingServer.t)
    (request_data : analyze_request) :
  let customer_oid :=
    opt_or (analyze_customer_oid request_data) (analyze_CustomerOID request_data) in
  let analysis_type :=
    option_default (analyze_analysis_type request_data) "comprehensive" in
  let agent_name :=
    PyDict.get_default MCPOpenbankingServer.agent_mapping analysis_type
      "explainability_agent" in
  let reply :=
    MCPOpenbankingServer.analyze_customer send generate py_format self request_data in
  (opt_truthy customer_oid = false ->
   reply = JObj [("error", JStr "CustomerOID is required")])
  /\ (opt_truthy customer_oid = true ->
      AgentManager.get_agent (MCPOpenbankingServer.agent_manager self) agent_name = None ->
      reply = JObj [("error", JStr ("Agent not available: " ++ agent_name))])
  /\ (opt_truthy customer_oid = true ->
      forall agent,
        AgentManager.get_agent (MCPOpenbankingServer.agent_manager self) agent_name
        = Some agent ->
        exists text,
          Agent.generate_response send generate py_format agent
            ("Provide a " ++ analysis_type
             ++ " analysis for this customer's financial situation.")
            None customer_oid no_kwargs
          = Return text
          /\ reply = JObj [ ("customer_oid", JStr (fmt_opt customer_oid));
                            ("analysis_type", JStr analysis_type);
                            ("agent_used", JStr agent_name);
                            ("analysis", JStr text) ]).
Proof.
  cbv zeta. unfold MCPOpenbankingServer.analyze_customer.
  split; [|split].
  - intros ->. reflexivity.
  - intros -> ->. reflexivity.
  - intros -> agent ->. cbn [negb].
    destruct (generate_response_returns send generate py_format agent
                ("Provide a " ++ option_default (analyze_analysis_type request_data)
                                   "comprehensive"
                 ++ " analysis for this customer's financial situation.")
                None
                (opt_or (analyze_customer_oid request_data)
                   (analyze_CustomerOID request_data))
                no_kwargs) as [text Htext].
    exists text. rewrite Htext. split; reflexivity.
Qed.

(** X21.  A customer identifier given with the request of
    [POST /mcp/call] wins over the ones inside the arguments: it is
    written under both ["customer_oid"] and ["CustomerOID"] before the
    tool runs, so the tool's prompt shows it in the arguments and the
    customer data is fetched for it.  The answer is
    [{"result": <text of generate_response>}], also when the generation
    failed. *)
Theorem call_tool_uses_the_request_customer (self : MCPOpenbankingServer.t)
    (tool agent_name customer : string) (agent : Agent.t)
    (arguments : option (PyDict.t json)) (customer_oid CustomerOID : option string) :
  PyDict.get AgentManager.tool_agent_mapping tool = Some agent_name ->
  AgentManager.get_agent (MCPOpenbankingServer.agent_manager self) agent_name
  = Some agent ->
  opt_or customer_oid CustomerOID = Some customer ->
  str_truthy customer = true ->
  let sent := with_customer (option_default arguments PyDict.empty) customer in
  exists text,
    Agent.generate_response send generate py_format agent
      (execute_tool_prompt py_format agent tool sent) None (Some customer) no_kwargs
    = Return text
    /\ MCPOpenbankingServer.call_tool send generate py_format self
         (CallRequest (Some tool) arguments customer_oid CustomerOID)
       = JObj [("result", JStr text)].
Proof.
  intros Hmap Hagent Hor Htruthy sent.
  destruct (generate_response_returns send generate py_format agent
              (execute_tool_prompt py_format agent tool sent) None (Some customer)
              no_kwargs) as [text Htext].
  exists text. split; [exact Htext|].
  unfold MCPOpenbankingServer.call_tool.
  cbn [call_tool_name call_arguments call_customer_oid call_CustomerOID].
  rewrite get_agent_for_tool_lookup, Hmap.
  unfold AgentManager.get_agent in Hagent. rewrite Hagent.
  rewrite Hor. cbn [opt_truthy fmt_opt]. rewrite Htruthy.
  fold (with_customer (option_default arguments PyDict.empty) customer). fold sent.
  rewrite execute_tool_generates.
  unfold sent at 2. rewrite (customer_oid_argument_with_customer _ _ Htruthy).
  cbn [Agent.as_customer_oid]. rewrite Htext. reflexivity.
Qed.

End HandlersFurther.

Section StatusTools.

Variable list_models : nat -> outcome list_response.
Variable send : http_request -> outcome json.
Variable generate : generate_request -> outcome (PyDict.t string).
Variable py_format : json -> string.

Lemma register_tools_tracked (tools : PyDict.t string) :
  tracked_only tools -> tracked_only (MCPOpenbankingServer.register_tools tools).
Proof.
  intros Htracked tool Hin. unfold MCPOpenbankingServer.register_tools in Hin.
  apply keys_set in Hin. destruct Hin as [-> | Hin]; [right; reflexivity|].
  apply keys_set in Hin. destruct Hin as [-> | Hin]; [left; reflexivity|].
  exact (Htracked tool Hin).
Qed.

Lemma step_tracked (state : MCPOpenbankingServer.t * nat) (ev : MCPOpenbankingServer.event) :
  tracked_only (MCPOpenbankingServer.registered_tools (fst state)) ->
  tracked_only
    (MCPOpenbankingServer.registered_tools
       (fst (MCPOpenbankingServer.step list_models state ev))).
Proof.
  destruct state as [self calls]. intros Htracked. destruct ev as [|r|]; simpl.
  - unfold MCPOpenbankingServer.initialize.
    destruct (AgentManager.initialize list_models
                (MCPOpenbankingServer.agent_manager self) calls)
      as [[[u | e] manager] calls']; simpl.
    + apply register_tools_tracked. exact Htracked.
    + exact Htracked.
  - exact Htracked.
  - exact Htracked.
Qed.

Lemma run_tracked (events : list MCPOpenbankingServer.event) :
  forall state,
    tracked_only (MCPOpenbankingServer.registered_tools (fst state)) ->
    tracked_only
      (MCPOpenbankingServer.registered_tools
         (fst (MCPOpenbankingServer.run list_models state events))).
Proof.
  induction events as [|ev rest IH]; intros state Htracked; simpl; [exact Htracked|].
  apply IH. apply step_tracked. exact Htracked.
Qed.

(** X22.  The tools [GET /mcp/status] lists are the ones the tool
    registry tracked, which can only be [analyze_portfolio] and
    [portfolio_optimization]; neither is a key of the table of
    [get_agent_for_tool].  So in every state the server reaches, a
    [POST /mcp/call] for a tool that the status lists is answered
    [{"error": "No agent available for tool: <tool>"}], whichever agents
    are registered. *)
Theorem listed_tools_have_no_agent (config : Config.t) (calls : nat)
    (events : list MCPOpenbankingServer.event) :
  let server :=
    fst (MCPOpenbankingServer.run list_models (MCPOpenbankingServer.__init__ config, calls)
           events) in
  let listed := PyDict.keys (MCPOpenbankingServer.registered_tools server) in
  (exists agents,
     MCPOpenbankingServer.get_status server
     = JObj [ ("status", JStr "running"); ("agents", JObj agents);
              ("tools", JArr (map JStr listed)) ])
  /\ forall tool,
       In tool listed ->
       (tool = "analyze_portfolio" \/ tool = "portfolio_optimization")
       /\ forall arguments customer_oid CustomerOID,
            MCPOpenbankingServer.call_tool send generate py_format server
              (CallRequest (Some tool) arguments customer_oid CustomerOID)
            = JObj [("error", JStr ("No agent available for tool: " ++ tool))].
Proof.
  intros server listed.
  assert (Hok : registry_ok
                  (AgentManager.agents (MCPOpenbankingServer.agent_manager server))).
  { apply run_ok. split; constructor. }
  assert (Htracked : tracked_only (MCPOpenbankingServer.registered_tools server)).
  { apply run_tracked. intros tool []. }
  split.
  - eexists. apply get_status_report. exact (proj1 Hok).
  - intros tool Hin. specialize (Htracked tool Hin). split; [exact Htracked|].
    intros arguments customer_oid CustomerOID.
    unfold MCPOpenbankingServer.call_tool. cbn [call_tool_name].
    rewrite get_agent_for_tool_lookup.
    destruct Htracked as [-> | ->]; reflexivity.
Qed.

End StatusTools.

(** ** The tool modules *)

Section ToolCalls.

Variable send : http_request -> outcome json.
Variable generate : generate_request -> outcome (PyDict.t string).
Variable py_format : json -> string.

Lemma query_best_agent_returns (self : AgentManager.t) (prompt task_type : string)
    (context : option string) (kwargs : query_kwargs) :
  exists name response,
    AgentManager.query_best_agent send generate py_format self prompt task_type
      context kwargs
    = Return (name, response).
Proof.
  destruct (PyDict.get (AgentManager.agents self)
              (PyDict.get_default AgentManager.task_agent_mapping task_type
                 "explainability_agent")) as [agent|] eqn:Hpref.
  - destruct (query_best_agent_preferred send generate py_format self prompt task_type
                context kwargs agent Hpref) as (response & _ & Hrouted). eauto.
  - destruct (AgentManager.agents self) as [|[first agent] rest] eqn:Hreg.
    + exists "none", "Error: No agents available".
      apply query_best_agent_none. exact Hreg.
    + rewrite <- Hreg in Hpref.
      destruct (query_best_agent_fallback send generate py_format self prompt task_type
                  context kwargs first agent rest Hpref Hreg)
        as (response & _ & Hrouted). eauto.
Qed.

(** Every tool function is the shared body over its own texts. *)
Lemma run_tool_call_attributed (manager : AgentManager.t) (call : tool_call) :
  run_tool_call send generate py_format manager call
  = attributed (tool_call_title call) (tool_call_error call)
      (tool_call_query send generate py_format manager call).
Proof. destruct call; reflexivity. Qed.

Lemma attributed_returned (title error : string) (query : outcome (string * string))
    (name response : string) :
  query = Return (name, response) ->
  attributed title error query
  = Return (title ++ " (by " ++ name ++ "):" ++ nl ++ nl ++ response).
Proof. intros ->. reflexivity. Qed.

(** X23.  Each of the twenty functions of the five tool modules returns
    the response of the routing query under a heading that names the
    agent that answered, [<title> (by <agent>):], so a fallback agent or
    ["none"] shows in the heading.  None of them raises, and since the
    routing query never raises, the error text of their [except] branch
    is not produced. *)
Theorem tool_results_name_the_agent (manager : AgentManager.t) (call : tool_call) :
  exists name response,
    AgentManager.query_best_agent send generate py_format manager
      (tool_call_prompt call) (tool_call_task_type call)
      (Some (tool_call_context py_format call)) (QueryKwargs None no_kwargs)
    = Return (name, response)
    /\ run_tool_call send generate py_format manager call
       = Return (tool_call_title call ++ " (by " ++ name ++ "):" ++ nl ++ nl ++ response).
Proof.
  destruct (query_best_agent_returns manager (tool_call_prompt call)
              (tool_call_task_type call) (Some (tool_call_context py_format call))
              (QueryKwargs None no_kwargs)) as (name & response & Hq).
  exists name, response. split; [exact Hq|].
  rewrite run_tool_call_attributed. apply attributed_returned. exact Hq.
Qed.

(** X24.  The task type of every tool function is a key of the task
    table, so none relies on the default: portfolio and strategy tools
    prefer [portfolio_manager], market tools [market_analyst], risk tools
    [risk_analyst] and analysis tools [explainability_agent].  When that
    agent is registered the result is headed by its name and holds its
    response to the tool's prompt with the tool's context; on an empty
    registry the result is
    [<title> (by none):] over ["Error: No agents available"]. *)
Theorem tool_calls_prefer_their_agent (manager : AgentManager.t) (call : tool_call) :
  PyDict.get AgentManager.task_agent_mapping (tool_call_task_type call)
  = Some (tool_call_agent call)
  /\ (forall agent,
        PyDict.get (AgentManager.agents manager) (tool_call_agent call) = Some agent ->
        exists response,
          Agent.generate_response send generate py_format agent (tool_call_prompt call)
            (Some (tool_call_context py_format call)) None no_kwargs
          = Return response
          /\ run_tool_call send generate py_format manager call
             = Return (tool_call_title call ++ " (by " ++ tool_call_agent call ++ "):"
                       ++ nl ++ nl ++ response))
  /\ (AgentManager.agents manager = [] ->
      run_tool_call send generate py_format manager call
      = Return (tool_call_title call ++ " (by none):" ++ nl ++ nl
                ++ "Error: No agents available")).
Proof.
  assert (Hmap : PyDict.get AgentManager.task_agent_mapping (tool_call_task_type call)
                 = Some (tool_call_agent call)) by (destruct call; reflexivity).
  split; [exact Hmap|]. split.
  - intros agent Hget.
    destruct (query_best_agent_preferred send generate py_format manager
                (tool_call_prompt call) (tool_call_task_type call)
                (Some (tool_call_context py_format call)) (QueryKwargs None no_kwargs)
                agent) as (response & Hgen & Hrouted).
    + unfold PyDict.get_default. rewrite Hmap. exact Hget.
    + exists response. split; [exact Hgen|].
      rewrite run_tool_call_attributed. apply attributed_returned.
      unfold tool_call_query. rewrite Hrouted.
      unfold PyDict.get_default. rewrite Hmap. reflexivity.
  - intros Hempty. rewrite run_tool_call_attributed.
    apply (attributed_returned _ _ _ "none" "Error: No agents available").
    apply query_best_agent_none. exact Hempty.
Qed.

Lemma generate_response_without_customer (send' : http_request -> outcome json)
    (self : Agent.t) (prompt : string) (context : option string) (kwargs : gen_kwargs) :
  Agent.generate_response send generate py_format self prompt context None kwargs
  = Agent.generate_response send' generate py_format self prompt context None kwargs.
Proof. reflexivity. Qed.

(** X25.  The tool functions pass no customer identifier to the router,
    so none of them asks the bank service: whatever the service would
    answer, the result is the same. *)
Theorem tool_calls_make_no_bank_request (send' : http_request -> outcome json)
    (manager : AgentManager.t) (call : tool_call) :
  run_tool_call send generate py_format manager call
  = run_tool_call send' generate py_format manager call.
Proof. destruct call; reflexivity. Qed.

End ToolCalls.

(** ** The default configuration and the routing tables *)

Lemma keys_get {V : Type} (d : PyDict.t V) (k : string) :
  In k (PyDict.keys d) -> exists v, PyDict.get d k = Some v.
Proof.
  induction d as [|[k0 v0] r IH]; simpl; [intros []|].
  intros Hin. destruct (String.eqb k0 k) eqn:E; [eauto|].
  destruct Hin as [-> | Hin]; [|exact (IH Hin)].
  rewrite String.eqb_refl in E. discriminate.
Qed.

Lemma get_default_In (d : PyDict.t string) (k default : string) :
  In (PyDict.get_default d k default) (default :: map snd d).
Proof.
  unfold PyDict.get_default. destruct (PyDict.get d k) as [v|] eqn:Hget.
  - right. apply get_In in Hget. exact (in_map snd _ _ Hget).
  - left. reflexivity.
Qed.

Lemma names_listed (names table : list string) :
  forallb (fun v => Agent.name_in v names) table = true ->
  forall v, In v table -> In v names.
Proof.
  intros Hall v Hin. rewrite forallb_forall in Hall.
  apply name_in_iff. exact (Hall v Hin).
Qed.

Section DefaultConfiguration.

Variable list_models : nat -> outcome list_response.
Variable send : http_request -> outcome json.
Variable generate : generate_request -> outcome (PyDict.t string).
Variable py_format : json -> string.

Lemma initialize_loop_pass (bank : BankApiClient.t) (c : AgentConfig.t)
    (rest : list AgentConfig.t) (agents : PyDict.t Agent.t) (calls : nat) :
  AgentConfig.enabled c = true ->
  fst (Agent.is_model_available (Agent.__init__ c bank) (list_models calls)) = true ->
  AgentManager.initialize_loop list_models bank (c :: rest) agents calls
  = AgentManager.initialize_loop list_models bank rest
      (PyDict.set agents (AgentConfig.name c)
         (Agent.set_is_available
            (snd (Agent.is_model_available (Agent.__init__ c bank) (list_models calls)))
            true))
      (S calls).
Proof.
  intros Hen Hpass. cbn [AgentManager.initialize_loop]. rewrite Hen. cbn [negb].
  destruct (Agent.is_model_available (Agent.__init__ c bank) (list_models calls))
    as [available agent].
  cbn [fst snd] in *. subst available. reflexivity.
Qed.

Lemma started_registry (config : Config.t) (calls : nat) (models_response : list_response) :
  list_models calls = Return models_response ->
  AgentManager.agents (started list_models config calls)
  = fst (AgentManager.initialize_loop list_models
           (BankApiClient.__init__ (Config.bank_api config))
           (Config.agents config) PyDict.empty (S calls)).
Proof.
  intros Hret.
  unfold started, AgentManager.initialize, AgentManager._test_ollama_connection,
    AgentManager._initialize_agents.
  rewrite Hret. cbn [bind try_except].
  cbn [AgentManager.__init__ AgentManager.set_ollama_client AgentManager.agents
       AgentManager.config AgentManager.bank_api_client].
  destruct (AgentManager.initialize_loop list_models
              (BankApiClient.__init__ (Config.bank_api config))
              (Config.agents config) PyDict.empty (S calls)) as [agents calls'].
  reflexivity.
Qed.

(** X26.  The default configuration and the routing tables fit together.
    When the runtime answers the connection test and each of the four
    listings that follow holds a name starting with [llama3.2], a server
    started from the default configuration registers its four agents in
    the configured order, each available, reported as [llama3.2:latest]
    and generating with a model whose name starts with [llama3.2].  Then
    no route is left
    without its agent: [query_best_agent] answers every task type with
    the table's agent and never falls back, every tool name of the tool
    table gets the agent of that name, and every analysis type of
    [POST /mcp/analyze] finds its agent. *)
Theorem default_configuration_serves_every_route (calls : nat) :
  (exists models_response, list_models calls = Return models_response) ->
  (forall i, i < 4 ->
     exists m, In m (listed_models (list_models (i + S calls)))
               /\ startswith m "llama3.2" = true) ->
  let manager := started list_models _create_default_config calls in
  AgentManager.list_agents manager
  = [ "market_analyst"; "portfolio_manager"; "risk_analyst"; "explainability_agent" ]
  /\ (forall name agent,
        AgentManager.get_agent manager name = Some agent ->
        Agent.name agent = name
        /\ Agent.is_available agent = true
        /\ Agent.model_name agent = "llama3.2:latest"
        /\ startswith (Agent.model agent) "llama3.2" = true)
  /\ (forall prompt task_type context kwargs,
        exists response,
          AgentManager.query_best_agent send generate py_format manager prompt task_type
            context kwargs
          = Return (PyDict.get_default AgentManager.task_agent_mapping task_type
                      "explainability_agent", response))
  /\ (forall tool name,
        PyDict.get AgentManager.tool_agent_mapping tool = Some name ->
        exists agent,
          AgentManager.get_agent_for_tool manager (Some tool) = Some agent
          /\ Agent.name agent = name)
  /\ (forall analysis_type,
        exists agent,
          AgentManager.get_agent manager
            (PyDict.get_default MCPOpenbankingServer.agent_mapping analysis_type
               "explainability_agent")
          = Some agent).
Proof.
  intros [models_response Hret] Hlisted manager.
  set (bank := BankApiClient.__init__ (Config.bank_api _create_default_config)).
  assert (Hreg : AgentManager.agents manager
                 = fst (AgentManager.initialize_loop list_models bank
                          (Config.agents _create_default_config) PyDict.empty (S calls)))
    by exact (started_registry _create_default_config calls models_response Hret).
  assert (Hpass : forall i c, i < 4 -> In c (Config.agents _create_default_config) ->
            fst (Agent.is_model_available (Agent.__init__ c bank)
                   (list_models (i + S calls))) = true).
  { intros i c Hi Hc. apply probe_succeeds_iff. right.
    destruct (Hlisted i Hi) as (m & Hin & Hpre). exists m. split; [exact Hin|].
    cbn in Hc. destruct Hc as [<- | [<- | [<- | [<- | []]]]]; exact Hpre. }
  assert (Hkeys : AgentManager.list_agents manager = default_agent_names).
  { unfold AgentManager.list_agents. rewrite Hreg.
    cbn [_create_default_config Config.agents].
    rewrite initialize_loop_pass;
      [| reflexivity | apply (Hpass 0); [auto | cbn; auto]].
    rewrite initialize_loop_pass;
      [| reflexivity | apply (Hpass 1); [auto | cbn; auto]].
    rewrite initialize_loop_pass;
      [| reflexivity | apply (Hpass 2); [auto | cbn; auto]].
    rewrite initialize_loop_pass;
      [| reflexivity | apply (Hpass 3); [auto | cbn; tauto]].
    reflexivity. }
  assert (Hmade : Forall (made_from (Config.agents _create_default_config) bank)
                    (AgentManager.agents manager)).
  { rewrite Hreg.
    apply initialize_loop_made_from; [auto | constructor]. }
  assert (Hfound : forall name, In name default_agent_names ->
            exists agent, PyDict.get (AgentManager.agents manager) name = Some agent).
  { intros name Hin. apply keys_get. fold (AgentManager.list_agents manager).
    rewrite Hkeys. exact Hin. }
  split; [exact Hkeys|]. split; [|split; [|split]].
  - intros name agent Hget. unfold AgentManager.get_agent in Hget.
    apply get_In in Hget. rewrite Forall_forall in Hmade.
    pose proof (Hmade _ Hget) as Hm. cbn [made_from] in Hm.
    destruct Hm as (Hc & _ & _ & Hname & _ & Hmodel & _ & Hav & Hpre).
    assert (Hid : AgentConfig.model (Agent.config agent) = "llama3.2:latest").
    { cbn in Hc. destruct Hc as [<- | [<- | [<- | [<- | []]]]]; reflexivity. }
    rewrite Hid in Hmodel. rewrite Hmodel in Hpre.
    repeat split; assumption.
  - intros prompt task_type context kwargs.
    destruct (Hfound (PyDict.get_default AgentManager.task_agent_mapping task_type
                        "explainability_agent")) as [agent Hget].
    { apply (names_listed default_agent_names
               ("explainability_agent" :: map snd AgentManager.task_agent_mapping));
        [reflexivity | apply get_default_In]. }
    destruct (query_best_agent_preferred send generate py_format manager prompt task_type
                context kwargs agent Hget) as (response & _ & Hrouted).
    exists response. exact Hrouted.
  - intros tool name Htool.
    destruct (Hfound name) as [agent Hget].
    { apply (names_listed default_agent_names (map snd AgentManager.tool_agent_mapping));
        [reflexivity|].
      apply get_In in Htool. exact (in_map snd _ _ Htool). }
    exists agent. rewrite get_agent_for_tool_lookup, Htool. split; [exact Hget|].
    apply get_In in Hget. rewrite Forall_forall in Hmade.
    pose proof (Hmade _ Hget) as Hm. cbn [made_from] in Hm. tauto.
  - intros analysis_type. apply Hfound.
    apply (names_listed default_agent_names
             ("explainability_agent" :: map snd MCPOpenbankingServer.agent_mapping));
      [reflexivity | apply get_default_In].
Qed.

End DefaultConfiguration.

Lemma default_configuration_serves_every_route_sample :
  AgentManager.list_agents (started sample_models _create_default_config 0)
  = [ "market_analyst"; "portfolio_manager"; "risk_analyst"; "explainability_agent" ]
  /\ exists response,
       AgentManager.query_best_agent sample_send sample_echo sample_format
         (started sample_models _create_default_config 0)
         "What is duration?" "unknown_task" None (QueryKwargs None no_kwargs)
       = Return ("explainability_agent", response).
Proof.
  destruct (default_configuration_serves_every_route sample_models sample_send sample_echo
              sample_format 0) as (Hkeys & _ & Hroute & _).
  - eexists. reflexivity.
  - intros i _. exists "llama3.2:1b". split; [left; reflexivity | reflexivity].
  - split; [exact Hkeys|].
    exact (Hroute "What is duration?" "unknown_task" None (QueryKwargs None no_kwargs)).
Defined.

(** ** The customer endpoint over the life of the server *)

Section CustomerEndpoint.

Variable list_models : nat -> outcome list_response.
Variable send : http_request -> outcome json.

Lemma initialize_keeps_client (self : AgentManager.t) (calls : nat) :
  AgentManager.bank_api_client (snd (fst (AgentManager.initialize list_models self calls)))
  = AgentManager.bank_api_client self.
Proof.
  unfold AgentManager.initialize, AgentManager._test_ollama_connection,
    AgentManager._initialize_agents.
  destruct (try_except (_ <- list_models calls ;; Return tt) (fun e => Raise e));
    [|reflexivity].
  cbn [AgentManager.set_ollama_client AgentManager.agents AgentManager.config
       AgentManager.bank_api_client].
  destruct (AgentManager.initialize_loop list_models (AgentManager.bank_api_client self)
              (Config.agents (AgentManager.config self)) (AgentManager.agents self)
              (S calls)) as [agents calls'].
  reflexivity.
Qed.

Lemma step_keeps_client (state : MCPOpenbankingServer.t * nat)
    (ev : MCPOpenbankingServer.event) :
  AgentManager.bank_api_client
    (MCPOpenbankingServer.agent_manager
       (fst (MCPOpenbankingServer.step list_models state ev)))
  = AgentManager.bank_api_client (MCPOpenbankingServer.agent_manager (fst state)).
Proof.
  destruct state as [self calls]. destruct ev as [|r|]; simpl; [|reflexivity..].
  unfold MCPOpenbankingServer.initialize.
  pose proof (initialize_keeps_client (MCPOpenbankingServer.agent_manager self) calls)
    as Hkeep.
  destruct (AgentManager.initialize list_models
              (MCPOpenbankingServer.agent_manager self) calls)
    as [[[u | e] manager] calls']; exact Hkeep.
Qed.

Lemma run_keeps_client (events : list MCPOpenbankingServer.event) :
  forall state,
    AgentManager.bank_api_client
      (MCPOpenbankingServer.agent_manager
         (fst (MCPOpenbankingServer.run list_models state events)))
    = AgentManager.bank_api_client (MCPOpenbankingServer.agent_manager (fst state)).
Proof.
  induction events as [|ev rest IH]; intros state; [reflexivity|].
  change (MCPOpenbankingServer.run list_models state (ev :: rest))
    with (MCPOpenbankingServer.run list_models
            (MCPOpenbankingServer.step list_models state ev) rest).
  rewrite IH. apply step_keeps_client.
Qed.

(** X27.  [GET /mcp/customer/<id>] in every state the server reaches,
    started or not, with or without agents, after a shutdown as well:
    the reply is the composite record of the client built from the
    configuration's [bank_api] section, with the identifier and the five
    sources as keys.  The handler's own [{"error": ...}] reply is never
    given, and no agent or model runtime takes part. *)
Theorem customer_endpoint_serves_the_composite (config : Config.t) (calls : nat)
    (events : list MCPOpenbankingServer.event) (oid : string) :
  let server :=
    fst (MCPOpenbankingServer.run list_models (MCPOpenbankingServer.__init__ config, calls)
           events) in
  exists record,
    BankApiClient.get_comprehensive_customer_data send
      (BankApiClient.__init__ (Config.bank_api config)) oid
    = Return (JObj record)
    /\ MCPOpenbankingServer.get_customer_data send server oid = JObj record
    /\ PyDict.keys record = "customer_oid" :: five_source_keys
    /\ PyDict.get record "customer_oid" = Some (JStr oid).
Proof.
  intros server.
  assert (Hclient : AgentManager.bank_api_client (MCPOpenbankingServer.agent_manager server)
                    = BankApiClient.__init__ (Config.bank_api config))
    by exact (run_keeps_client events (MCPOpenbankingServer.__init__ config, calls)).
  unfold MCPOpenbankingServer.get_customer_data. rewrite Hclient.
  rewrite composite_assembled.
  eexists. split; [reflexivity|]. split; [reflexivity|].
  split; reflexivity.
Qed.

End CustomerEndpoint.

(** ** The further properties on the samples *)

(** The disabled [portfolio_manager] of the sample configuration is not
    registered, and three listings are made for the three enabled
    agents. *)
Lemma disabled_agents_are_skipped_sample :
  ~ In "portfolio_manager"
      (PyDict.keys (fst (AgentManager.initialize_loop (fun _ => sample_listing)
                           sample_client sample_configs PyDict.empty 0)))
  /\ snd (AgentManager.initialize_loop (fun _ => sample_listing)
            sample_client sample_configs PyDict.empty 0) = 3.
Proof.
  destruct (disabled_agents_are_skipped (fun _ => sample_listing) sample_client
              sample_configs PyDict.empty 0) as (_ & Hcalls & Hname).
  split; [|exact Hcalls].
  intros Hin. apply (Hname "portfolio_manager") in Hin; [exact Hin|].
  intros c Hc Hn. cbn in Hc.
  destruct Hc as [<- | [<- | [<- | [<- | []]]]]; try discriminate Hn; reflexivity.
Defined.

(** Without a runtime the server's initialisation raises. *)
Lemma initialize_needs_the_runtime_sample :
  fst (fst (MCPOpenbankingServer.initialize sample_no_runtime
              (MCPOpenbankingServer.__init__ sample_server_config) 0))
  = Raise (Exn "ConnectionError" "connection refused").
Proof.
  destruct (initialize_needs_the_runtime sample_no_runtime
              (AgentManager.__init__ sample_server_config) 0) as [Hraise _].
  destruct (Hraise (Exn "ConnectionError" "connection refused") eq_refl) as [_ Hserver].
  exact (f_equal (fun result => fst (fst result)) (Hserver PyDict.empty)).
Defined.

(** A query without [agent_type] asks for [market_analyst] and for no
    other agent. *)
Lemma query_endpoint_checks_in_order_sample :
  MCPOpenbankingServer.query_agent sample_send sample_echo sample_format
    (MCPOpenbankingServer.Build (sample_manager ["risk_analyst"]) PyDict.empty)
    (QueryRequest None (Some "What is duration?") None None None)
  = JObj [("error", JStr "Agent not found: market_analyst")].
Proof.
  destruct (query_endpoint_checks_in_order sample_send sample_echo sample_format
              (MCPOpenbankingServer.Build (sample_manager ["risk_analyst"]) PyDict.empty)
              (QueryRequest None (Some "What is duration?") None None None))
    as (_ & Hmissing & _).
  exact (Hmissing eq_refl eq_refl).
Defined.

(** A risk analysis is not handed to another agent. *)
Lemma analyze_endpoint_has_no_fallback_sample :
  MCPOpenbankingServer.analyze_customer sample_send sample_echo sample_format
    (MCPOpenbankingServer.Build (sample_manager ["explainability_agent"]) PyDict.empty)
    (AnalyzeRequest None (Some "CUST1") (Some "risk"))
  = JObj [("error", JStr "Agent not available: risk_analyst")].
Proof.
  destruct (analyze_endpoint_has_no_fallback sample_send sample_echo sample_format
              (MCPOpenbankingServer.Build (sample_manager ["explainability_agent"])
                 PyDict.empty)
              (AnalyzeRequest None (Some "CUST1") (Some "risk")))
    as (_ & Hmissing & _).
  exact (Hmissing eq_refl eq_refl).
Defined.

(** The identifier of the request replaces the one in the arguments. *)
Lemma call_tool_uses_the_request_customer_sample :
  Agent.customer_oid_argument (with_customer [ ("customer_oid", JStr "OTHER") ] "CUST1")
  = Some (JStr "CUST1")
  /\ exists text,
       MCPOpenbankingServer.call_tool sample_send sample_echo sample_format
         (MCPOpenbankingServer.Build (sample_manager ["risk_analyst"]) PyDict.empty)
         (CallRequest (Some "calculate_var") (Some [ ("customer_oid", JStr "OTHER") ])
            None (Some "CUST1"))
       = JObj [("result", JStr text)].
Proof.
  split; [reflexivity|].
  destruct (call_tool_uses_the_request_customer sample_send sample_echo sample_format
              (MCPOpenbankingServer.Build (sample_manager ["risk_analyst"]) PyDict.empty)
              "calculate_var" "risk_analyst" "CUST1" (sample_agent "risk_analyst")
              (Some [ ("customer_oid", JStr "OTHER") ]) None (Some "CUST1")
              eq_refl eq_refl eq_refl eq_refl) as (text & _ & Hcall).
  exists text. exact Hcall.
Defined.

(** After the start the status lists [analyze_portfolio], and a call of
    it finds no agent. *)
Lemma listed_tools_have_no_agent_sample :
  let server :=
    fst (MCPOpenbankingServer.run (fun _ => sample_listing)
           (MCPOpenbankingServer.__init__ sample_server_config, 0)
           [ MCPOpenbankingServer.Initialize ]) in
  PyDict.keys (MCPOpenbankingServer.registered_tools server)
  = [ "analyze_portfolio"; "portfolio_optimization" ]
  /\ MCPOpenbankingServer.call_tool sample_send sample_echo sample_format server
       (CallRequest (Some "analyze_portfolio") None None None)
     = JObj [("error", JStr "No agent available for tool: analyze_portfolio")].
Proof.
  intros server. split; [reflexivity|].
  destruct (listed_tools_have_no_agent (fun _ => sample_listing) sample_send sample_echo
              sample_format sample_server_config 0 [ MCPOpenbankingServer.Initialize ])
    as [_ Htools].
  destruct (Htools "analyze_portfolio") as [_ Hcall].
  - left. reflexivity.
  - exact (Hcall None None None).
Defined.

(** With no agent registered a tool still answers, under the name
    [none]. *)
Lemma tool_calls_prefer_their_agent_sample :
  run_tool_call sample_send sample_echo sample_format (sample_manager [])
    (SectorAnalysis "energy")
  = Return ("Sector Analysis (by none):" ++ nl ++ nl ++ "Error: No agents available").
Proof.
  destruct (tool_calls_prefer_their_agent sample_send sample_echo sample_format
              (sample_manager []) (SectorAnalysis "energy")) as (_ & _ & Hempty).
  exact (Hempty eq_refl).
Defined.
